(** * INV-Tracker: aggregation, pagination and CSV export of [AppComponent]

    A shallow embedding of [src/app.component.ts] (with the types of
    [src/models/inventory.model.ts]) and the properties of its data
    pipeline.

    Conventions.
    - A JavaScript Number is an IEEE-754 binary64 value: Rocq's primitive
      [float], whose operations are specified by [FloatAxioms] against
      [SpecFloat].
    - A JavaScript String is a [string]; each character stands for one
      UTF-16 code unit below 256 (the Latin-1 range), which fixes the white
      space and the case mapping used by [trim] and [toLowerCase].
    - A cell of the incoming table is a string or a number; reading a row
      outside its bounds gives [undefined].  A field that the TypeScript
      interfaces declare as [string] holds whatever the cell held at run
      time, so it is a [value] here.
    - Page numbers and array indices are integral Numbers and are kept in
      [Z]; array lengths are [nat].
    - A thrown exception is the [Throw] result of the [completion] monad. *)

From Stdlib Require Import ZArith List String Ascii Bool Lia Floats QArith Qround.
From Stdlib Require Import DecimalString.
From Stdlib Require Import Permutation Sorted.
Import ListNotations.

Local Open Scope string_scope.
Local Open Scope list_scope.
Local Open Scope Z_scope.

(** ** Exceptions *)

Inductive exn : Type :=
| Error (message : string)
| TypeError (message : string).

Definition exn_message (e : exn) : string :=
  match e with
  | Error m => m
  | TypeError m => m
  end.

Inductive completion (A : Type) : Type :=
| Normal (a : A)
| Throw (e : exn).

Arguments Normal {A} a.
Arguments Throw {A} e.

Definition bind {A B : Type} (c : completion A) (k : A -> completion B) : completion B :=
  match c with
  | Normal a => k a
  | Throw e => Throw e
  end.

Notation "'let*' x ':=' c 'in' k" := (bind c (fun x => k))
  (at level 10, x pattern, c at level 100, k at level 200).

(** ** Strings *)

Module JSString.

Definition dquote : ascii := ascii_of_nat 34.

(** WhiteSpace and LineTerminator code units below 256:
    TAB, LF, VT, FF, CR, SP and NBSP. *)
Definition is_white_space (c : ascii) : bool :=
  let n := nat_of_ascii c in
  ((9 <=? n) && (n <=? 13) || (n =? 32) || (n =? 160))%nat.

Fixpoint trimStart (s : string) : string :=
  match s with
  | EmptyString => EmptyString
  | String c s' => if is_white_space c then trimStart s' else s
  end.

Fixpoint rev_append (s acc : string) : string :=
  match s with
  | EmptyString => acc
  | String c s' => rev_append s' (String c acc)
  end.

Definition rev (s : string) : string := rev_append s EmptyString.

Definition trimEnd (s : string) : string := rev (trimStart (rev s)).

(** [String.prototype.trim] *)
Definition trim (s : string) : string := trimEnd (trimStart s).

(** Simple lower-case mapping of a Latin-1 code unit: [A-Z], and
    U+00C0..U+00DE except the multiplication sign U+00D7. *)
Definition lower_char (c : ascii) : ascii :=
  let n := nat_of_ascii c in
  if ((65 <=? n) && (n <=? 90) ||
      (192 <=? n) && (n <=? 222) && negb (n =? 215))%nat
  then ascii_of_nat (n + 32) else c.

(** [String.prototype.toLowerCase], on code units below U+0100: there the
    mapping of a code unit does not depend on its neighbours. *)
Fixpoint toLowerCase (s : string) : string :=
  match s with
  | EmptyString => EmptyString
  | String c s' => String (lower_char c) (toLowerCase s')
  end.

Fixpoint startsWith (p s : string) : bool :=
  match p, s with
  | EmptyString, _ => true
  | String a p', String b s' => Ascii.eqb a b && startsWith p' s'
  | String _ _, EmptyString => false
  end.

(** [String.prototype.includes] *)
Fixpoint includes (s term : string) : bool :=
  startsWith term s ||
  match s with
  | EmptyString => false
  | String _ s' => includes s' term
  end.

(** [s.replace] with the global pattern of one double quote and the
    replacement of two: every double quote is doubled. *)
Fixpoint double_quotes (s : string) : string :=
  match s with
  | EmptyString => EmptyString
  | String c s' =>
      if Ascii.eqb c dquote
      then String dquote (String dquote (double_quotes s'))
      else String c (double_quotes s')
  end.

(** [Array.prototype.join] on strings *)
Fixpoint join (sep : string) (l : list string) : string :=
  match l with
  | [] => EmptyString
  | [x] => x
  | x :: l' => (x ++ sep ++ join sep l')%string
  end.

End JSString.

(** ** Numbers *)

Module JSNumber.

(** The value of [c] as a digit in [base] (2, 8, 10 or 16). *)
Definition digit_of (base : Z) (c : ascii) : option Z :=
  let n := Z.of_nat (nat_of_ascii c) in
  let d := if (48 <=? n) && (n <=? 57) then n - 48
           else if (97 <=? n) && (n <=? 102) then n - 87
           else if (65 <=? n) && (n <=? 70) then n - 55
           else 16 in
  if d <? base then Some d else None.

(** Reads the longest prefix of digits of [s]: the number they denote
    after the digits already read ([acc]), how many were read, and the
    rest of the string. *)
Fixpoint digits (base : Z) (s : string) (acc : Z) (n : Z) : Z * Z * string :=
  match s with
  | EmptyString => (acc, n, s)
  | String c s' =>
      match digit_of base c with
      | Some d => digits base s' (base * acc + d) (n + 1)
      | None => (acc, n, s)
      end
  end.

(** The Number value of the mathematical value [m * 10 ^ e], [0 <= m]:
    round to nearest, ties to even. *)
Definition round_pos (m e : Z) : spec_float :=
  if m =? 0 then S754_zero false
  else if 0 <=? e then binary_normalize prec emax (m * 10 ^ e) 0 false
  else
    let '(q, e', l) := SFdiv_core_binary prec emax m 0 (10 ^ (- e)) 0 in
    binary_round_aux prec emax false q e' l.

(** ExponentPart, up to the end of the string; absent, it is 0. *)
Definition exponent_part (s : string) : option Z :=
  match s with
  | EmptyString => Some 0
  | String c s' =>
      if Ascii.eqb c "e" || Ascii.eqb c "E" then
        let '(neg, s'') :=
          match s' with
          | String "+" t => (false, t)
          | String "-" t => (true, t)
          | _ => (false, s')
          end in
        match digits 10 s'' 0 0 with
        | (v, n, EmptyString) =>
            if 0 <? n then Some (if neg then - v else v) else None
        | _ => None
        end
      else None
  end.

(** StrUnsignedDecimalLiteral *)
Definition unsigned_decimal (s : string) : option spec_float :=
  if String.eqb s "Infinity" then Some (S754_infinity false) else
  let '(ip, ni, r1) := digits 10 s 0 0 in
  match r1 with
  | String "." r2 =>
      let '(m, nf, r3) := digits 10 r2 ip 0 in
      if (0 <? ni) || (0 <? nf)
      then option_map (fun e => round_pos m (e - nf)) (exponent_part r3)
      else None
  | _ =>
      if 0 <? ni
      then option_map (fun e => round_pos ip e) (exponent_part r1)
      else None
  end.

(** NonDecimalIntegerLiteral: binary, octal or hexadecimal, unsigned. *)
Definition non_decimal (s : string) : option spec_float :=
  match s with
  | String "0" (String c r) =>
      let base :=
        if Ascii.eqb c "x" || Ascii.eqb c "X" then 16
        else if Ascii.eqb c "o" || Ascii.eqb c "O" then 8
        else if Ascii.eqb c "b" || Ascii.eqb c "B" then 2
        else 0 in
      match digits base r 0 0 with
      | (v, n, EmptyString) =>
          if (0 <? base) && (0 <? n) then Some (round_pos v 0) else None
      | _ => None
      end
  | _ => None
  end.

Definition or_nan (o : option spec_float) : spec_float :=
  match o with
  | Some v => v
  | None => S754_nan
  end.

(** StringToNumber: the surrounding white space is dropped; the empty
    string is +0; text outside the StringNumericLiteral grammar is NaN. *)
Definition StringToNumber (s : string) : float :=
  let t := JSString.trim s in
  SF2Prim
    match t with
    | EmptyString => S754_zero false
    | String c t' =>
        match non_decimal t with
        | Some v => v
        | None =>
            if Ascii.eqb c "+" then or_nan (unsigned_decimal t')
            else if Ascii.eqb c "-"
                 then SFopp (or_nan (unsigned_decimal t'))
                 else or_nan (unsigned_decimal t)
        end
    end.

End JSNumber.

(** ** Values *)

Inductive value : Type :=
| undefined
| VString (s : string)
| VNumber (n : float).

(** A cell of [InventoryResponse.rows]: [string | number]. *)
Inductive cell : Type :=
| CString (s : string)
| CNumber (n : float).

Definition value_of_cell (c : cell) : value :=
  match c with
  | CString s => VString s
  | CNumber n => VNumber n
  end.

(** ToBoolean *)
Definition truthy (v : value) : bool :=
  match v with
  | undefined => false
  | VString s => negb (String.eqb s "")
  | VNumber n => negb (PrimFloat.eqb n 0 || PrimFloat.is_nan n)
  end.

(** [a || b] *)
Definition or_else (a b : value) : value := if truthy a then a else b.

(** [Number(v)] *)
Definition Number (v : value) : float :=
  match v with
  | undefined => nan
  | VString s => JSNumber.StringToNumber s
  | VNumber n => n
  end.

Definition isNaN (n : float) : bool := PrimFloat.is_nan n.

Definition Math_abs (n : float) : float := PrimFloat.abs n.

(** SameValueZero, the key equality of [Map] *)
Definition same_value_zero (a b : value) : bool :=
  match a, b with
  | undefined, undefined => true
  | VString s, VString t => String.eqb s t
  | VNumber n, VNumber m =>
      PrimFloat.eqb n m || (PrimFloat.is_nan n && PrimFloat.is_nan m)
  | _, _ => false
  end.

(** IsStrictlyEqual, [a === b] *)
Definition strict_equal (a b : value) : bool :=
  match a, b with
  | undefined, undefined => true
  | VString s, VString t => String.eqb s t
  | VNumber n, VNumber m => PrimFloat.eqb n m
  | _, _ => false
  end.

(** [v.trim()] where [v] is not [undefined]: a Number has no [trim]
    property, so the call throws.  The message of a TypeError is worded by
    the engine; the texts here stand for it. *)
Definition call_trim (v : value) : completion string :=
  match v with
  | VString s => Normal (JSString.trim s)
  | VNumber _ => Throw (TypeError "trim is not a function")
  | undefined => Throw (TypeError "Cannot read properties of undefined")
  end.

(** ** Arrays *)

Module JSArray.

Fixpoint indexOf_from (l : list string) (h : string) (i : Z) : Z :=
  match l with
  | [] => -1
  | x :: l' => if String.eqb x h then i else indexOf_from l' h (i + 1)
  end.

(** [Array.prototype.indexOf] on an array of strings *)
Definition indexOf (l : list string) (h : string) : Z := indexOf_from l h 0.

(** [row[i]]: outside the bounds of the array (among them index -1, by
    which a column that is not present is read) the value is [undefined]. *)
Definition get (row : list cell) (i : Z) : value :=
  if i <? 0 then undefined
  else match nth_error row (Z.to_nat i) with
       | Some c => value_of_cell c
       | None => undefined
       end.

(** Places [x] in a list ordered by [cmp], after the elements it must
    follow ([0 < cmp x y]: [x] sorts after [y]). *)
Fixpoint insert {A : Type} (cmp : A -> A -> Z) (x : A) (l : list A) : list A :=
  match l with
  | [] => [x]
  | y :: l' => if 0 <? cmp x y then y :: insert cmp x l' else x :: l
  end.

(** [Array.prototype.sort] with a comparator, of which [cmp a b] is the
    sign (a NaN counts as 0).  The sort is stable; for a consistent
    comparator every stable sort returns this list, and for the others
    the order is left to the implementation: this is insertion from the
    right. *)
Definition sort {A : Type} (cmp : A -> A -> Z) (l : list A) : list A :=
  fold_right (insert cmp) [] l.

(** [Array.prototype.slice] with both bounds given as integers *)
Definition slice {A : Type} (l : list A) (start stop : Z) : list A :=
  let len := Z.of_nat (List.length l) in
  let k := if start <? 0 then Z.max (len + start) 0 else Z.min start len in
  let final := if stop <? 0 then Z.max (len + stop) 0 else Z.min stop len in
  firstn (Z.to_nat (Z.max (final - k) 0)) (skipn (Z.to_nat k) l).

End JSArray.

(** ** The model ([inventory.model.ts]) *)

Record InventoryResponse : Type := {
  headers : list string;
  rows : list (list cell)
}.

Record Transaction : Type := {
  postingDate : value;
  quantity : float;
  user : value;
  costCenter : value;
  reservation : value;
  document : value;
  headerText : value;
  text : value
}.

(** [Omit<MaterialSummary, 'material'>], the values of [summaryMap] *)
Record Summary : Type := {
  s_materialDescription : value;
  s_totalIn : float;
  s_totalOut : float;
  s_balance : float;
  s_unit : value;
  s_inTransactions : list Transaction;
  s_outTransactions : list Transaction
}.

Record MaterialSummary : Type := {
  material : value;
  materialDescription : value;
  totalIn : float;
  totalOut : float;
  balance : float;
  unit : value;
  inTransactions : list Transaction;
  outTransactions : list Transaction
}.

(** ** [Map], in insertion order *)

Module JSMap.

Definition t : Type := list (value * Summary).

Definition has (m : t) (k : value) : bool :=
  existsb (fun e => same_value_zero (fst e) k) m.

Fixpoint get (m : t) (k : value) : option Summary :=
  match m with
  | [] => None
  | (k', v) :: m' => if same_value_zero k' k then Some v else get m' k
  end.

(** [m.set(k, v)] for a key that [m] does not have *)
Definition set_new (m : t) (k : value) (v : Summary) : t := m ++ [(k, v)].

(** The entry of [k] is an object that is changed in place: [f] is the
    change. *)
Fixpoint update (m : t) (k : value) (f : Summary -> Summary) : t :=
  match m with
  | [] => []
  | (k', v) :: m' =>
      if same_value_zero k' k then (k', f v) :: m'
      else (k', v) :: update m' k f
  end.

End JSMap.

(** [for (const x of l) body], threading the state changed by the body;
    an exception ends the loop. *)
Fixpoint for_of {S A : Type} (body : S -> A -> completion S) (l : list A) (s : S)
  : completion S :=
  match l with
  | [] => Normal s
  | x :: l' => let* s' := body s x in for_of body l' s'
  end.

(** ** [AppComponent] *)

Section Component.

(** [costCenterMap] of [./data/cost-centers], a table from cost-center
    codes to names that is not part of the sources read here: the value
    stored under a key, [undefined] where there is none. *)
Variable costCenterMap : string -> value.

(** [new Date(v).getTime()]: the time value in milliseconds, [None] for an
    invalid date (NaN).  How a string is read as a date is left to the
    implementation and its time zone.  Time values are integers of at
    most 8.64e15 in magnitude, so the difference of two of them as
    Numbers has the sign of their difference as integers. *)
Variable Date_getTime : value -> option Z.

(** *** [processData] *)

Definition required : list string :=
  ["Material"; "Material Description"; "Quantity"; "Unit of Entry";
   "Movement Type"].

Definition schema_message : string :=
  ("Data format is incorrect. Missing columns. Required: "
     ++ JSString.join ", " required ++ ".")%string.

(** [Object.fromEntries(required.map(h => [h, headers.indexOf(h)]))] *)
Definition indices_of (headers : list string) : list (string * Z) :=
  map (fun h => (h, JSArray.indexOf headers h)) required.

(** [indices[k]]; a key that is not there reads as a column that is not
    there. *)
Fixpoint prop (indices : list (string * Z)) (k : string) : Z :=
  match indices with
  | [] => -1
  | (h, i) :: rest => if String.eqb h k then i else prop rest k
  end.

(** The column indices that the loop of [processData] reads. *)
Record Columns : Type := {
  indices : list (string * Z);
  userIndex : Z;
  postingDateIndex : Z;
  costCenterIndex : Z;
  reservationIndex : Z;
  docIndex : Z;
  headerTextIndex : Z;
  textIndex : Z
}.

Definition columns_of (headers : list string) : Columns :=
  {| indices := indices_of headers;
     userIndex := JSArray.indexOf headers "User Name";
     postingDateIndex := JSArray.indexOf headers "Posting Date";
     costCenterIndex := JSArray.indexOf headers "Cost Center";
     reservationIndex := JSArray.indexOf headers "Reservation";
     docIndex := JSArray.indexOf headers "Material Document";
     headerTextIndex := JSArray.indexOf headers "Document Header Text";
     textIndex := JSArray.indexOf headers "Text" |}.

Definition allowedMovements : list value := [VString "101"; VString "201"].

(** [Set.prototype.has] *)
Definition Set_has (s : list value) (v : value) : bool :=
  existsb (fun x => same_value_zero x v) s.

(** [v?.trim()] *)
Definition optional_trim (v : value) : completion value :=
  match v with
  | undefined => Normal undefined
  | _ => let* s := call_trim v in Normal (VString s)
  end.

Definition new_summary (c : Columns) (row : list cell) : Summary :=
  {| s_materialDescription :=
       or_else (JSArray.get row (prop (indices c) "Material Description"))
               (VString "No Description");
     s_totalIn := 0%float;
     s_totalOut := 0%float;
     s_balance := 0%float;
     s_unit :=
       or_else (JSArray.get row (prop (indices c) "Unit of Entry"))
               (VString "N/A");
     s_inTransactions := [];
     s_outTransactions := [] |}.

(** [current.totalIn += quantity; current.inTransactions.push(transaction)] *)
Definition add_in (quantity : float) (transaction : Transaction)
           (current : Summary) : Summary :=
  {| s_materialDescription := s_materialDescription current;
     s_totalIn := (s_totalIn current + quantity)%float;
     s_totalOut := s_totalOut current;
     s_balance := s_balance current;
     s_unit := s_unit current;
     s_inTransactions := s_inTransactions current ++ [transaction];
     s_outTransactions := s_outTransactions current |}.

(** [current.totalOut += Math.abs(quantity);
     current.outTransactions.push(transaction)] *)
Definition add_out (quantity : float) (transaction : Transaction)
           (current : Summary) : Summary :=
  {| s_materialDescription := s_materialDescription current;
     s_totalIn := s_totalIn current;
     s_totalOut := (s_totalOut current + Math_abs quantity)%float;
     s_balance := s_balance current;
     s_unit := s_unit current;
     s_inTransactions := s_inTransactions current;
     s_outTransactions := s_outTransactions current ++ [transaction] |}.

(** The [Transaction] literal, given the trimmed cost-center code. *)
Definition make_transaction (c : Columns) (row : list cell)
           (quantity : float) (costCenterCode : value) (trimmed : string)
  : Transaction :=
  {| postingDate := JSArray.get row (postingDateIndex c);
     quantity := Math_abs quantity;
     user := or_else (JSArray.get row (userIndex c)) (VString "");
     costCenter := or_else (costCenterMap trimmed) costCenterCode;
     reservation := or_else (JSArray.get row (reservationIndex c)) (VString "");
     document := or_else (JSArray.get row (docIndex c)) (VString "");
     headerText := or_else (JSArray.get row (headerTextIndex c)) (VString "");
     text := or_else (JSArray.get row (textIndex c)) (VString "") |}.

(** The body of [for (const row of rows)]; [continue] leaves the map as
    it is. *)
Definition loop_body (c : Columns) (summaryMap : JSMap.t) (row : list cell)
  : completion JSMap.t :=
  let* movementType :=
    optional_trim (JSArray.get row (prop (indices c) "Movement Type")) in
  if negb (Set_has allowedMovements movementType) then Normal summaryMap else
  let material := JSArray.get row (prop (indices c) "Material") in
  let quantity := Number (JSArray.get row (prop (indices c) "Quantity")) in
  if negb (truthy material) || isNaN quantity then Normal summaryMap else
  let summaryMap :=
    if negb (JSMap.has summaryMap material)
    then JSMap.set_new summaryMap material (new_summary c row)
    else summaryMap in
  let costCenterCode :=
    or_else (JSArray.get row (costCenterIndex c)) (VString "") in
  let* trimmed := call_trim costCenterCode in
  let transaction := make_transaction c row quantity costCenterCode trimmed in
  if strict_equal movementType (VString "101") then
    Normal (JSMap.update summaryMap material (add_in quantity transaction))
  else if strict_equal movementType (VString "201") then
    Normal (JSMap.update summaryMap material (add_out quantity transaction))
  else Normal summaryMap.

(** The comparator of both sorts:
    [new Date(b.postingDate).getTime() - new Date(a.postingDate).getTime()];
    with an invalid date the difference is NaN, which a sort reads as 0. *)
Definition by_date_desc (a b : Transaction) : Z :=
  match Date_getTime (postingDate b), Date_getTime (postingDate a) with
  | Some tb, Some ta => tb - ta
  | _, _ => 0
  end.

(** The callback of the final [map] over the entries of [summaryMap]. *)
Definition finish (entry : value * Summary) : MaterialSummary :=
  let (key, value) := entry in
  {| material := key;
     materialDescription := s_materialDescription value;
     totalIn := s_totalIn value;
     totalOut := s_totalOut value;
     balance := (s_totalIn value - s_totalOut value)%float;
     unit := s_unit value;
     inTransactions := JSArray.sort by_date_desc (s_inTransactions value);
     outTransactions := JSArray.sort by_date_desc (s_outTransactions value) |}.

Definition processData (response : InventoryResponse)
  : completion (list MaterialSummary) :=
  let c := columns_of (headers response) in
  if existsb (fun e => snd e =? -1) (indices c)
  then Throw (Error schema_message)
  else
    let* summaryMap := for_of (loop_body c) (rows response) [] in
    Normal (map finish summaryMap).

(** *** What the loop reads off a row

    The tests and the record that [loop_body] computes for one row, named
    so that the properties of [processData] can speak of them. *)

Definition movementType_of (c : Columns) (row : list cell) : completion value :=
  optional_trim (JSArray.get row (prop (indices c) "Movement Type")).

Definition material_of (c : Columns) (row : list cell) : value :=
  JSArray.get row (prop (indices c) "Material").

Definition quantity_of (c : Columns) (row : list cell) : float :=
  Number (JSArray.get row (prop (indices c) "Quantity")).

(** [movementType === code] *)
Definition has_movement (c : Columns) (code : string) (row : list cell) : bool :=
  match movementType_of c row with
  | Normal mt => strict_equal mt (VString code)
  | Throw _ => false
  end.

(** The row passes both [continue] tests. *)
Definition passes (c : Columns) (row : list cell) : bool :=
  (has_movement c "101" row || has_movement c "201" row)
  && truthy (material_of c row)
  && negb (isNaN (quantity_of c row)).

Definition costCenterCode_of (c : Columns) (row : list cell) : value :=
  or_else (JSArray.get row (costCenterIndex c)) (VString "").

(** The [transaction] of a row whose cost-center code can be trimmed. *)
Definition transaction_of (c : Columns) (row : list cell) : Transaction :=
  make_transaction c row (quantity_of c row) (costCenterCode_of c row)
    match call_trim (costCenterCode_of c row) with
    | Normal trimmed => trimmed
    | Throw _ => ""
    end.

(** The admitted rows of one material and one movement type, in the order
    of the table. *)
Definition rows_of (c : Columns) (code : string) (key : value)
           (l : list (list cell)) : list (list cell) :=
  List.filter
    (fun row => passes c row && has_movement c code row
                && same_value_zero (material_of c row) key) l.

(** The first admitted row of a material. *)
Definition first_row (c : Columns) (key : value) (l : list (list cell))
  : option (list cell) :=
  List.find
    (fun row => passes c row && same_value_zero (material_of c row) key) l.

(** The entry of the row's material, made if the map has none. *)
Definition ensure (c : Columns) (row : list cell) (m : JSMap.t) : JSMap.t :=
  if negb (JSMap.has m (material_of c row))
  then JSMap.set_new m (material_of c row) (new_summary c row)
  else m.

(** The change that an admitted row makes to the entry of its material. *)
Definition step (c : Columns) (row : list cell) : Summary -> Summary :=
  if has_movement c "101" row
  then add_in (quantity_of c row) (transaction_of c row)
  else add_out (quantity_of c row) (transaction_of c row).

Definition sum_in (c : Columns) (l : list (list cell)) : float :=
  fold_left (fun acc row => (acc + quantity_of c row)%float) l 0%float.

Definition sum_out (c : Columns) (l : list (list cell)) : float :=
  fold_left (fun acc row => (acc + Math_abs (quantity_of c row))%float) l 0%float.

(** The entry that the rows [l] give a material: description and unit of
    its first admitted row, the totals and the transactions of its
    admitted rows. *)
Definition expected (c : Columns) (l : list (list cell)) (key : value)
  : Summary :=
  let first :=
    match first_row c key l with
    | Some row => new_summary c row
    | None => new_summary c []
    end in
  {| s_materialDescription := s_materialDescription first;
     s_totalIn := sum_in c (rows_of c "101" key l);
     s_totalOut := sum_out c (rows_of c "201" key l);
     s_balance := 0%float;
     s_unit := s_unit first;
     s_inTransactions := map (transaction_of c) (rows_of c "101" key l);
     s_outTransactions := map (transaction_of c) (rows_of c "201" key l) |}.

(** The time value of a transaction's posting date. *)
Definition time_of (tx : Transaction) : option Z :=
  Date_getTime (postingDate tx).

(** [a] is not dated before [b], both dates being valid. *)
Definition not_before (a b : Transaction) : Prop :=
  match time_of a, time_of b with
  | Some ta, Some tb => tb <= ta
  | _, _ => False
  end.


(** The tests that a row passes to be folded into the map, on its cells:
    the movement type is a string that trims to 101 or 201, the material
    is truthy, and the quantity is a Number other than NaN. *)
Definition kept (c : Columns) (row : list cell) : Prop :=
  (exists s, JSArray.get row (prop (indices c) "Movement Type") = VString s /\
             (JSString.trim s = "101" \/ JSString.trim s = "201")) /\
  truthy (JSArray.get row (prop (indices c) "Material")) = true /\
  isNaN (Number (JSArray.get row (prop (indices c) "Quantity"))) = false.


(** The time value of a valid date, for use as a sort key. *)
Definition time_key (tx : Transaction) : Z :=
  match time_of tx with
  | Some t => t
  | None => 0
  end.

(** *** The state of the component: its signals *)

Inductive Theme : Type := light | dark.

(** ['all' | '101' | '201'] *)
Inductive MovementFilter : Type := all | only101 | only201.

Inductive SortableColumns : Type := col_materialDescription | col_balance.

Inductive Direction : Type := asc | desc.

Record SortConfig : Type := {
  column : SortableColumns;
  direction : Direction
}.

(** ['in' | 'out'] *)
Inductive ViewType : Type := view_in | view_out.

Record DashboardFilters : Type := {
  f_date : string;
  f_movement : option ViewType;
  f_user : string;
  f_costCenter : string;
  f_details : string
}.

Record State : Type := {
  inventoryData : list MaterialSummary;
  loading : bool;
  error : option string;
  lastUpdated : option Z;
  theme : Theme;
  searchTerm : string;
  movementTypeFilter : MovementFilter;
  sortConfig : SortConfig;
  showLowStockOnly : bool;
  currentPage : Z;
  selectedMaterial : option MaterialSummary;
  detailedViewType : option ViewType;
  dateFrom : string;
  dateTo : string;
  dashboardFilters : DashboardFilters
}.

Definition itemsPerPage : Z := 12.
Definition lowStockThreshold : float := 10%float.

(** [this.currentPage.set(page)] *)
Definition set_currentPage (page : Z) (s : State) : State :=
  {| inventoryData := inventoryData s;
     loading := loading s;
     error := error s;
     lastUpdated := lastUpdated s;
     theme := theme s;
     searchTerm := searchTerm s;
     movementTypeFilter := movementTypeFilter s;
     sortConfig := sortConfig s;
     showLowStockOnly := showLowStockOnly s;
     currentPage := page;
     selectedMaterial := selectedMaterial s;
     detailedViewType := detailedViewType s;
     dateFrom := dateFrom s;
     dateTo := dateTo s;
     dashboardFilters := dashboardFilters s |}.

(** The three signals that a load writes. *)
Definition set_load (data : list MaterialSummary) (l : bool)
           (e : option string) (u : option Z) (s : State) : State :=
  {| inventoryData := data;
     loading := l;
     error := e;
     lastUpdated := u;
     theme := theme s;
     searchTerm := searchTerm s;
     movementTypeFilter := movementTypeFilter s;
     sortConfig := sortConfig s;
     showLowStockOnly := showLowStockOnly s;
     currentPage := currentPage s;
     selectedMaterial := selectedMaterial s;
     detailedViewType := detailedViewType s;
     dateFrom := dateFrom s;
     dateTo := dateTo s;
     dashboardFilters := dashboardFilters s |}.

(** The signals as the component creates them. *)
Definition initial_state : State :=
  {| inventoryData := [];
     loading := true;
     error := None;
     lastUpdated := None;
     theme := light;
     searchTerm := "";
     movementTypeFilter := all;
     sortConfig := {| column := col_materialDescription; direction := asc |};
     showLowStockOnly := false;
     currentPage := 1;
     selectedMaterial := None;
     detailedViewType := None;
     dateFrom := "";
     dateTo := "";
     dashboardFilters :=
       {| f_date := ""; f_movement := None; f_user := "";
          f_costCenter := ""; f_details := "" |} |}.

(** *** [loadInventory] *)

(** What [inventoryService.getInventoryData()] delivers: a response, or
    the error that its [catchError] throws. *)
Inductive ServiceOutcome : Type :=
| Next (response : InventoryResponse)
| Failed.

Definition service_error_message : string :=
  "Failed to load inventory data. Please check the API endpoint and network connection.".

(** [loading.set(true); error.set(null)], before the subscription. *)
Definition loadInventory_start (s : State) : State :=
  set_load (inventoryData s) true None (lastUpdated s) s.

(** The [next] handler: [try] / [catch] / [finally]; [now] is the time of
    [new Date()]. *)
Definition loadInventory_next (now : Z) (response : InventoryResponse)
           (s : State) : State :=
  match processData response with
  | Normal processedData =>
      set_load processedData false (error s) (Some now) s
  | Throw e =>
      set_load (inventoryData s) false (Some (exn_message e)) (lastUpdated s) s
  end.

(** The [error] handler. *)
Definition loadInventory_error (s : State) : State :=
  set_load (inventoryData s) false (Some service_error_message)
           (lastUpdated s) s.

Definition loadInventory (now : Z) (o : ServiceOutcome) (s : State) : State :=
  let s := loadInventory_start s in
  match o with
  | Next response => loadInventory_next now response s
  | Failed => loadInventory_error s
  end.

(** *** The derived views *)

(** [Array.prototype.filter] with a callback that may throw *)
Fixpoint filter_c {A : Type} (p : A -> completion bool) (l : list A)
  : completion (list A) :=
  match l with
  | [] => Normal []
  | x :: l' =>
      let* b := p x in
      let* r := filter_c p l' in
      Normal (if b then x :: r else r)
  end.

(** [v.toLowerCase()]: only a String has the method. *)
Definition call_toLowerCase (v : value) : completion string :=
  match v with
  | VString s => Normal (JSString.toLowerCase s)
  | VNumber _ => Throw (TypeError "toLowerCase is not a function")
  | undefined => Throw (TypeError "Cannot read properties of undefined")
  end.

Definition matches_term (term : string) (item : MaterialSummary)
  : completion bool :=
  let* m := call_toLowerCase (material item) in
  if JSString.includes m term then Normal true
  else
    let* d := call_toLowerCase (materialDescription item) in
    Normal (JSString.includes d term).

Definition baseFilteredInventory (s : State) : completion (list MaterialSummary) :=
  let data := inventoryData s in
  let term := JSString.toLowerCase (searchTerm s) in
  let filter := movementTypeFilter s in
  let lowStockOnly := showLowStockOnly s in
  let filteredData := data in
  let filteredData :=
    if lowStockOnly
    then List.filter (fun item => (balance item <=? lowStockThreshold)%float)
                     filteredData
    else filteredData in
  let filteredData :=
    match filter with
    | only101 => List.filter (fun item => (0 <? totalIn item)%float) filteredData
    | only201 => List.filter (fun item => (0 <? totalOut item)%float) filteredData
    | all => filteredData
    end in
  if String.eqb term "" then Normal filteredData
  else filter_c (matches_term term) filteredData.

(** [String.prototype.localeCompare], which depends on the locale of the
    implementation. *)
Variable localeCompare : string -> string -> float.

(** The sign that a sort reads off the Number a comparator returns. *)
Definition sign_of (v : float) : Z :=
  if (v <? 0)%float then -1 else if (0 <? v)%float then 1 else 0.

Definition compare_items (config : SortConfig) (a b : MaterialSummary) : Z :=
  let comparison :=
    match column config with
    | col_materialDescription =>
        match materialDescription a, materialDescription b with
        | VString aValue, VString bValue => localeCompare aValue bValue
        | VNumber aValue, VNumber bValue => (aValue - bValue)%float
        | _, _ => 0%float
        end
    | col_balance => (balance a - balance b)%float
    end in
  sign_of match direction config with
          | asc => comparison
          | desc => (- comparison)%float
          end.

Definition sortedInventory (s : State) : completion (list MaterialSummary) :=
  let* data := baseFilteredInventory s in
  let config := sortConfig s in
  Normal (JSArray.sort (compare_items config) data).

Definition paginatedInventory (s : State) : completion (list MaterialSummary) :=
  let* data := sortedInventory s in
  let page := currentPage s in
  let startIndex := (page - 1) * itemsPerPage in
  Normal (JSArray.slice data startIndex (startIndex + itemsPerPage)).

(** [Math.ceil] of a quotient of integers.  The source divides two
    Numbers; for a dividend below 2^32, an array length, the quotient by 12
    is off an integer by at least 1/12 unless it is one, which rounding
    cannot bridge, so the ceiling is that of the exact quotient. *)
Definition Math_ceil (q : Q) : Z := Qceiling q.

Definition totalPages (s : State) : completion Z :=
  let* data := baseFilteredInventory s in
  Normal (Math_ceil (Z.of_nat (List.length data) # Z.to_pos itemsPerPage)).

(** *** Pagination handlers *)

Definition goToPage (page : Z) (s : State) : completion State :=
  if 0 <? page then
    let* pages := totalPages s in
    if page <=? pages then Normal (set_currentPage page s) else Normal s
  else Normal s.

Definition nextPage (s : State) : completion State :=
  goToPage (currentPage s + 1) s.

Definition prevPage (s : State) : completion State :=
  goToPage (currentPage s - 1) s.

(** *** The date-range view of a material's transactions *)

(** [d.setHours(0, 0, 0, 0)] and [d.setHours(23, 59, 59, 999)] on a valid
    date, in the local time zone of the implementation. *)
Variable startOfDay : Z -> Z.
Variable endOfDay : Z -> Z.

Record DetailedView : Type := {
  d_type : ViewType;
  d_title : string;
  d_transactions : list Transaction;
  d_totalQuantity : float
}.

(** [x ? new Date(x) : null], then [setHours] where it is not null; an
    invalid date stays invalid. *)
Definition bound_of (text : string) (adjust : Z -> Z) : option (option Z) :=
  if String.eqb text "" then None
  else Some (option_map adjust (Date_getTime (VString text))).

(** [a < b] on two dates: false when either is invalid. *)
Definition date_lt (a b : option Z) : bool :=
  match a, b with
  | Some x, Some y => x <? y
  | _, _ => false
  end.

Definition in_range (from to : option (option Z)) (tx : Transaction) : bool :=
  let txDate := Date_getTime (postingDate tx) in
  if match from with Some f => date_lt txDate f | None => false end then false
  else if match to with Some t => date_lt t txDate | None => false end then false
  else true.

Definition detailedTransactionsView (s : State) : option DetailedView :=
  match detailedViewType s, selectedMaterial s with
  | Some type, Some material =>
      let from := bound_of (dateFrom s) startOfDay in
      let to := bound_of (dateTo s) endOfDay in
      let transactions :=
        match type with
        | view_in => inTransactions material
        | view_out => outTransactions material
        end in
      let filteredTransactions := List.filter (in_range from to) transactions in
      let totalQuantity :=
        fold_left (fun sum tx => (sum + quantity tx)%float)
                  filteredTransactions 0%float in
      Some {| d_type := type;
              d_title := match type with
                         | view_in => "Receipt Details"
                         | view_out => "Issue Details"
                         end;
              d_transactions := filteredTransactions;
              d_totalQuantity := totalQuantity |}
  | _, _ => None
  end.

(** *** CSV export *)

(** [Number.prototype.toString], the shortest decimal that reads back as
    the same Number. *)
Variable Number_toString : float -> string.

(** How [Array.prototype.join] writes an element: [undefined] as the
    empty string. *)
Definition join_item (v : value) : string :=
  match v with
  | undefined => ""
  | VString s => s
  | VNumber n => Number_toString n
  end.

(** [v.replace(...)] doubling the double quotes: only a String has the
    method. *)
Definition call_replace_quotes (v : value) : completion string :=
  match v with
  | VString s => Normal (JSString.double_quotes s)
  | VNumber _ => Throw (TypeError "replace is not a function")
  | undefined => Throw (TypeError "Cannot read properties of undefined")
  end.

(** The template literal that puts a text between double quotes. *)
Definition quoted (s : string) : string :=
  (String JSString.dquote s ++ String JSString.dquote "")%string.

(** [Array.prototype.map] with a callback that may throw *)
Fixpoint map_c {A B : Type} (f : A -> completion B) (l : list A)
  : completion (list B) :=
  match l with
  | [] => Normal []
  | x :: l' =>
      let* y := f x in
      let* r := map_c f l' in
      Normal (y :: r)
  end.

Definition inventory_headers : list string :=
  ["Material"; "MaterialDescription"; "TotalIn"; "TotalOut"; "Balance"; "Unit"].

Definition LF : string := String (ascii_of_nat 10) "".

Definition inventory_row (item : MaterialSummary) : completion string :=
  let* escaped := call_replace_quotes (materialDescription item) in
  let description := quoted escaped in
  Normal (JSString.join ","
            [join_item (material item);
             description;
             Number_toString (totalIn item);
             Number_toString (totalOut item);
             Number_toString (balance item);
             join_item (unit item)]).

(** [exportInventoryToCsv], up to [csvContent]: the text that is put in
    the Blob and downloaded; [None] where the method returns before. *)
Definition exportInventoryToCsv (s : State) : completion (option string) :=
  let* dataToExport := sortedInventory s in
  if (List.length dataToExport =? 0)%nat then Normal None
  else
    let* rows := map_c inventory_row dataToExport in
    Normal (Some (JSString.join LF (JSString.join "," inventory_headers :: rows))).

Definition transaction_headers : list string :=
  ["PostingDate"; "Quantity"; "User"; "CostCenter"; "Document";
   "Reservation"; "HeaderText"; "Text"].

(** [safe]: [str || ''] with its double quotes doubled, between double
    quotes. *)
Definition safe (str : value) : completion string :=
  let* escaped := call_replace_quotes (or_else str (VString "")) in
  Normal (quoted escaped).

Definition transaction_row (type : ViewType) (tx : Transaction)
  : completion string :=
  let quantity :=
    match type with
    | view_in => quantity tx
    | view_out => (- quantity tx)%float
    end in
  let* u := safe (user tx) in
  let* c := safe (costCenter tx) in
  let* d := safe (document tx) in
  let* r := safe (reservation tx) in
  let* h := safe (headerText tx) in
  let* t := safe (text tx) in
  Normal (JSString.join ","
            [join_item (postingDate tx); Number_toString quantity;
             u; c; d; r; h; t]).

(** [exportToCsv], up to [csvContent]. *)
Definition exportToCsv (s : State) : completion (option string) :=
  match detailedTransactionsView s with
  | None => Normal None
  | Some details =>
      if (List.length (d_transactions details) =? 0)%nat then Normal None
      else
        let* rows := map_c (transaction_row (d_type details))
                           (d_transactions details) in
        Normal (Some (JSString.join LF
                        (JSString.join "," transaction_headers :: rows)))
  end.

End Component.

(** ** One implementation of what the component leaves to its environment

    The table of cost centers, the reading of dates, the collation of
    strings and the printing of Numbers are parameters of the component.
    This module fixes one choice of each, on which the examples below run:
    dates are ISO days read as UTC, strings compare by code units, and
    Numbers print as [Number.prototype.toString] specifies. *)

Module Sample.

Definition costCenterMap (code : string) : value :=
  if String.eqb code "1000" then VString "Maintenance"
  else if String.eqb code "2000" then VString "Production"
  else undefined.

(** Days from 1970-01-01 to the day [d] of month [m] of year [y]. *)
Definition days_from_civil (y m d : Z) : Z :=
  let y' := if m <=? 2 then y - 1 else y in
  let era := y' / 400 in
  let yoe := y' - era * 400 in
  let doy := (153 * (if 2 <? m then m - 3 else m + 9) + 2) / 5 + d - 1 in
  let doe := yoe * 365 + yoe / 4 - yoe / 100 + doy in
  era * 146097 + doe - 719468.

Definition days_in_month (y m : Z) : Z :=
  if m =? 2 then
    if ((y mod 4 =? 0) && negb (y mod 100 =? 0)) || (y mod 400 =? 0)
    then 29 else 28
  else if (m =? 4) || (m =? 6) || (m =? 9) || (m =? 11) then 30 else 31.

(** The time value of the text [YYYY-MM-DD]. *)
Definition iso_day (s : string) : option Z :=
  match JSNumber.digits 10 s 0 0 with
  | (y, 4, String "-" r1) =>
      match JSNumber.digits 10 r1 0 0 with
      | (m, 2, String "-" r2) =>
          match JSNumber.digits 10 r2 0 0 with
          | (d, 2, EmptyString) =>
              if (1 <=? m) && (m <=? 12) && (1 <=? d) && (d <=? days_in_month y m)
              then Some (days_from_civil y m d * 86400000)
              else None
          | _ => None
          end
      | _ => None
      end
  | _ => None
  end.

(** TimeClip: the integer part of a Number of magnitude at most 8.64e15. *)
Definition time_clip (n : float) : option Z :=
  match Prim2SF n with
  | S754_zero _ => Some 0
  | S754_finite s m e =>
      let a := if 0 <=? e then Zpos m * 2 ^ e else Zpos m / 2 ^ (- e) in
      if a <=? 8640000000000000 then Some (if s then - a else a) else None
  | _ => None
  end.

Definition Date_getTime (v : value) : option Z :=
  match v with
  | undefined => None
  | VString s => iso_day s
  | VNumber n => time_clip n
  end.

Definition startOfDay (t : Z) : Z := t - t mod 86400000.

Definition endOfDay (t : Z) : Z := startOfDay t + 86399999.

Definition localeCompare (a b : string) : float :=
  match String.compare a b with
  | Lt => (-1)%float
  | Eq => 0%float
  | Gt => 1%float
  end.

Definition decimal (n : Z) : string :=
  NilZero.string_of_uint (N.to_uint (Z.to_N n)).

Fixpoint zeros (n : nat) : string :=
  match n with
  | O => ""
  | S n' => String "0" (zeros n')
  end.

(** The least [n] from [n] on with [num / den < 10 ^ n]. *)
Fixpoint magnitude_up (fuel : nat) (num den n : Z) : Z :=
  match fuel with
  | O => n
  | S fuel' =>
      if (if 0 <=? n then num <? den * 10 ^ n else num * 10 ^ (- n) <? den)
      then n else magnitude_up fuel' num den (n + 1)
  end.

(** Whether the decimal [s * 10 ^ e] converts to the positive Number [x]. *)
Definition reads_back (x : spec_float) (s e : Z) : bool :=
  match x, JSNumber.round_pos s e with
  | S754_finite false m1 e1, S754_finite false m2 e2 =>
      (Zpos m1 =? Zpos m2) && (e1 =? e2)
  | _, _ => false
  end.

(** The shortest digits of [num / den], which is below [10 ^ n]: for [k]
    from [k] up, the two decimals of [k] digits next to it; the first that
    converts to [x], the nearer of the two if both do.  The result is the
    digits, their number, and the power of ten above the decimal. *)
Fixpoint shortest (fuel : nat) (x : spec_float) (num den n k : Z) : Z * Z * Z :=
  let e := n - k in
  let '(a, b) :=
    if 0 <=? e then (num, den * 10 ^ e) else (num * 10 ^ (- e), den) in
  let lo := a / b in
  let hi := lo + 1 in
  let r := a mod b in
  let ok_lo := (10 ^ (k - 1) <=? lo) && reads_back x lo e in
  let ok_hi := reads_back x hi e in
  let pick_hi :=
    if hi =? 10 ^ k then (10 ^ (k - 1), k, n + 1) else (hi, k, n) in
  match fuel with
  | O => (lo, k, n)
  | S fuel' =>
      if ok_lo && ok_hi then
        if 2 * r <? b then (lo, k, n)
        else if b <? 2 * r then pick_hi
        else if Z.even lo then (lo, k, n) else pick_hi
      else if ok_lo then (lo, k, n)
      else if ok_hi then pick_hi
      else shortest fuel' x num den n (k + 1)
  end.

(** The digits [s], [k] of them, of a Number below [10 ^ n], as text. *)
Definition format (s k n : Z) : string :=
  let ds := decimal s in
  if (k <=? n) && (n <=? 21) then (ds ++ zeros (Z.to_nat (n - k)))%string
  else if (0 <? n) && (n <=? 21) then
    (substring 0 (Z.to_nat n) ds ++ "." ++
     substring (Z.to_nat n) (Z.to_nat (k - n)) ds)%string
  else if (-6 <? n) && (n <=? 0) then
    ("0." ++ zeros (Z.to_nat (- n)) ++ ds)%string
  else
    let e := n - 1 in
    let sign := if 0 <=? e then "+" else "-" in
    let mant :=
      if k =? 1 then ds
      else (substring 0 1 ds ++ "." ++ substring 1 (Z.to_nat (k - 1)) ds)%string in
    (mant ++ "e" ++ sign ++ decimal (Z.abs e))%string.

(** [Number.prototype.toString()] *)
Definition Number_toString (x : float) : string :=
  match Prim2SF x with
  | S754_nan => "NaN"
  | S754_zero _ => "0"
  | S754_infinity s => if s then "-Infinity" else "Infinity"
  | S754_finite s m e =>
      let '(num, den) :=
        if 0 <=? e then (Zpos m * 2 ^ e, 1) else (Zpos m, 2 ^ (- e)) in
      let est := ((Z.log2 (Zpos m) + e) * 30103) / 100000 - 1 in
      let n := magnitude_up 4 num den est in
      let '(d, k, n') := shortest 17 (S754_finite false m e) num den n 1 in
      ((if s then "-" else "") ++ format d k n')%string
  end.

Definition processData := processData costCenterMap Date_getTime.

(** *** Tables *)

Definition required_headers : list string :=
  ["Material"; "Material Description"; "Quantity"; "Unit of Entry";
   "Movement Type"].

(** The example of the specification: two rows of M1 and a third whose
    quantity is no number. *)
Definition bolts : InventoryResponse :=
  {| headers := required_headers;
     rows :=
       [[CString "M1"; CString "Bolt"; CNumber 10; CString "EA"; CString "101"];
        [CString "M1"; CString "Bolt"; CNumber 4; CString "EA"; CString "201"];
        [CString "M1"; CString "Bolt"; CString "x"; CString "EA"; CString "101"]] |}.

(** A table with the optional columns: receipts of M1 on one day, a blank
    quantity, a movement type with spaces around it, and an empty
    description on the first row of M2. *)
Definition ledger : InventoryResponse :=
  {| headers :=
       required_headers ++ ["Posting Date"; "User Name"; "Cost Center"];
     rows :=
       [[CString "M1"; CString "Bolt"; CNumber 10; CString "EA"; CString "101";
         CString "2024-01-05"; CString "anna"; CString "1000"];
        [CString "M1"; CString "Bolt"; CNumber 4; CString "EA"; CString "201";
         CString "2024-02-01"; CString "ben"; CString "2000"];
        [CString "M1"; CString "Bolt"; CString "x"; CString "EA"; CString "101";
         CString "2024-01-07"; CString "anna"; CString "1000"];
        [CString "M1"; CString "Bolt"; CString " "; CString "EA"; CString "101";
         CString "2024-03-01"; CString "cy"; CString ""];
        [CString "M2"; CString ""; CString "7"; CString "PC"; CString " 201 ";
         CString "2024-01-09"; CString "dee"; CString "3000"];
        [CString "M1"; CString "Nut"; CNumber 3; CString "BX"; CString "101";
         CString "2024-01-05"; CString "eve"; CString "1000"]] |}.

(** A receipt with a quantity below zero. *)
Definition returned : InventoryResponse :=
  {| headers := required_headers;
     rows :=
       [[CString "M1"; CString "Bolt"; CNumber (-5); CString "EA"; CString "101"]] |}.

(** A receipt whose quantity is the text Infinity. *)
Definition unbounded : InventoryResponse :=
  {| headers := required_headers;
     rows :=
       [[CString "M1"; CString "Bolt"; CString "Infinity"; CString "EA";
         CString "101"]] |}.

(** Two receipts of M1, the first with an empty description. *)
Definition late_description : InventoryResponse :=
  {| headers := required_headers;
     rows :=
       [[CString "M1"; CString ""; CNumber 1; CString "EA"; CString "101"];
        [CString "M1"; CString "Bolt"; CNumber 2; CString "EA"; CString "101"]] |}.


(** A table without the Quantity column. *)
Definition no_quantity : InventoryResponse :=
  {| headers := ["Material"; "Material Description"; "Unit of Entry";
                 "Movement Type"];
     rows := [[CString "M1"; CString "Bolt"; CString "EA"; CString "101"]] |}.

(** A receipt whose movement type is the number 101, not a string. *)
Definition numeric_movement : InventoryResponse :=
  {| headers := required_headers;
     rows :=
       [[CString "M1"; CString "Bolt"; CNumber 10; CString "EA"; CNumber 101]] |}.

(** A receipt whose cost center is the number 1000, not a string. *)
Definition numeric_cost_center : InventoryResponse :=
  {| headers := required_headers ++ ["Cost Center"];
     rows :=
       [[CString "M1"; CString "Bolt"; CNumber 10; CString "EA"; CString "101";
         CNumber 1000]] |}.

(** The text: He said, then hi between double quotes. *)
Definition he_said_hi : string :=
  ("He said " ++ String JSString.dquote "hi" ++ String JSString.dquote "")%string.

Definition summaries_of (r : InventoryResponse) : list MaterialSummary :=
  match processData r with
  | Normal out => out
  | Throw _ => []
  end.

(** A transaction with a date, a quantity, a user and a cost center. *)
Definition entry (date : value) (q : float) (who cc : string) : Transaction :=
  {| postingDate := date; quantity := q;
     user := VString who; costCenter := VString cc;
     reservation := VString ""; document := VString "";
     headerText := VString ""; text := VString "" |}.

(** The summaries of [ledger]. *)
Definition ledger_M1 : MaterialSummary :=
  {| material := VString "M1";
     materialDescription := VString "Bolt";
     totalIn := 13; totalOut := 4; balance := 9;
     unit := VString "EA";
     inTransactions :=
       [entry (VString "2024-03-01") 0 "cy" "";
        entry (VString "2024-01-05") 10 "anna" "Maintenance";
        entry (VString "2024-01-05") 3 "eve" "Maintenance"];
     outTransactions :=
       [entry (VString "2024-02-01") 4 "ben" "Production"] |}.

Definition ledger_M2 : MaterialSummary :=
  {| material := VString "M2";
     materialDescription := VString "No Description";
     totalIn := 0; totalOut := 7; balance := -7;
     unit := VString "PC";
     inTransactions := [];
     outTransactions := [entry (VString "2024-01-09") 7 "dee" "3000"] |}.

Definition ledger_summaries : list MaterialSummary := [ledger_M1; ledger_M2].

(** The summary of [bolts]. *)
Definition bolts_M1 : MaterialSummary :=
  {| material := VString "M1";
     materialDescription := VString "Bolt";
     totalIn := 10; totalOut := 4; balance := 6;
     unit := VString "EA";
     inTransactions := [entry undefined 10 "" ""];
     outTransactions := [entry undefined 4 "" ""] |}.

(** The summary of [returned]. *)
Definition returned_M1 : MaterialSummary :=
  {| material := VString "M1";
     materialDescription := VString "Bolt";
     totalIn := -5; totalOut := 0; balance := -5;
     unit := VString "EA";
     inTransactions := [entry undefined 5 "" ""];
     outTransactions := [] |}.

(** The summary of [unbounded]. *)
Definition unbounded_M1 : MaterialSummary :=
  {| material := VString "M1";
     materialDescription := VString "Bolt";
     totalIn := infinity; totalOut := 0; balance := infinity;
     unit := VString "EA";
     inTransactions := [entry undefined infinity "" ""];
     outTransactions := [] |}.

(** *** States *)

(** The component after it has loaded [ledger]. *)
Definition loaded : State :=
  loadInventory costCenterMap Date_getTime 1717200000000 (Next ledger)
                initial_state.

(** An item of the inventory with the balance [b]. *)
Definition stock (name : string) (b : float) : MaterialSummary :=
  {| material := VString name; materialDescription := VString "Part";
     totalIn := b; totalOut := 0; balance := b; unit := VString "EA";
     inTransactions := []; outTransactions := [] |}.

(** Balances 5, 10 and 11 with the low-stock filter on. *)
Definition low_stock_only : State :=
  {| inventoryData := [stock "A" 5; stock "B" 10; stock "C" 11];
     loading := false;
     error := None;
     lastUpdated := None;
     theme := light;
     searchTerm := "";
     movementTypeFilter := all;
     sortConfig := {| column := col_materialDescription; direction := asc |};
     showLowStockOnly := true;
     currentPage := 1;
     selectedMaterial := None;
     detailedViewType := None;
     dateFrom := "";
     dateTo := "";
     dashboardFilters := dashboardFilters initial_state |}.

(** [loaded] with the receipts of M1 open in the date-range view. *)
Definition viewing : State :=
  {| inventoryData := inventoryData loaded;
     loading := false;
     error := None;
     lastUpdated := lastUpdated loaded;
     theme := light;
     searchTerm := "";
     movementTypeFilter := all;
     sortConfig := {| column := col_materialDescription; direction := asc |};
     showLowStockOnly := false;
     currentPage := 1;
     selectedMaterial := Some ledger_M1;
     detailedViewType := Some view_in;
     dateFrom := "2024-01-01";
     dateTo := "2024-12-31";
     dashboardFilters := dashboardFilters initial_state |}.

End Sample.

(** ** Auxiliary notions for the properties *)

(** Zero, a positive number or plus infinity. *)
Definition sf_nonneg (x : spec_float) : bool :=
  match x with
  | S754_zero _ => true
  | S754_infinity s => negb s
  | S754_finite s _ _ => negb s
  | S754_nan => false
  end.

(** The two zeros are one class; every other Number is its own. *)
Definition sf_class (x : spec_float) : spec_float :=
  match x with
  | S754_zero _ => S754_zero false
  | _ => x
  end.

(** The classes of SameValueZero. *)
Inductive key_class : Type :=
| KUndefined
| KString (s : string)
| KNumber (x : spec_float).

Definition class_of (v : value) : key_class :=
  match v with
  | undefined => KUndefined
  | VString s => KString s
  | VNumber n => KNumber (sf_class (Prim2SF n))
  end.

(** No two keys of the map are the same key. *)
Fixpoint distinct_keys (m : JSMap.t) : Prop :=
  match m with
  | [] => True
  | (k, _) :: m' => JSMap.has m' k = false /\ distinct_keys m'
  end.

(** ** The specification's wording, where the code departs from it

    These follow the sentences of the specification, not the source; they
    are what the code is compared with. *)

Module Spec.

(** A row is valid iff its Movement Type cell, trimmed, is exactly 101 or
    201, its Material cell is non-empty, and its Quantity cell parses to a
    finite number. *)
Definition valid (c : Columns) (row : list cell) : bool :=
  (has_movement c "101" row || has_movement c "201" row)
  && truthy (material_of c row)
  && PrimFloat.is_finite (quantity_of c row).

(** The description of a material: the first non-empty Material
    Description cell seen among the material's admitted rows. *)
Definition description (c : Columns) (key : value) (l : list (list cell))
  : option value :=
  option_map
    (fun row => JSArray.get row (prop (indices c) "Material Description"))
    (List.find
       (fun row =>
          passes c row && same_value_zero (material_of c row) key
          && truthy (JSArray.get row (prop (indices c) "Material Description")))
       l).


(** A field of a record: a string between double quotes with its double
    quotes doubled, a number without quotes. *)
Definition field (Number_toString : float -> string) (v : value) : string :=
  match v with
  | undefined => ""
  | VString t => quoted (JSString.double_quotes t)
  | VNumber n => Number_toString n
  end.

Definition inventory_record (Number_toString : float -> string)
           (item : MaterialSummary) : string :=
  JSString.join ","
    [field Number_toString (material item);
     field Number_toString (materialDescription item);
     Number_toString (totalIn item);
     Number_toString (totalOut item);
     Number_toString (balance item);
     field Number_toString (unit item)].

Definition transaction_record (Number_toString : float -> string)
           (type : ViewType) (tx : Transaction) : string :=
  JSString.join ","
    [field Number_toString (postingDate tx);
     Number_toString match type with
                     | view_in => quantity tx
                     | view_out => (- quantity tx)%float
                     end;
     field Number_toString (user tx);
     field Number_toString (costCenter tx);
     field Number_toString (document tx);
     field Number_toString (reservation tx);
     field Number_toString (headerText tx);
     field Number_toString (text tx)].

(** Header row, then the records, joined by newlines. *)
Definition csv (header : list string) (records : list string) : string :=
  JSString.join LF (JSString.join "," header :: records).

End Spec.

(** ** Further notions *)

(** The keys in the order in which each is first seen. *)
Fixpoint distinct_first (keys : list value) : list value :=
  match keys with
  | [] => []
  | k :: rest =>
      k :: List.filter (fun k' => negb (same_value_zero k k'))
                       (distinct_first rest)
  end.

(** ** The rest of [AppComponent]: statistics, dashboard, handlers *)

(** What a derived view or a handler may throw besides the exceptions of
    [processData]: a RangeError, from formatting an invalid date. *)
Inductive thrown : Type :=
| Exn (e : exn)
| RangeError (message : string).

Inductive result (A : Type) : Type :=
| Returned (a : A)
| Raised (t : thrown).

Arguments Returned {A} a.
Arguments Raised {A} t.

Definition and_then {A B : Type} (r : result A) (k : A -> result B) : result B :=
  match r with
  | Returned a => k a
  | Raised t => Raised t
  end.

Definition lift {A : Type} (c : completion A) : result A :=
  match c with
  | Normal a => Returned a
  | Throw e => Raised (Exn e)
  end.

(** [Array.prototype.filter] with a callback that may throw *)
Fixpoint filter_r {A : Type} (p : A -> result bool) (l : list A)
  : result (list A) :=
  match l with
  | [] => Returned []
  | x :: l' =>
      and_then (p x) (fun b =>
      and_then (filter_r p l') (fun r =>
      Returned (if b then x :: r else r)))
  end.

(** [DashboardTransaction]: a transaction and its [type]. *)
Record DashboardTransaction : Type := {
  base : Transaction;
  type : ViewType
}.

(** What [itemDashboard] adds to the selected material. *)
Record Dashboard : Type := {
  dash_material : MaterialSummary;
  allTransactions : list DashboardTransaction
}.

Record InventoryStats : Type := {
  totalItems : Z;
  totalReceived : float;
  totalIssued : float
}.

(** A handler that has changed part of the state when it throws. *)
Inductive handled : Type :=
| Finished (s : State)
| Aborted (t : thrown) (s : State).

Section Interaction.

Variable Date_getTime : value -> option Z.

(** [Intl.DateTimeFormat(undefined, { dateStyle: 'medium' }).format] on a
    valid date, in the locale and the time zone of the implementation. *)
Variable format_medium : Z -> string.

(** [d.toISOString().split('T')[0]] on a valid date: its UTC day. *)
Variable toISODate : Z -> string.

(** *** [inventoryStats] *)

Definition inventoryStats (s : State) : InventoryStats :=
  let data := inventoryData s in
  {| totalItems := Z.of_nat (List.length data);
     totalReceived :=
       fold_left (fun acc item => (acc + totalIn item)%float) data 0%float;
     totalIssued :=
       fold_left (fun acc item => (acc + totalOut item)%float) data 0%float |}.

(** *** [itemDashboard] *)

(** [dateFormatter.format(new Date(v))]: formatting an invalid date throws
    a RangeError. *)
Definition format_date (v : value) : result string :=
  match Date_getTime v with
  | Some t => Returned (format_medium t)
  | None => Raised (RangeError "Invalid time value")
  end.

(** [(v || '').toLowerCase().includes(f)] *)
Definition field_includes (v : value) (f : string) : result bool :=
  and_then (lift (call_toLowerCase (or_else v (VString ""))))
           (fun t => Returned (JSString.includes t f)).

(** The four fields of the free-text filter, left to right, stopping at
    the first that matches. *)
Definition details_match (f : string) (tx : DashboardTransaction) : result bool :=
  and_then (field_includes (headerText (base tx)) f) (fun h =>
  if h then Returned true else
  and_then (field_includes (text (base tx)) f) (fun t =>
  if t then Returned true else
  and_then (field_includes (document (base tx)) f) (fun d =>
  if d then Returned true else
  field_includes (reservation (base tx)) f))).

Definition same_type (a b : ViewType) : bool :=
  match a, b with
  | view_in, view_in => true
  | view_out, view_out => true
  | _, _ => false
  end.

Definition itemDashboard (s : State) : result (option Dashboard) :=
  match selectedMaterial s with
  | None => Returned None
  | Some material =>
      let inTxs :=
        map (fun t => {| base := t; type := view_in |}) (inTransactions material) in
      let outTxs :=
        map (fun t => {| base := t; type := view_out |}) (outTransactions material) in
      let allTransactions :=
        JSArray.sort (fun a b => by_date_desc Date_getTime (base a) (base b))
                     (inTxs ++ outTxs) in
      let filters := dashboardFilters s in
      let fDate := JSString.toLowerCase (f_date filters) in
      let fUser := JSString.toLowerCase (f_user filters) in
      let fCostCenter := JSString.toLowerCase (f_costCenter filters) in
      let fDetails := JSString.toLowerCase (f_details filters) in
      let allTransactions :=
        match f_movement filters with
        | None => allTransactions
        | Some movement =>
            List.filter (fun tx => same_type (type tx) movement) allTransactions
        end in
      and_then
        (if String.eqb fDate "" then Returned allTransactions
         else filter_r
                (fun tx =>
                   and_then (format_date (postingDate (base tx))) (fun d =>
                   Returned (JSString.includes (JSString.toLowerCase d) fDate)))
                allTransactions)
        (fun allTransactions =>
      and_then
        (if String.eqb fUser "" then Returned allTransactions
         else filter_r (fun tx => field_includes (user (base tx)) fUser)
                       allTransactions)
        (fun allTransactions =>
      and_then
        (if String.eqb fCostCenter "" then Returned allTransactions
         else filter_r (fun tx => field_includes (costCenter (base tx)) fCostCenter)
                       allTransactions)
        (fun allTransactions =>
      and_then
        (if String.eqb fDetails "" then Returned allTransactions
         else filter_r (details_match fDetails) allTransactions)
        (fun allTransactions =>
      Returned (Some {| dash_material := material;
                        allTransactions := allTransactions |})))))
  end.

(** *** Setters of single signals *)

Definition set_searchTerm (v : string) (s : State) : State :=
  {| inventoryData := inventoryData s; loading := loading s; error := error s;
     lastUpdated := lastUpdated s; theme := theme s;
     searchTerm := v;
     movementTypeFilter := movementTypeFilter s; sortConfig := sortConfig s;
     showLowStockOnly := showLowStockOnly s; currentPage := currentPage s;
     selectedMaterial := selectedMaterial s;
     detailedViewType := detailedViewType s;
     dateFrom := dateFrom s; dateTo := dateTo s;
     dashboardFilters := dashboardFilters s |}.

Definition set_movementTypeFilter (v : MovementFilter) (s : State) : State :=
  {| inventoryData := inventoryData s; loading := loading s; error := error s;
     lastUpdated := lastUpdated s; theme := theme s;
     searchTerm := searchTerm s;
     movementTypeFilter := v; sortConfig := sortConfig s;
     showLowStockOnly := showLowStockOnly s; currentPage := currentPage s;
     selectedMaterial := selectedMaterial s;
     detailedViewType := detailedViewType s;
     dateFrom := dateFrom s; dateTo := dateTo s;
     dashboardFilters := dashboardFilters s |}.

Definition set_showLowStockOnly (v : bool) (s : State) : State :=
  {| inventoryData := inventoryData s; loading := loading s; error := error s;
     lastUpdated := lastUpdated s; theme := theme s;
     searchTerm := searchTerm s;
     movementTypeFilter := movementTypeFilter s; sortConfig := sortConfig s;
     showLowStockOnly := v; currentPage := currentPage s;
     selectedMaterial := selectedMaterial s;
     detailedViewType := detailedViewType s;
     dateFrom := dateFrom s; dateTo := dateTo s;
     dashboardFilters := dashboardFilters s |}.

Definition set_theme (v : Theme) (s : State) : State :=
  {| inventoryData := inventoryData s; loading := loading s; error := error s;
     lastUpdated := lastUpdated s; theme := v;
     searchTerm := searchTerm s;
     movementTypeFilter := movementTypeFilter s; sortConfig := sortConfig s;
     showLowStockOnly := showLowStockOnly s; currentPage := currentPage s;
     selectedMaterial := selectedMaterial s;
     detailedViewType := detailedViewType s;
     dateFrom := dateFrom s; dateTo := dateTo s;
     dashboardFilters := dashboardFilters s |}.

Definition set_selectedMaterial (v : option MaterialSummary) (s : State) : State :=
  {| inventoryData := inventoryData s; loading := loading s; error := error s;
     lastUpdated := lastUpdated s; theme := theme s;
     searchTerm := searchTerm s;
     movementTypeFilter := movementTypeFilter s; sortConfig := sortConfig s;
     showLowStockOnly := showLowStockOnly s; currentPage := currentPage s;
     selectedMaterial := v;
     detailedViewType := detailedViewType s;
     dateFrom := dateFrom s; dateTo := dateTo s;
     dashboardFilters := dashboardFilters s |}.

Definition set_detailedViewType (v : option ViewType) (s : State) : State :=
  {| inventoryData := inventoryData s; loading := loading s; error := error s;
     lastUpdated := lastUpdated s; theme := theme s;
     searchTerm := searchTerm s;
     movementTypeFilter := movementTypeFilter s; sortConfig := sortConfig s;
     showLowStockOnly := showLowStockOnly s; currentPage := currentPage s;
     selectedMaterial := selectedMaterial s;
     detailedViewType := v;
     dateFrom := dateFrom s; dateTo := dateTo s;
     dashboardFilters := dashboardFilters s |}.

Definition set_dateFrom (v : string) (s : State) : State :=
  {| inventoryData := inventoryData s; loading := loading s; error := error s;
     lastUpdated := lastUpdated s; theme := theme s;
     searchTerm := searchTerm s;
     movementTypeFilter := movementTypeFilter s; sortConfig := sortConfig s;
     showLowStockOnly := showLowStockOnly s; currentPage := currentPage s;
     selectedMaterial := selectedMaterial s;
     detailedViewType := detailedViewType s;
     dateFrom := v; dateTo := dateTo s;
     dashboardFilters := dashboardFilters s |}.

Definition set_dateTo (v : string) (s : State) : State :=
  {| inventoryData := inventoryData s; loading := loading s; error := error s;
     lastUpdated := lastUpdated s; theme := theme s;
     searchTerm := searchTerm s;
     movementTypeFilter := movementTypeFilter s; sortConfig := sortConfig s;
     showLowStockOnly := showLowStockOnly s; currentPage := currentPage s;
     selectedMaterial := selectedMaterial s;
     detailedViewType := detailedViewType s;
     dateFrom := dateFrom s; dateTo := v;
     dashboardFilters := dashboardFilters s |}.

Definition set_dashboardFilters (v : DashboardFilters) (s : State) : State :=
  {| inventoryData := inventoryData s; loading := loading s; error := error s;
     lastUpdated := lastUpdated s; theme := theme s;
     searchTerm := searchTerm s;
     movementTypeFilter := movementTypeFilter s; sortConfig := sortConfig s;
     showLowStockOnly := showLowStockOnly s; currentPage := currentPage s;
     selectedMaterial := selectedMaterial s;
     detailedViewType := detailedViewType s;
     dateFrom := dateFrom s; dateTo := dateTo s;
     dashboardFilters := v |}.

(** *** Event handlers; the argument is what the handler reads off the
    event *)

Definition onSearch (value : string) (s : State) : State :=
  set_currentPage 1 (set_searchTerm value s).

Definition onMovementTypeChange (value : MovementFilter) (s : State) : State :=
  set_currentPage 1 (set_movementTypeFilter value s).

Definition onShowLowStockOnlyChange (checked : bool) (s : State) : State :=
  set_currentPage 1 (set_showLowStockOnly checked s).

Definition onDateChange (value : string) (from : bool) (s : State) : State :=
  if from then set_dateFrom value s else set_dateTo value s.

(** *** Modal management *)

Definition showItemDashboard (material : MaterialSummary) (s : State) : State :=
  set_selectedMaterial (Some material) s.

Definition closeDetailedView (s : State) : State :=
  set_dateTo "" (set_dateFrom "" (set_detailedViewType None s)).

Definition resetDashboardFilters (s : State) : State :=
  set_dashboardFilters
    {| f_date := ""; f_movement := None; f_user := "";
       f_costCenter := ""; f_details := "" |} s.

Definition closeDashboard (s : State) : State :=
  resetDashboardFilters (closeDetailedView (set_selectedMaterial None s)).

(** [showDetailedView]; [now] is the time of [new Date()].  The last
    transaction of the list is read as the oldest; [toISOString] on an
    invalid date throws a RangeError, after [dateTo] has been set. *)
Definition showDetailedView (now : Z) (type : ViewType) (s : State) : handled :=
  match selectedMaterial s with
  | None => Finished s
  | Some material =>
      let transactions :=
        match type with
        | view_in => inTransactions material
        | view_out => outTransactions material
        end in
      match List.last (map Some transactions) None with
      | None => Finished s
      | Some oldest =>
          let s := set_dateTo (toISODate now) s in
          match Date_getTime (postingDate oldest) with
          | None => Aborted (RangeError "Invalid time value") s
          | Some oldestTxDate =>
              let s := set_dateFrom (toISODate oldestTxDate) s in
              Finished (set_detailedViewType (Some type) s)
          end
      end
  end.

Definition handleEscapeKey (s : State) : State :=
  match detailedViewType s with
  | Some _ => closeDetailedView s
  | None =>
      match selectedMaterial s with
      | Some _ => closeDashboard s
      | None => s
      end
  end.

(** *** Theme *)

Definition toggleTheme (s : State) : State :=
  set_theme (match theme s with light => dark | dark => light end) s.

(** What the effect of the constructor writes to the storage. *)
Definition theme_text (t : Theme) : string :=
  match t with
  | light => "light"
  | dark => "dark"
  end.

(** [initializeTheme]; [stored] is the item of the storage, [null] where
    there is none, and [prefersDark] is whether [matchMedia] exists and
    matches the dark colour scheme. *)
Definition initializeTheme (stored : option string) (prefersDark : bool)
           (s : State) : State :=
  match stored with
  | Some t =>
      if String.eqb t "dark" then set_theme dark s
      else if String.eqb t "light" then set_theme light s
      else if prefersDark then set_theme dark s else s
  | None => if prefersDark then set_theme dark s else s
  end.

End Interaction.

(** The text of a value that is a string. *)
Definition string_of (v : value) : string :=
  match v with
  | VString t => t
  | _ => ""
  end.

(** Material and description are strings, as [MaterialSummary] declares. *)
Definition typed_item (item : MaterialSummary) : Prop :=
  exists m d, material item = VString m /\ materialDescription item = VString d.

(** The three tests of [baseFilteredInventory] on one item, for an item
    whose material and description are strings. *)
Definition shown (s : State) (item : MaterialSummary) : bool :=
  (if showLowStockOnly s then (balance item <=? lowStockThreshold)%float
   else true)
  && match movementTypeFilter s with
     | only101 => (0 <? totalIn item)%float
     | only201 => (0 <? totalOut item)%float
     | all => true
     end
  && (String.eqb (JSString.toLowerCase (searchTerm s)) ""
      || JSString.includes (JSString.toLowerCase (string_of (material item)))
                           (JSString.toLowerCase (searchTerm s))
      || JSString.includes
           (JSString.toLowerCase (string_of (materialDescription item)))
           (JSString.toLowerCase (searchTerm s))).

(** The page [p] of a state: [paginatedInventory] with [currentPage] at
    [p], empty where it throws. *)
Definition page_of (localeCompare : string -> string -> float)
           (s : State) (p : Z) : list MaterialSummary :=
  match paginatedInventory localeCompare (set_currentPage p s) with
  | Normal items => items
  | Throw _ => []
  end.

(** The page numbers from 1 to [n]. *)
Definition pages_upto (n : Z) : list Z :=
  map Z.of_nat (seq 1 (Z.to_nat n)).

(** The list that the date-range view of one type starts from. *)
Definition transactions_of (v : ViewType) (material : MaterialSummary)
  : list Transaction :=
  match v with
  | view_in => inTransactions material
  | view_out => outTransactions material
  end.

(** A transaction with its type, as [itemDashboard] spreads it. *)
Definition tagged (v : ViewType) (t : Transaction) : DashboardTransaction :=
  {| base := t; type := v |}.

(** *** The handlers as one step function *)

(** The handlers of the component, each with what it reads off its event.
    [onSortChange] and [onDashboardFilterChange] are not among them: they
    store whatever text the event carries, where the state here is
    typed. *)
Inductive handler : Type :=
| Search (value : string)
| MovementTypeChange (value : MovementFilter)
| ShowLowStockOnlyChange (checked : bool)
| DateChange (value : string) (from : bool)
| ShowItemDashboard (material : MaterialSummary)
| CloseDashboard
| ResetDashboardFilters
| ShowDetailedView (now : Z) (v : ViewType)
| CloseDetailedView
| EscapeKey
| GoToPage (page : Z)
| NextPage
| PrevPage
| ToggleTheme
| LoadInventory (now : Z) (o : ServiceOutcome).

Section Handlers.

Variable costCenterMap : string -> value.
Variable Date_getTime : value -> option Z.
Variable toISODate : Z -> string.

(** The state that a handler leaves, also where it throws: a pagination
    handler throws before it sets anything, [showDetailedView] after it
    has set [dateTo]. *)
Definition run (h : handler) (s : State) : State :=
  let paged (c : completion State) :=
    match c with
    | Normal s' => s'
    | Throw _ => s
    end in
  match h with
  | Search value => onSearch value s
  | MovementTypeChange value => onMovementTypeChange value s
  | ShowLowStockOnlyChange checked => onShowLowStockOnlyChange checked s
  | DateChange value from => onDateChange value from s
  | ShowItemDashboard material => showItemDashboard material s
  | CloseDashboard => closeDashboard s
  | ResetDashboardFilters => resetDashboardFilters s
  | ShowDetailedView now v =>
      match showDetailedView Date_getTime toISODate now v s with
      | Finished s' => s'
      | Aborted _ s' => s'
      end
  | CloseDetailedView => closeDetailedView s
  | EscapeKey => handleEscapeKey s
  | GoToPage page => paged (goToPage page s)
  | NextPage => paged (nextPage s)
  | PrevPage => paged (prevPage s)
  | ToggleTheme => toggleTheme s
  | LoadInventory now o => loadInventory costCenterMap Date_getTime now o s
  end.

(** The handlers of [hs] one after the other, the first of the list
    first. *)
Definition run_all (hs : list handler) (s : State) : State :=
  fold_left (fun s h => run h s) hs s.

End Handlers.

(** The page is at least 1, and the date-range view is open only over a
    selected material. *)
Definition well_formed (s : State) : Prop :=
  1 <= currentPage s /\
  (detailedViewType s <> None -> selectedMaterial s <> None).

(** *** Reading a quoted field back *)

(** The text of a quoted field after its opening double quote, and what
    follows its closing one: two double quotes read as one, a single one
    closes the field. *)
Fixpoint read_field (s : string) : option (string * string) :=
  match s with
  | EmptyString => None
  | String c s' =>
      if Ascii.eqb c JSString.dquote then
        match s' with
        | String c' s'' =>
            if Ascii.eqb c' JSString.dquote then
              match read_field s'' with
              | Some (t, r) => Some (String JSString.dquote t, r)
              | None => None
              end
            else Some (EmptyString, s')
        | EmptyString => Some (EmptyString, EmptyString)
        end
      else
        match read_field s' with
        | Some (t, r) => Some (String c t, r)
        | None => None
        end
  end.

Definition read_quoted (s : string) : option (string * string) :=
  match s with
  | String c s' => if Ascii.eqb c JSString.dquote then read_field s' else None
  | EmptyString => None
  end.

(** The text does not start with a double quote. *)
Definition unquoted_start (s : string) : bool :=
  match s with
  | String c _ => negb (Ascii.eqb c JSString.dquote)
  | EmptyString => true
  end.

(** *** Finite Numbers in order *)

(** A finite Number as a multiple of the least subnormal, 2^-1074: an
    integer. *)
Definition sf_scaled (x : spec_float) : Z :=
  match x with
  | S754_finite s m e => cond_Zopp s (Zpos m * 2 ^ (e + 1074))
  | _ => 0
  end.

(** A zero or a finite Number: neither NaN nor an infinity. *)
Definition sf_finite (x : spec_float) : bool :=
  match x with
  | S754_zero _ | S754_finite _ _ _ => true
  | _ => false
  end.

(** What [sign_of] reads, on the specification of a Number. *)
Definition sf_sign (r : spec_float) : Z :=
  if SFltb r (S754_zero false) then -1
  else if SFltb (S754_zero false) r then 1 else 0.

(** [Number.isFinite] *)
Definition isFinite (x : float) : bool := sf_finite (Prim2SF x).

Definition scaled (x : float) : Z := sf_scaled (Prim2SF x).

(** The rank by which the sort by balance orders the items. *)
Definition rank_of (d : Direction) (item : MaterialSummary) : Z :=
  match d with
  | asc => scaled (balance item)
  | desc => - scaled (balance item)
  end.

(** ** More of the environment, and states of a session *)

Module Session.

(** The year, month and day of the day [z] days after 1970-01-01. *)
Definition civil_from_days (z : Z) : Z * Z * Z :=
  let z := z + 719468 in
  let era := z / 146097 in
  let doe := z - era * 146097 in
  let yoe := (doe - doe / 1460 + doe / 36524 - doe / 146096) / 365 in
  let doy := doe - (365 * yoe + yoe / 4 - yoe / 100) in
  let mp := (5 * doy + 2) / 153 in
  let d := doy - (153 * mp + 2) / 5 + 1 in
  let m := if mp <? 10 then mp + 3 else mp - 9 in
  ((if m <=? 2 then yoe + era * 400 + 1 else yoe + era * 400), m, d).

(** [n] in decimal, with zeros before it up to [width] digits. *)
Definition pad (width : nat) (n : Z) : string :=
  let digits := Sample.decimal n in
  (Sample.zeros (width - String.length digits) ++ digits)%string.

(** The UTC day of a time value as [toISOString] writes it: four digits
    for the years 0 to 9999, a sign and six digits for the others. *)
Definition toISODate (t : Z) : string :=
  let '(y, m, d) := civil_from_days (t / 86400000) in
  let sign := if y <? 0 then "-" else "+" in
  let year :=
    if (0 <=? y) && (y <=? 9999) then pad 4 y
    else (sign ++ pad 6 (Z.abs y))%string in
  (year ++ "-" ++ pad 2 m ++ "-" ++ pad 2 d)%string.

Definition month_name (m : Z) : string :=
  nth (Z.to_nat (m - 1))
      ["Jan"; "Feb"; "Mar"; "Apr"; "May"; "Jun";
       "Jul"; "Aug"; "Sep"; "Oct"; "Nov"; "Dec"] "".

(** The medium date style of the locale en-US, in UTC, for the years
    from 1 on. *)
Definition format_medium (t : Z) : string :=
  let '(y, m, d) := civil_from_days (t / 86400000) in
  (month_name m ++ " " ++ Sample.decimal d ++ ", " ++ Sample.decimal y)%string.

Definition showDetailedView :=
  showDetailedView Sample.Date_getTime toISODate.

Definition itemDashboard :=
  itemDashboard Sample.Date_getTime format_medium.

Definition detailedTransactionsView :=
  detailedTransactionsView Sample.Date_getTime Sample.startOfDay Sample.endOfDay.

Definition run := run Sample.costCenterMap Sample.Date_getTime toISODate.

(** The first of June 2024, at noon UTC. *)
Definition noon : Z := 1717243200000.

(** Thirty items, A1 to A30, on the second of three pages. *)
Definition crowded : State :=
  set_currentPage 2
    (set_load
       (map (fun n => Sample.stock ("A" ++ Sample.decimal (Z.of_nat n)) 20)
            (seq 1 30))
       false None None initial_state).

(** The items of [crowded] in the order of its sort. *)
Definition crowded_sorted : list MaterialSummary :=
  JSArray.sort (compare_items Sample.localeCompare (sortConfig crowded))
               (inventoryData crowded).

(** [crowded] left on page 5 of its three. *)
Definition stale : State := set_currentPage 5 crowded.

(** The dashboard of M1 open over the loaded [ledger]. *)
Definition dashboard : State := showItemDashboard Sample.ledger_M1 Sample.loaded.

(** The dashboard of M1 open over the loaded [bolts], whose transactions
    have no posting date. *)
Definition undated : State :=
  showItemDashboard Sample.bolts_M1
    (loadInventory Sample.costCenterMap Sample.Date_getTime noon
                   (Next Sample.bolts) initial_state).

(** [dashboard] with the movement filter of the dashboard on receipts. *)
Definition receipts_only : State :=
  set_dashboardFilters
    {| f_date := ""; f_movement := Some view_in; f_user := "";
       f_costCenter := ""; f_details := "" |} dashboard.

(** [undated] with Jan typed in the date filter of the dashboard. *)
Definition filtered_by_date : State :=
  set_dashboardFilters
    {| f_date := "Jan"; f_movement := None; f_user := "";
       f_costCenter := ""; f_details := "" |} undated.

(** Balances 11, 5, 10 and 5 again, sorted by balance, largest first. *)
Definition by_balance : State :=
  {| inventoryData :=
       [Sample.stock "A" 11; Sample.stock "B" 5; Sample.stock "C" 10;
        Sample.stock "D" 5];
     loading := false;
     error := None;
     lastUpdated := None;
     theme := light;
     searchTerm := "";
     movementTypeFilter := all;
     sortConfig := {| column := col_balance; direction := desc |};
     showLowStockOnly := false;
     currentPage := 1;
     selectedMaterial := None;
     detailedViewType := None;
     dateFrom := "";
     dateTo := "";
     dashboardFilters := dashboardFilters initial_state |}.


End Session.

(** * Properties *)

(** ** Numbers: signs and equality *)

Module FloatFacts.

Lemma leb_zero_nonneg (x : float) :
  (0 <=? x)%float = sf_nonneg (Prim2SF x).
Proof.
  rewrite FloatAxioms.leb_spec. change (Prim2SF 0) with (S754_zero false).
  destruct (Prim2SF x) as [s|s| |s m e]; try destruct s; reflexivity.
Qed.

Lemma iter_pos_invariant {A : Type} (P : A -> Prop) (f : A -> A) :
  (forall x, P x -> P (f x)) -> forall n x, P x -> P (SpecFloat.iter_pos f n x).
Proof.
  intros Hf. induction n as [n IH|n IH|]; intros x Hx; simpl; auto.
Qed.

Lemma shr_1_nonneg mrs : 0 <= shr_m mrs -> 0 <= shr_m (shr_1 mrs).
Proof.
  destruct mrs as [m r s]. simpl.
  destruct m as [|p|p]; simpl; try lia; destruct p; simpl; lia.
Qed.

Lemma shr_nonneg mrs e n : 0 <= shr_m mrs -> 0 <= shr_m (fst (shr mrs e n)).
Proof.
  intros H. unfold shr. destruct n; simpl; auto.
  apply (iter_pos_invariant (fun r => 0 <= shr_m r)); auto using shr_1_nonneg.
Qed.

Lemma shr_record_of_loc_m m l : shr_m (shr_record_of_loc m l) = m.
Proof. destruct l as [|[]]; reflexivity. Qed.

Lemma shr_fexp_nonneg m e l :
  0 <= m -> 0 <= shr_m (fst (shr_fexp prec emax m e l)).
Proof.
  intros H. unfold shr_fexp. apply shr_nonneg. now rewrite shr_record_of_loc_m.
Qed.

Lemma round_nearest_even_nonneg m l : 0 <= m -> 0 <= round_nearest_even m l.
Proof.
  intros H. unfold round_nearest_even.
  destruct l as [|[]]; try lia. destruct (Z.even m); lia.
Qed.

Lemma binary_round_aux_nonneg m e l :
  0 <= m -> sf_nonneg (binary_round_aux prec emax false m e l) = true.
Proof.
  intros H. unfold binary_round_aux.
  pose proof (shr_fexp_nonneg m e l H) as H1.
  destruct (shr_fexp prec emax m e l) as [mrs' e']. simpl in H1.
  pose proof (round_nearest_even_nonneg _ (loc_of_shr_record mrs') H1) as H2.
  pose proof (shr_fexp_nonneg _ e' loc_Exact H2) as H3.
  destruct (shr_fexp prec emax
              (round_nearest_even (shr_m mrs') (loc_of_shr_record mrs'))
              e' loc_Exact) as [mrs'' e''].
  simpl in H3.
  destruct (shr_m mrs'') as [|p|p]; try reflexivity.
  - destruct (e'' <=? emax - prec); reflexivity.
  - lia.
Qed.

Lemma binary_round_nonneg m e :
  sf_nonneg (binary_round prec emax false m e) = true.
Proof.
  unfold binary_round.
  destruct (shl_align m e _) as [mz ez].
  apply binary_round_aux_nonneg. lia.
Qed.

Lemma SFadd_nonneg x y :
  sf_nonneg x = true -> sf_nonneg y = true -> sf_nonneg (SF64add x y) = true.
Proof.
  unfold SF64add.
  destruct x as [sx|sx| |sx mx ex], y as [sy|sy| |sy my ey]; simpl;
    try discriminate; try (intros; assumption); try reflexivity.
  - destruct sx, sy; reflexivity.
  - destruct sx, sy; simpl; try discriminate; reflexivity.
  - destruct sx, sy; simpl; try discriminate. intros _ _.
    unfold binary_normalize.
    destruct (shl_align mx ex (Z.min ex ey)) as [a ?].
    destruct (shl_align my ey (Z.min ex ey)) as [b ?]. simpl.
    apply binary_round_nonneg.
Qed.

(** The sum of two Numbers that are [>= 0] is [>= 0]. *)
Lemma add_nonneg (x y : float) :
  (0 <=? x)%float = true -> (0 <=? y)%float = true ->
  (0 <=? x + y)%float = true.
Proof.
  rewrite !leb_zero_nonneg, FloatAxioms.add_spec. apply SFadd_nonneg.
Qed.

Lemma SFeqb_refl_finite s m e :
  SFeqb (S754_finite s m e) (S754_finite s m e) = true.
Proof.
  unfold SFeqb; simpl.
  destruct s; rewrite Z.compare_refl, Pos.compare_cont_refl; reflexivity.
Qed.

Lemma is_nan_spec (x : float) : is_nan x = true <-> Prim2SF x = S754_nan.
Proof.
  unfold is_nan. rewrite FloatAxioms.eqb_spec.
  destruct (Prim2SF x) as [s|s| |s m e].
  - split; discriminate.
  - destruct s; split; discriminate.
  - split; reflexivity.
  - rewrite SFeqb_refl_finite. split; discriminate.
Qed.

Lemma is_nan_false_spec (x : float) :
  is_nan x = false <-> Prim2SF x <> S754_nan.
Proof.
  rewrite <- is_nan_spec. destruct (is_nan x); split; congruence.
Qed.

(** [Math.abs] of a Number that is not NaN is [>= 0]. *)
Lemma abs_nonneg (x : float) :
  is_nan x = false -> (0 <=? abs x)%float = true.
Proof.
  intros H. rewrite leb_zero_nonneg, FloatAxioms.abs_spec.
  destruct (Prim2SF x) as [s|s| |s m e] eqn:E; try reflexivity.
  apply is_nan_spec in E. congruence.
Qed.

Lemma SFeqb_finite s1 m1 e1 s2 m2 e2 :
  SFeqb (S754_finite s1 m1 e1) (S754_finite s2 m2 e2) = true ->
  S754_finite s1 m1 e1 = S754_finite s2 m2 e2.
Proof.
  unfold SFeqb; simpl.
  destruct s1, s2; try discriminate;
    destruct (Z.compare_spec e1 e2) as [He|He|He]; try discriminate;
    fold (Pos.compare m1 m2);
    destruct (Pos.compare_spec m1 m2) as [Hm|Hm|Hm]; try discriminate;
    intros _; congruence.
Qed.

Lemma SFeqb_class a b :
  SFeqb a b = true <-> sf_class a = sf_class b /\ a <> S754_nan.
Proof.
  split.
  - destruct a as [sa|sa| |sa ma ea], b as [sb|sb| |sb mb eb];
      try (intros H; apply SFeqb_finite in H; split; [exact H|discriminate]);
      try (destruct sa); try (destruct sb); try discriminate;
      intros _; split; try reflexivity; discriminate.
  - intros [H Hn].
    destruct a as [sa|sa| |sa ma ea], b as [sb|sb| |sb mb eb];
      try discriminate; try contradiction; try reflexivity.
    + simpl in H. injection H as ->. destruct sb; reflexivity.
    + simpl in H. rewrite H. apply SFeqb_refl_finite.
Qed.

Lemma sf_class_nan x : sf_class x = S754_nan -> x = S754_nan.
Proof. destruct x; simpl; congruence. Qed.

Lemma same_value_zero_class (a b : value) :
  same_value_zero a b = true <-> class_of a = class_of b.
Proof.
  destruct a as [|s|n], b as [|t|m]; simpl;
    try (split; [discriminate|discriminate]); try (split; reflexivity).
  - rewrite String.eqb_eq. split; congruence.
  - rewrite orb_true_iff, andb_true_iff, FloatAxioms.eqb_spec, SFeqb_class,
      !is_nan_spec.
    split.
    + intros [[H _]|[H1 H2]]; [now rewrite H|now rewrite H1, H2].
    + intros H. injection H as H.
      destruct (Prim2SF n) as [sn|sn| |sn mn en] eqn:En.
      * left. split; [exact H|discriminate].
      * left. split; [exact H|discriminate].
      * right. split; [reflexivity|]. symmetry in H.
        now apply sf_class_nan in H.
      * left. split; [exact H|discriminate].
Qed.

Lemma same_value_zero_refl a : same_value_zero a a = true.
Proof. now apply same_value_zero_class. Qed.

Lemma same_value_zero_sym a b : same_value_zero a b = same_value_zero b a.
Proof.
  destruct (same_value_zero a b) eqn:E1, (same_value_zero b a) eqn:E2;
    try reflexivity.
  - apply same_value_zero_class in E1. symmetry in E1.
    apply same_value_zero_class in E1. congruence.
  - apply same_value_zero_class in E2. symmetry in E2.
    apply same_value_zero_class in E2. congruence.
Qed.

(** Keys that are the same key are the same key as the same values. *)
Lemma same_value_zero_congr a b c :
  same_value_zero a b = true -> same_value_zero a c = same_value_zero b c.
Proof.
  intros H. apply same_value_zero_class in H.
  destruct (same_value_zero a c) eqn:E1, (same_value_zero b c) eqn:E2;
    try reflexivity.
  - apply same_value_zero_class in E1. rewrite H in E1.
    apply same_value_zero_class in E1. congruence.
  - apply same_value_zero_class in E2. rewrite <- H in E2.
    apply same_value_zero_class in E2. congruence.
Qed.

End FloatFacts.

(** ** The map of summaries *)

Module MapFacts.
Import FloatFacts.

Lemma has_app m m' k : JSMap.has (m ++ m') k = JSMap.has m k || JSMap.has m' k.
Proof. unfold JSMap.has. apply existsb_app. Qed.

Lemma has_false_In m k k' v :
  JSMap.has m k = false -> In (k', v) m -> same_value_zero k' k = false.
Proof.
  unfold JSMap.has. intros H Hin.
  destruct (same_value_zero k' k) eqn:E; [|reflexivity].
  assert (existsb (fun e => same_value_zero (fst e) k) m = true) as H'.
  { apply existsb_exists. exists (k', v). split; [exact Hin|exact E]. }
  congruence.
Qed.

Lemma has_true_In m k :
  JSMap.has m k = true ->
  exists k' v, In (k', v) m /\ same_value_zero k' k = true.
Proof.
  unfold JSMap.has. intros H. apply existsb_exists in H.
  destruct H as [[k' v] [Hin E]]. now exists k', v.
Qed.

Lemma has_congr m k k' :
  same_value_zero k k' = true -> JSMap.has m k = JSMap.has m k'.
Proof.
  intros H. unfold JSMap.has. induction m as [|[k0 v0] m IH]; simpl.
  - reflexivity.
  - rewrite IH. f_equal.
    rewrite (same_value_zero_sym k0 k), (same_value_zero_sym k0 k').
    now apply same_value_zero_congr.
Qed.

Lemma has_update m k f k' : JSMap.has (JSMap.update m k f) k' = JSMap.has m k'.
Proof.
  unfold JSMap.has. induction m as [|[k0 v0] m IH]; simpl.
  - reflexivity.
  - destruct (same_value_zero k0 k); simpl; [reflexivity|now rewrite IH].
Qed.

Lemma length_update m k f : List.length (JSMap.update m k f) = List.length m.
Proof.
  induction m as [|[k0 v0] m IH]; simpl; [reflexivity|].
  destruct (same_value_zero k0 k); simpl; congruence.
Qed.

(** With distinct keys, [update] changes the entry of the key and no
    other. *)
Lemma In_update m k f k' v' :
  distinct_keys m -> In (k', v') (JSMap.update m k f) ->
  exists v, In (k', v) m /\
            v' = if same_value_zero k' k then f v else v.
Proof.
  induction m as [|[k0 v0] m IH]; simpl; [intros _ []|].
  intros [Hk0 Hd]. destruct (same_value_zero k0 k) eqn:E; simpl.
  - intros [Heq|Hin].
    + injection Heq as <- <-. exists v0. rewrite E. auto.
    + exists v'. split; [now right|].
      pose proof (has_false_In _ _ _ _ Hk0 Hin) as H1.
      rewrite same_value_zero_sym in H1.
      rewrite (same_value_zero_congr _ _ _ E) in H1.
      rewrite same_value_zero_sym in H1. now rewrite H1.
  - intros [Heq|Hin].
    + injection Heq as <- <-. exists v0. rewrite E. auto.
    + destruct (IH Hd Hin) as [v [Hv Hv']]. exists v. auto.
Qed.

Lemma distinct_keys_update m k f :
  distinct_keys m -> distinct_keys (JSMap.update m k f).
Proof.
  induction m as [|[k0 v0] m IH]; simpl; [trivial|].
  intros [Hk0 Hd]. destruct (same_value_zero k0 k); simpl.
  - auto.
  - rewrite has_update. auto.
Qed.

Lemma distinct_keys_set_new m k v :
  distinct_keys m -> JSMap.has m k = false ->
  distinct_keys (JSMap.set_new m k v).
Proof.
  unfold JSMap.set_new. induction m as [|[k0 v0] m IH]; simpl.
  - auto.
  - intros [Hk0 Hd] Hk. apply orb_false_iff in Hk. destruct Hk as [Hk Hm].
    split; [|now apply IH].
    rewrite has_app, Hk0. simpl. rewrite same_value_zero_sym, Hk. reflexivity.
Qed.

(** An entry whose change is visible makes the updated map another map. *)
Lemma update_changes m k f :
  JSMap.has m k = true -> (forall v, f v <> v) -> JSMap.update m k f <> m.
Proof.
  induction m as [|[k0 v0] m IH]; simpl; [discriminate|].
  intros H Hf. destruct (same_value_zero k0 k); simpl in *.
  - intros Heq. injection Heq as Heq. now apply (Hf v0).
  - intros Heq. injection Heq as Heq. now apply IH.
Qed.

End MapFacts.

(** ** The loop of [processData] *)

Section LoopFacts.
Import FloatFacts MapFacts.

Variable costCenterMap : string -> value.
Variable c : Columns.

Lemma for_of_app {S A : Type} (body : S -> A -> completion S) l1 l2 s :
  for_of body (l1 ++ l2) s = let* s' := for_of body l1 s in for_of body l2 s'.
Proof.
  revert s. induction l1 as [|x l1 IH]; intros s; simpl; [reflexivity|].
  destruct (body s x); simpl; [apply IH|reflexivity].
Qed.

Lemma Set_has_allowed mt :
  Set_has allowedMovements mt =
  strict_equal mt (VString "101") || strict_equal mt (VString "201").
Proof.
  destruct mt as [|s|n]; try reflexivity.
  cbn -[String.eqb].
  rewrite orb_false_r, (String.eqb_sym "101"), (String.eqb_sym "201").
  reflexivity.
Qed.

Lemma has_movement_exclusive row :
  has_movement c "101" row = true -> has_movement c "201" row = false.
Proof.
  unfold has_movement. destruct (movementType_of c row) as [mt|e]; [|discriminate].
  destruct mt as [|s|n]; simpl; try discriminate.
  intros H. apply String.eqb_eq in H. now subst s.
Qed.

(** What the body of the loop does with a row: it throws where trimming
    the movement type throws; it leaves the map alone where the row is
    not admitted; otherwise it throws where trimming the cost-center
    code throws, and else changes the entry of the row's material. *)
Lemma loop_body_cases m row :
  match movementType_of c row with
  | Throw e => loop_body costCenterMap c m row = Throw e
  | Normal _ =>
      if passes c row then
        match call_trim (costCenterCode_of c row) with
        | Throw e => loop_body costCenterMap c m row = Throw e
        | Normal _ =>
            loop_body costCenterMap c m row =
            Normal (JSMap.update (ensure c row m) (material_of c row)
                                 (step costCenterMap c row))
        end
      else loop_body costCenterMap c m row = Normal m
  end.
Proof.
  unfold passes, has_movement, step, has_movement, ensure, transaction_of,
    loop_body.
  fold (movementType_of c row) (material_of c row) (quantity_of c row)
       (costCenterCode_of c row).
  destruct (movementType_of c row) as [mt|e]; cbn [bind]; [|reflexivity].
  rewrite Set_has_allowed.
  destruct (strict_equal mt (VString "101")) eqn:E1; cbn [orb negb andb].
  - destruct (truthy (material_of c row)); cbn [orb negb andb]; [|reflexivity].
    destruct (isNaN (quantity_of c row)); cbn [orb negb andb]; [reflexivity|].
    destruct (call_trim (costCenterCode_of c row)); reflexivity.
  - destruct (strict_equal mt (VString "201")) eqn:E2; cbn [orb negb andb];
      [|reflexivity].
    destruct (truthy (material_of c row)); cbn [orb negb andb]; [|reflexivity].
    destruct (isNaN (quantity_of c row)); cbn [orb negb andb]; [reflexivity|].
    destruct (call_trim (costCenterCode_of c row)); reflexivity.
Qed.

Lemma rows_of_app code k l1 l2 :
  rows_of c code k (l1 ++ l2) = rows_of c code k l1 ++ rows_of c code k l2.
Proof. apply filter_app. Qed.

Lemma first_row_app k l1 l2 :
  first_row c k (l1 ++ l2) =
  match first_row c k l1 with
  | Some row => Some row
  | None => first_row c k l2
  end.
Proof.
  unfold first_row. induction l1 as [|x l1 IH]; simpl; [reflexivity|].
  destruct (passes c x && same_value_zero (material_of c x) k);
    [reflexivity|exact IH].
Qed.

Lemma first_row_none_rows_of code k l :
  first_row c k l = None -> rows_of c code k l = [].
Proof.
  unfold first_row, rows_of. induction l as [|x l IH]; simpl; [reflexivity|].
  destruct (passes c x) eqn:Ea; simpl.
  - destruct (same_value_zero (material_of c x) k) eqn:Es; simpl;
      [discriminate|]. rewrite andb_false_r. exact IH.
  - exact IH.
Qed.

Lemma first_row_some k l row :
  first_row c k l = Some row ->
  In row l /\ passes c row = true /\
  same_value_zero (material_of c row) k = true.
Proof.
  unfold first_row. intros H. apply find_some in H.
  destruct H as [Hin H]. apply andb_true_iff in H. tauto.
Qed.

Lemma first_row_In k l row :
  In row l -> passes c row = true ->
  same_value_zero (material_of c row) k = true ->
  first_row c k l <> None.
Proof.
  unfold first_row. intros Hin Ha Hs H.
  apply (find_none _ _ H) in Hin. rewrite Ha, Hs in Hin. discriminate.
Qed.

Lemma first_row_congr k k' l :
  same_value_zero k k' = true -> first_row c k l = first_row c k' l.
Proof.
  intros H. unfold first_row. induction l as [|x l IH]; simpl; [reflexivity|].
  rewrite IH.
  rewrite (same_value_zero_sym _ k), (same_value_zero_sym _ k'),
    (same_value_zero_congr _ _ _ H).
  reflexivity.
Qed.

Lemma sum_in_snoc l row :
  sum_in c (l ++ [row]) = (sum_in c l + quantity_of c row)%float.
Proof. unfold sum_in. now rewrite fold_left_app. Qed.

Lemma sum_out_snoc l row :
  sum_out c (l ++ [row]) = (sum_out c l + Math_abs (quantity_of c row))%float.
Proof. unfold sum_out. now rewrite fold_left_app. Qed.

Lemma rows_of_single_miss code k row :
  passes c row && same_value_zero (material_of c row) k = false ->
  rows_of c code k [row] = [].
Proof.
  unfold rows_of. simpl. intros H.
  destruct (passes c row); simpl in *.
  - rewrite H, andb_false_r. reflexivity.
  - reflexivity.
Qed.

Lemma rows_of_single_hit code k row :
  passes c row = true -> same_value_zero (material_of c row) k = true ->
  rows_of c code k [row] = if has_movement c code row then [row] else [].
Proof.
  unfold rows_of. simpl. intros -> ->. simpl. rewrite andb_true_r.
  reflexivity.
Qed.

Lemma passes_movement row :
  passes c row = true -> has_movement c "101" row = false ->
  has_movement c "201" row = true.
Proof.
  unfold passes. intros H H1. rewrite H1 in H. simpl in H.
  apply andb_true_iff in H. destruct H as [H _].
  apply andb_true_iff in H. tauto.
Qed.

Lemma expected_snoc_skip k l row :
  passes c row && same_value_zero (material_of c row) k = false ->
  expected costCenterMap c (l ++ [row]) k = expected costCenterMap c l k.
Proof.
  intros H. unfold expected.
  rewrite !rows_of_app, !(rows_of_single_miss _ _ _ H), !app_nil_r.
  rewrite first_row_app. unfold first_row at 2. simpl. rewrite H.
  destruct (first_row c k l); reflexivity.
Qed.

Lemma expected_snoc_step k l row first :
  passes c row = true -> same_value_zero (material_of c row) k = true ->
  match first_row c k l with
  | Some r0 => first = r0
  | None => first = row
  end ->
  expected costCenterMap c (l ++ [row]) k =
  step costCenterMap c row
    {| s_materialDescription := s_materialDescription (new_summary c first);
       s_totalIn := sum_in c (rows_of c "101" k l);
       s_totalOut := sum_out c (rows_of c "201" k l);
       s_balance := 0%float;
       s_unit := s_unit (new_summary c first);
       s_inTransactions :=
         map (transaction_of costCenterMap c) (rows_of c "101" k l);
       s_outTransactions :=
         map (transaction_of costCenterMap c) (rows_of c "201" k l) |}.
Proof.
  intros Ha Hs Hf. unfold expected, step.
  rewrite !rows_of_app, !(rows_of_single_hit _ _ _ Ha Hs).
  rewrite first_row_app. unfold first_row at 2. simpl. rewrite Ha, Hs. simpl.
  destruct (first_row c k l) as [r0|]; subst first;
    destruct (has_movement c "101" row) eqn:E1;
    try (rewrite (has_movement_exclusive _ E1), app_nil_r;
         unfold add_in; simpl; now rewrite sum_in_snoc, map_app);
    rewrite (passes_movement _ Ha E1), app_nil_r;
    unfold add_out; simpl; now rewrite sum_out_snoc, map_app.
Qed.

Lemma expected_snoc_hit k l row :
  passes c row = true -> same_value_zero (material_of c row) k = true ->
  first_row c k l <> None ->
  expected costCenterMap c (l ++ [row]) k =
  step costCenterMap c row (expected costCenterMap c l k).
Proof.
  intros Ha Hs Hf. destruct (first_row c k l) as [r0|] eqn:E; [|congruence].
  rewrite (expected_snoc_step k l row r0 Ha Hs); [|now rewrite E].
  unfold expected. now rewrite E.
Qed.

Lemma expected_snoc_new k l row :
  passes c row = true -> same_value_zero (material_of c row) k = true ->
  first_row c k l = None ->
  expected costCenterMap c (l ++ [row]) k =
  step costCenterMap c row (new_summary c row).
Proof.
  intros Ha Hs Hf.
  rewrite (expected_snoc_step k l row row Ha Hs); [|now rewrite Hf].
  rewrite !(first_row_none_rows_of _ _ _ Hf). reflexivity.
Qed.

(** The map after the rows [l]: its keys are distinct, every entry is the
    one that [l] gives its key, and every admitted row has its entry. *)
Lemma for_of_loop_body l : forall m,
  for_of (loop_body costCenterMap c) l [] = Normal m ->
  distinct_keys m /\
  (forall k v, In (k, v) m ->
               v = expected costCenterMap c l k /\ first_row c k l <> None) /\
  (forall row, In row l -> passes c row = true ->
               JSMap.has m (material_of c row) = true).
Proof.
  induction l as [|row l IH] using rev_ind; intros m.
  - simpl. intros H. injection H as <-. simpl. repeat split; intros; tauto.
  - rewrite for_of_app.
    destruct (for_of (loop_body costCenterMap c) l []) as [m0|e];
      [|discriminate].
    destruct (IH m0 eq_refl) as (Hd & He & Hc). clear IH.
    cbn [bind for_of].
    pose proof (loop_body_cases m0 row) as Hb.
    destruct (movementType_of c row) as [mt|e];
      [|rewrite Hb; discriminate].
    destruct (passes c row) eqn:Ha.
    + destruct (call_trim (costCenterCode_of c row)) as [t|e];
        [|rewrite Hb; discriminate].
      rewrite Hb. cbn [bind]. intros H. injection H as <-.
      assert (distinct_keys (ensure c row m0)) as Hd1.
      { unfold ensure. destruct (JSMap.has m0 (material_of c row)) eqn:Eh; simpl.
        - exact Hd.
        - now apply distinct_keys_set_new. }
      assert (JSMap.has m0 (material_of c row) = false -> first_row c (material_of c row) l = None) as Hnew.
      { intros Eh. destruct (first_row c (material_of c row) l) as [r0|] eqn:E; [|reflexivity].
        apply first_row_some in E. destruct E as (Hin & Ha0 & Hs0).
        pose proof (Hc r0 Hin Ha0) as H0.
        rewrite (has_congr _ _ _ Hs0) in H0. congruence. }
      split; [now apply distinct_keys_update|]. split.
      * intros k v' Hin.
        apply (In_update _ _ _ _ _ Hd1) in Hin. destruct Hin as (v & Hin & ->).
        assert (In (k, v) m0 \/ (JSMap.has m0 (material_of c row) = false /\ k = (material_of c row) /\
                                 v = new_summary c row)) as Hcase.
        { unfold ensure in Hin.
          destruct (JSMap.has m0 (material_of c row)); simpl in Hin; [now left|].
          unfold JSMap.set_new in Hin. apply in_app_or in Hin.
          destruct Hin as [Hin|[Heq|[]]]; [now left|].
          injection Heq as <- <-. right. auto. }
        destruct Hcase as [Hin0|(Eh & -> & ->)].
        -- destruct (He k v Hin0) as [-> Hf].
           rewrite (same_value_zero_sym k (material_of c row)).
           destruct (same_value_zero (material_of c row) k) eqn:Es.
           ++ split; [symmetry; now apply expected_snoc_hit|].
              rewrite first_row_app.
              destruct (first_row c k l); [discriminate|congruence].
           ++ split.
              ** symmetry. apply expected_snoc_skip.
                 now rewrite Es, andb_false_r.
              ** rewrite first_row_app.
                 destruct (first_row c k l); [discriminate|congruence].
        -- rewrite same_value_zero_refl. split.
           ++ symmetry. apply expected_snoc_new; auto.
              apply same_value_zero_refl.
           ++ rewrite first_row_app, (Hnew Eh). unfold first_row. simpl.
              rewrite Ha, same_value_zero_refl. discriminate.
      * intros r Hin Har. rewrite has_update.
        apply in_app_or in Hin. destruct Hin as [Hin|[<-|[]]].
        -- unfold ensure. destruct (JSMap.has m0 (material_of c row)); simpl; [now apply Hc|].
           unfold JSMap.set_new. rewrite has_app, (Hc r Hin Har). reflexivity.
        -- unfold ensure.
           destruct (JSMap.has m0 (material_of c row)) eqn:Eh; simpl; [exact Eh|].
           unfold JSMap.set_new. rewrite has_app. simpl.
           rewrite same_value_zero_refl. now rewrite orb_true_r.
    + rewrite Hb. cbn [bind]. intros H. injection H as <-.
      split; [exact Hd|]. split.
      * intros k v Hin. destruct (He k v Hin) as [-> Hf]. split.
        -- symmetry. apply expected_snoc_skip. now rewrite Ha.
        -- rewrite first_row_app.
           destruct (first_row c k l); [discriminate|congruence].
      * intros r Hin Har. apply in_app_or in Hin.
        destruct Hin as [Hin|[<-|[]]]; [now apply Hc|congruence].
Qed.

End LoopFacts.

(** ** [Array.prototype.sort] *)

Module SortFacts.

Section Insertion.
Context {A : Type} (cmp : A -> A -> Z).

Lemma insert_perm x l : Permutation (x :: l) (JSArray.insert cmp x l).
Proof.
  induction l as [|y l IH]; simpl; [reflexivity|].
  destruct (0 <? cmp x y); [|reflexivity].
  rewrite perm_swap. now constructor.
Qed.

Lemma sort_cons x l :
  JSArray.sort cmp (x :: l) = JSArray.insert cmp x (JSArray.sort cmp l).
Proof. reflexivity. Qed.

(** The sorted array holds the elements of the array. *)
Lemma sort_perm l : Permutation l (JSArray.sort cmp l).
Proof.
  induction l as [|x l IH]; [constructor|].
  rewrite sort_cons, <- insert_perm. now constructor.
Qed.

Lemma In_sort x l : In x (JSArray.sort cmp l) <-> In x l.
Proof.
  split; apply Permutation_in;
    [symmetry|]; apply sort_perm.
Qed.

Lemma length_sort l : List.length (JSArray.sort cmp l) = List.length l.
Proof. symmetry. apply Permutation_length, sort_perm. Qed.

(** A comparator that is the difference of keys, largest key first. *)
Variable key : A -> Z.

Lemma insert_sorted x l :
  (forall y, In y l -> cmp x y = key y - key x) ->
  StronglySorted (fun a b => key b <= key a) l ->
  StronglySorted (fun a b => key b <= key a) (JSArray.insert cmp x l).
Proof.
  induction l as [|y l IH]; simpl; intros Hc Hs.
  - repeat constructor.
  - inversion Hs as [|? ? Hs' Hy]; subst.
    rewrite (Hc y (or_introl eq_refl)).
    destruct (0 <? key y - key x) eqn:E.
    + apply Z.ltb_lt in E. constructor.
      * apply IH; auto.
      * apply Forall_forall. intros z Hz.
        apply (Permutation_in _ (Permutation_sym (insert_perm x l))) in Hz.
        destruct Hz as [<-|Hz]; [lia|].
        rewrite Forall_forall in Hy. now apply Hy.
    + apply Z.ltb_ge in E. constructor; [exact Hs|].
      constructor; [lia|].
      rewrite Forall_forall in Hy |- *. intros z Hz.
      specialize (Hy z Hz). lia.
Qed.

Lemma sort_sorted l :
  (forall a b, In a l -> In b l -> cmp a b = key b - key a) ->
  StronglySorted (fun a b => key b <= key a) (JSArray.sort cmp l).
Proof.
  induction l as [|x l IH]; intros Hc; [constructor|].
  rewrite sort_cons. apply insert_sorted.
  - intros y Hy. apply -> In_sort in Hy. apply Hc; simpl; auto.
  - apply IH. intros a b Ha Hb. apply Hc; simpl; auto.
Qed.



End Insertion.

End SortFacts.

(** ** [processData] *)

Section ProcessDataFacts.
Import FloatFacts MapFacts SortFacts.

Variable costCenterMap : string -> value.
Variable Date_getTime : value -> option Z.

Lemma rows_of_In c code k l row :
  In row (rows_of c code k l) ->
  In row l /\ passes c row = true /\ has_movement c code row = true /\
  same_value_zero (material_of c row) k = true.
Proof.
  unfold rows_of. intros H. apply filter_In in H. destruct H as [Hin H].
  apply andb_true_iff in H. destruct H as [H Hs].
  apply andb_true_iff in H. tauto.
Qed.


Lemma passes_not_NaN c row :
  passes c row = true -> isNaN (quantity_of c row) = false.
Proof.
  unfold passes. intros H. apply andb_true_iff in H. destruct H as [_ H].
  now apply negb_true_iff in H.
Qed.

Lemma passes_truthy c row :
  passes c row = true -> truthy (material_of c row) = true.
Proof.
  unfold passes. intros H. apply andb_true_iff in H. destruct H as [H _].
  apply andb_true_iff in H. tauto.
Qed.

(** The summaries returned are the entries that the rows give their
    materials, finished; every admitted row has its summary. *)
Lemma processData_entries response out :
  processData costCenterMap Date_getTime response = Normal out ->
  let c := columns_of (headers response) in
  (forall ms, In ms out ->
     ms = finish Date_getTime
            (material ms,
             expected costCenterMap c (rows response) (material ms)) /\
     first_row c (material ms) (rows response) <> None) /\
  (forall row, In row (rows response) -> passes c row = true ->
     exists ms, In ms out /\
                same_value_zero (material ms) (material_of c row) = true).
Proof.
  intros H c. unfold processData in H. fold c in H.
  destruct (existsb _ (indices c)); [discriminate|].
  destruct (for_of (loop_body costCenterMap c) (rows response) [])
    as [m|e] eqn:Ef; [|discriminate].
  cbn [bind] in H. injection H as <-.
  destruct (for_of_loop_body _ _ _ _ Ef) as (Hd & He & Hc).
  split.
  - intros ms Hin. apply in_map_iff in Hin.
    destruct Hin as [[k v] [<- Hin]]. destruct (He k v Hin) as [-> Hf].
    simpl. auto.
  - intros row Hin Ha. specialize (Hc row Hin Ha).
    apply has_true_In in Hc. destruct Hc as (k & v & Hkv & Hs).
    exists (finish Date_getTime (k, v)). split.
    + apply in_map_iff. now exists (k, v).
    + exact Hs.
Qed.

Lemma fold_left_nonneg {A : Type} (f : A -> float) (l : list A) : forall acc,
  (0 <=? acc)%float = true ->
  (forall x, In x l -> (0 <=? f x)%float = true) ->
  (0 <=? fold_left (fun a x => (a + f x)%float) l acc)%float = true.
Proof.
  induction l as [|x l IH]; simpl; intros acc Hacc Hl; [exact Hacc|].
  apply IH; [|auto]. apply add_nonneg; auto.
Qed.

(** C1 (amended): after aggregation, for every material of the summary
    collection, balance is totalIn minus totalOut and totalOut is at least
    zero; totalIn is at least zero when none of the material's admitted
    movement-101 rows has a quantity below zero. *)
Theorem processData_balance_totals response out ms :
  processData costCenterMap Date_getTime response = Normal out ->
  In ms out ->
  let c := columns_of (headers response) in
  balance ms = (totalIn ms - totalOut ms)%float /\
  (0 <=? totalOut ms)%float = true /\
  ((forall row, In row (rows_of c "101" (material ms) (rows response)) ->
                (0 <=? quantity_of c row)%float = true) ->
   (0 <=? totalIn ms)%float = true).
Proof.
  intros H Hin c.
  destruct (processData_entries _ _ H) as [He _].
  destruct (He ms Hin) as [Hms _]. fold c in Hms.
  rewrite Hms. cbn [finish balance totalIn totalOut material expected
                    s_totalIn s_totalOut].
  split; [reflexivity|]. split.
  - unfold sum_out. apply fold_left_nonneg; [reflexivity|].
    intros row Hr. apply rows_of_In in Hr. destruct Hr as (_ & Ha & _).
    apply abs_nonneg. now apply passes_not_NaN.
  - intros Hq. unfold sum_in. apply fold_left_nonneg; [reflexivity|].
    exact Hq.
Qed.

(** C3: the transaction stored for an admitted row has the absolute value
    of the row's quantity; totalIn is the sum, in the order of the table,
    of the quantities as they are of the material's movement-101 rows, and
    totalOut the sum of the absolute values of the quantities of its
    movement-201 rows; the two lists hold the transactions of exactly
    these rows. *)
Theorem processData_accumulates response out ms :
  processData costCenterMap Date_getTime response = Normal out ->
  In ms out ->
  let c := columns_of (headers response) in
  let receipts := rows_of c "101" (material ms) (rows response) in
  let issues := rows_of c "201" (material ms) (rows response) in
  totalIn ms =
    fold_left (fun acc row => (acc + quantity_of c row)%float) receipts 0%float /\
  totalOut ms =
    fold_left (fun acc row => (acc + Math_abs (quantity_of c row))%float)
              issues 0%float /\
  Permutation (inTransactions ms) (map (transaction_of costCenterMap c) receipts) /\
  Permutation (outTransactions ms) (map (transaction_of costCenterMap c) issues) /\
  (forall row, quantity (transaction_of costCenterMap c row)
               = Math_abs (quantity_of c row)).
Proof.
  intros H Hin c receipts issues.
  destruct (processData_entries _ _ H) as [He _].
  destruct (He ms Hin) as [Hms _]. fold c in Hms.
  rewrite Hms. cbn [finish totalIn totalOut material expected
                    inTransactions outTransactions
                    s_totalIn s_totalOut s_inTransactions s_outTransactions].
  repeat split; try reflexivity; symmetry; apply sort_perm.
Qed.

Lemma find_first {A : Type} (p : A -> bool) l x :
  List.find p l = Some x ->
  exists l1 l2, l = l1 ++ x :: l2 /\ p x = true /\
                forall y, In y l1 -> p y = false.
Proof.
  induction l as [|a l IH]; simpl; [discriminate|].
  destruct (p a) eqn:E.
  - intros H. injection H as <-. exists [], l. simpl. tauto.
  - intros H. destruct (IH H) as (l1 & l2 & -> & Hx & Hl1).
    exists (a :: l1), l2. simpl. repeat split; auto.
    intros y [<-|Hy]; auto.
Qed.

(** C4 (amended): for every material, materialDescription is the
    Material Description cell of the first admitted row of that material
    if that cell is truthy (a text that is not empty), and the placeholder
    otherwise; unit is set the same way from the Unit of Entry cell of
    that row; no later row changes either. *)
Theorem processData_first_row_wins response out ms :
  processData costCenterMap Date_getTime response = Normal out ->
  In ms out ->
  let c := columns_of (headers response) in
  exists before row after,
    rows response = before ++ row :: after /\
    passes c row = true /\
    same_value_zero (material_of c row) (material ms) = true /\
    (forall r, In r before ->
               passes c r && same_value_zero (material_of c r) (material ms)
               = false) /\
    materialDescription ms =
      or_else (JSArray.get row (prop (indices c) "Material Description"))
              (VString "No Description") /\
    unit ms =
      or_else (JSArray.get row (prop (indices c) "Unit of Entry"))
              (VString "N/A").
Proof.
  intros H Hin c.
  destruct (processData_entries _ _ H) as [He _].
  destruct (He ms Hin) as [Hms Hf]. fold c in Hms, Hf.
  destruct (first_row c (material ms) (rows response)) as [row|] eqn:E;
    [|congruence].
  pose proof E as E'. unfold first_row in E'. apply find_first in E'.
  destruct E' as (before & after & Hrows & Hp & Hb).
  apply andb_true_iff in Hp. destruct Hp as [Ha Hs].
  exists before, row, after. repeat split; auto.
  - rewrite Hms. cbn [finish materialDescription material expected
                      s_materialDescription].
    rewrite E. reflexivity.
  - rewrite Hms. cbn [finish unit material expected s_unit].
    rewrite E. reflexivity.
Qed.

Lemma StronglySorted_weaken {A : Type} (R R' : A -> A -> Prop) l :
  (forall a b, In a l -> In b l -> R a b -> R' a b) ->
  StronglySorted R l -> StronglySorted R' l.
Proof.
  induction l as [|x l IH]; intros Hw Hs; [constructor|].
  inversion Hs as [|? ? Hs' Hx]; subst. constructor.
  - apply IH; [|exact Hs']. intros a b Ha Hb. apply Hw; simpl; auto.
  - rewrite Forall_forall in Hx |- *. intros y Hy.
    apply Hw; simpl; auto.
Qed.



Lemma has_movement_string c code row s :
  JSArray.get row (prop (indices c) "Movement Type") = VString s ->
  has_movement c code row = String.eqb (JSString.trim s) code.
Proof.
  unfold has_movement, movementType_of. intros ->. reflexivity.
Qed.

(** [passes] is the three tests of the loop. *)
Lemma passes_kept c row : passes c row = true <-> kept c row.
Proof.
  unfold passes, kept, material_of, quantity_of.
  rewrite !andb_true_iff, orb_true_iff, negb_true_iff.
  destruct (JSArray.get row (prop (indices c) "Movement Type")) as [|s|n] eqn:E.
  - unfold has_movement, movementType_of. rewrite E. simpl.
    split; [intros [[[H|H] _] _]; discriminate|].
    intros [(s & Hs & _) _]. discriminate.
  - rewrite !(has_movement_string _ _ _ _ E), !String.eqb_eq.
    split.
    + intros [[H Hm] Hq]. repeat split; auto. now exists s.
    + intros [(s' & Hs & H) [Hm Hq]]. injection Hs as <-. auto.
  - unfold has_movement, movementType_of. rewrite E. simpl.
    split; [intros [[[H|H] _] _]; discriminate|].
    intros [(s & Hs & _) _]. discriminate.
Qed.

Lemma step_changes c row v : step costCenterMap c row v <> v.
Proof.
  unfold step. intros H.
  destruct (has_movement c "101" row).
  - apply (f_equal (fun x => List.length (s_inTransactions x))) in H.
    simpl in H. rewrite length_app in H. simpl in H. lia.
  - apply (f_equal (fun x => List.length (s_outTransactions x))) in H.
    simpl in H. rewrite length_app in H. simpl in H. lia.
Qed.

Lemma loop_body_changes c m row :
  JSMap.update (ensure c row m) (material_of c row) (step costCenterMap c row)
  <> m.
Proof.
  unfold ensure. destruct (JSMap.has m (material_of c row)) eqn:E; simpl.
  - apply update_changes; [exact E|]. apply step_changes.
  - intros H. apply (f_equal (@List.length _)) in H.
    rewrite length_update in H. unfold JSMap.set_new in H.
    rewrite length_app in H. simpl in H. lia.
Qed.

Lemma indexOf_from_present l h : forall i,
  In h l -> 0 <= i -> i <= JSArray.indexOf_from l h i.
Proof.
  induction l as [|x l IH]; simpl; intros i Hin Hi; [tauto|].
  destruct (String.eqb_spec x h) as [->|Hx]; [lia|].
  destruct Hin as [->|Hin]; [tauto|].
  specialize (IH (i + 1) Hin). lia.
Qed.

Lemma schema_check_passes hs :
  (forall h, In h required -> In h hs) ->
  existsb (fun e => snd e =? -1) (indices (columns_of hs)) = false.
Proof.
  intros H. destruct (existsb _ _) eqn:E; [|reflexivity].
  apply existsb_exists in E. destruct E as ([h i] & Hin & Hi).
  cbn [columns_of indices] in Hin. unfold indices_of in Hin.
  apply in_map_iff in Hin. destruct Hin as (h' & Heq & Hreq).
  injection Heq as <- <-. cbn [snd] in Hi. apply Z.eqb_eq in Hi.
  pose proof (indexOf_from_present hs h' 0 (H h' Hreq)) as Hp.
  unfold JSArray.indexOf in Hi. lia.
Qed.

(** Rows whose movement type is not a Number and whose cost center is not
    a truthy Number pass through the loop without an exception. *)
Lemma for_of_loop_body_total c l : forall m,
  (forall row, In row l ->
     (forall n, JSArray.get row (prop (indices c) "Movement Type") <> VNumber n) /\
     (forall n, JSArray.get row (costCenterIndex c) = VNumber n ->
                truthy (VNumber n) = false)) ->
  exists m', for_of (loop_body costCenterMap c) l m = Normal m'.
Proof.
  induction l as [|row l IH]; intros m H; cbn [for_of].
  - now exists m.
  - destruct (H row (or_introl eq_refl)) as [Hmt Hcc].
    assert (exists m1, loop_body costCenterMap c m row = Normal m1) as [m1 ->].
    { pose proof (loop_body_cases costCenterMap c m row) as Hb.
      unfold movementType_of in Hb.
      destruct (JSArray.get row (prop (indices c) "Movement Type")) as [|s|n];
        [| |now destruct (Hmt n)]; cbn [optional_trim call_trim bind] in Hb;
        (destruct (passes c row); [|eexists; exact Hb]);
        unfold costCenterCode_of, or_else in Hb;
        (destruct (JSArray.get row (costCenterIndex c)) as [|t|k] eqn:Ec;
         [cbn in Hb; eexists; exact Hb
         |destruct (truthy (VString t)); cbn in Hb; eexists; exact Hb
         |rewrite (Hcc k eq_refl) in Hb; cbn in Hb; eexists; exact Hb]). }
    cbn [bind]. apply IH. intros r Hr. apply H. now right.
Qed.

(** C2 (amended): a row whose Movement Type cell is not a Number is
    skipped without an error, the map of summaries staying as it is,
    exactly when it fails one of these tests: its Movement Type cell is a
    string that trims to 101 or to 201, its Material cell is truthy, and
    its Quantity cell converts to a Number other than NaN (the
    infinities and, for a blank text, 0 are such Numbers).  Every
    transaction of every summary returned is the transaction of a row of
    the table that passes the three tests.  Where the required columns
    are there, no Movement Type cell is a Number and no Cost Center cell
    is a truthy Number, processData returns without an error. *)
Theorem admission_rule response :
  let c := columns_of (headers response) in
  ((forall h, In h required -> In h (headers response)) ->
   (forall row, In row (rows response) ->
      (forall n, JSArray.get row (prop (indices c) "Movement Type") <> VNumber n) /\
      (forall n, JSArray.get row (costCenterIndex c) = VNumber n ->
                 truthy (VNumber n) = false)) ->
   exists out, processData costCenterMap Date_getTime response = Normal out) /\
  (forall m row,
     (forall n, JSArray.get row (prop (indices c) "Movement Type") <> VNumber n) ->
     (loop_body costCenterMap c m row = Normal m <-> ~ kept c row)) /\
  (forall out ms tx,
     processData costCenterMap Date_getTime response = Normal out ->
     In ms out ->
     In tx (inTransactions ms) \/ In tx (outTransactions ms) ->
     exists row, In row (rows response) /\ kept c row /\
                 tx = transaction_of costCenterMap c row).
Proof.
  intros c. split; [|split].
  - intros Hh Hrows. unfold processData.
    rewrite (schema_check_passes _ Hh).
    destruct (for_of_loop_body_total (columns_of (headers response))
                (rows response) [] Hrows) as [m ->].
    cbn [bind]. eexists; reflexivity.
  - intros m row Hmt. rewrite <- passes_kept.
    pose proof (loop_body_cases costCenterMap c m row) as Hb.
    unfold movementType_of in Hb.
    destruct (JSArray.get row (prop (indices c) "Movement Type")) as [|s|n] eqn:E;
      [| |now destruct (Hmt n)]; cbn [optional_trim call_trim bind] in Hb;
      (destruct (passes c row);
       [|rewrite Hb; split; [discriminate|reflexivity]]);
      (split; [|intros Hn; now destruct Hn]);
      intros Hl;
      (destruct (call_trim (costCenterCode_of c row));
       [rewrite Hb in Hl; injection Hl as Hl;
        now apply loop_body_changes in Hl
       |rewrite Hb in Hl; discriminate]).
  - intros out ms tx H Hin Htx.
    destruct (processData_entries _ _ H) as [He _].
    destruct (He ms Hin) as [Hms _]. fold c in Hms.
    rewrite Hms in Htx.
    cbn [finish material expected inTransactions outTransactions
         s_inTransactions s_outTransactions] in Htx.
    destruct Htx as [Htx|Htx];
      apply (proj1 (In_sort _ _ _)) in Htx; apply in_map_iff in Htx;
      destruct Htx as (row & <- & Hr); apply rows_of_In in Hr;
      destruct Hr as (Hr & Ha & _); exists row;
      (split; [exact Hr|split; [now apply passes_kept|reflexivity]]).
Qed.





End ProcessDataFacts.

(** ** Loading *)

Section LoadFacts.

Variable costCenterMap : string -> value.
Variable Date_getTime : value -> option Z.

Lemma indexOf_from_absent l h : forall i,
  ~ In h l -> JSArray.indexOf_from l h i = -1.
Proof.
  induction l as [|x l IH]; simpl; intros i Hn; [reflexivity|].
  destruct (String.eqb_spec x h) as [->|Hx]; [tauto|].
  apply IH. tauto.
Qed.

Lemma required_in_message :
  Forall (fun h => JSString.includes schema_message h = true) required.
Proof. repeat constructor. Qed.

(** C7: if a required column is absent from the headers, [processData]
    throws the error whose message lists the required column names, and
    the load ends with inventoryData as it was before, the message in
    [error] and [loading] cleared. *)
Theorem missing_column_rejected now response s :
  (exists h, In h required /\ ~ In h (headers response)) ->
  processData costCenterMap Date_getTime response
  = Throw (Error schema_message) /\
  Forall (fun h => JSString.includes schema_message h = true) required /\
  let s' := loadInventory costCenterMap Date_getTime now (Next response) s in
  inventoryData s' = inventoryData s /\
  error s' = Some schema_message /\
  loading s' = false.
Proof.
  intros (h & Hreq & Habs).
  assert (processData costCenterMap Date_getTime response
          = Throw (Error schema_message)) as Hp.
  { unfold processData.
    assert (existsb (fun e => snd e =? -1)
                    (indices (columns_of (headers response))) = true) as ->;
      [|reflexivity].
    apply existsb_exists. exists (h, JSArray.indexOf (headers response) h).
    split.
    - cbn [columns_of indices]. unfold indices_of.
      apply in_map_iff. now exists h.
    - cbn [snd]. unfold JSArray.indexOf.
      now rewrite (indexOf_from_absent _ _ 0 Habs). }
  split; [exact Hp|]. split; [exact required_in_message|].
  unfold loadInventory, loadInventory_next. rewrite Hp. simpl. auto.
Qed.

End LoadFacts.

(** ** Paging and export *)

Section ViewFacts.
Import SortFacts.

Variable costCenterMap : string -> value.
Variable Date_getTime : value -> option Z.
Variable localeCompare : string -> string -> float.
Variable startOfDay endOfDay : Z -> Z.
Variable Number_toString : float -> string.

Lemma Math_ceil_spec (n : Z) (pages : Z) :
  Math_ceil (n # 12) = pages <-> 12 * (pages - 1) < n <= 12 * pages.
Proof.
  unfold Math_ceil, Qceiling, Qfloor. cbn [Qopp Qnum Qden].
  pose proof (Z.div_mod (- n) 12 ltac:(lia)) as Hd.
  pose proof (Z.mod_pos_bound (- n) 12 ltac:(lia)) as Hm.
  lia.
Qed.

(** C6: totalPages is the ceiling of the number of base-filtered items
    over 12 (it throws where the base filter throws); goToPage(n) returns
    the state as it is unless n is at least 1 and at most totalPages, where
    it sets currentPage to n and nothing else (where totalPages throws and
    n is positive, goToPage throws and sets nothing); nextPage and prevPage
    are goToPage of currentPage plus one and minus one. *)
Theorem pagination_contract s :
  match baseFilteredInventory s with
  | Normal items =>
      exists pages, totalPages s = Normal pages /\
                    12 * (pages - 1) < Z.of_nat (List.length items) <= 12 * pages
  | Throw e => totalPages s = Throw e
  end /\
  (forall n, n <= 0 -> goToPage n s = Normal s) /\
  (forall n pages, totalPages s = Normal pages ->
     goToPage n s =
     Normal (if (1 <=? n) && (n <=? pages) then set_currentPage n s else s)) /\
  (forall n,
     let s' := set_currentPage n s in
     currentPage s' = n /\
     inventoryData s' = inventoryData s /\ loading s' = loading s /\
     error s' = error s /\ lastUpdated s' = lastUpdated s /\
     theme s' = theme s /\ searchTerm s' = searchTerm s /\
     movementTypeFilter s' = movementTypeFilter s /\
     sortConfig s' = sortConfig s /\
     showLowStockOnly s' = showLowStockOnly s /\
     selectedMaterial s' = selectedMaterial s /\
     detailedViewType s' = detailedViewType s /\
     dateFrom s' = dateFrom s /\ dateTo s' = dateTo s /\
     dashboardFilters s' = dashboardFilters s) /\
  (forall n e, 0 < n -> totalPages s = Throw e -> goToPage n s = Throw e) /\
  nextPage s = goToPage (currentPage s + 1) s /\
  prevPage s = goToPage (currentPage s - 1) s.
Proof.
  split; [|split; [|split; [|split; [|split; [|split]]]]].
  - unfold totalPages. destruct (baseFilteredInventory s) as [items|e];
      cbn [bind]; [|reflexivity].
    eexists. split; [reflexivity|].
    now apply (Math_ceil_spec (Z.of_nat (List.length items))).
  - intros n Hn. unfold goToPage.
    destruct (0 <? n) eqn:E; [apply Z.ltb_lt in E; lia|reflexivity].
  - intros n pages Hp. unfold goToPage. rewrite Hp. cbn [bind].
    destruct (0 <? n) eqn:E0, (1 <=? n) eqn:E1; cbn [andb];
      try reflexivity.
    + destruct (n <=? pages); reflexivity.
    + apply Z.ltb_lt in E0. apply Z.leb_gt in E1. lia.
    + apply Z.ltb_ge in E0. apply Z.leb_le in E1. lia.
  - intros n. simpl. repeat split.
  - intros n e Hn He. unfold goToPage. rewrite He.
    destruct (0 <? n) eqn:E; [reflexivity|apply Z.ltb_ge in E; lia].
  - reflexivity.
  - reflexivity.
Qed.

Lemma length_slice_12 {A : Type} (l : list A) start :
  (List.length (JSArray.slice l start (start + 12)) <= 12)%nat.
Proof.
  unfold JSArray.slice.
  set (len := Z.of_nat (List.length l)).
  set (n := Z.max _ 0).
  etransitivity; [apply firstn_le_length|].
  assert (n <= 12) as Hn.
  { subst n. pose proof (Nat2Z.is_nonneg (List.length l)) as Hl. fold len in Hl.
    destruct (start <? 0) eqn:E1, (start + 12 <? 0) eqn:E2;
      try apply Z.ltb_lt in E1; try apply Z.ltb_ge in E1;
      try apply Z.ltb_lt in E2; try apply Z.ltb_ge in E2; lia. }
  lia.
Qed.

Lemma filter_c_total term l :
  Forall (fun item => exists m d, material item = VString m /\
                                  materialDescription item = VString d) l ->
  exists r, filter_c (matches_term term) l = Normal r.
Proof.
  induction 1 as [|item l (m & d & Hm & Hd) Hl [r IH]]; cbn [filter_c].
  - now exists [].
  - rewrite IH. unfold matches_term. rewrite Hm, Hd.
    cbn [call_toLowerCase bind].
    destruct (JSString.includes (JSString.toLowerCase m) term); cbn [bind];
      eexists; reflexivity.
Qed.

Lemma Forall_filter_keep {A : Type} (P : A -> Prop) (p : A -> bool) l :
  Forall P l -> Forall P (List.filter p l).
Proof.
  rewrite !Forall_forall. intros H x Hx. apply filter_In in Hx. now apply H.
Qed.

(** Items whose material and description are strings, as the interface
    declares them, pass the base filter without an exception. *)
Lemma baseFilteredInventory_total s :
  Forall (fun item => exists m d, material item = VString m /\
                                  materialDescription item = VString d)
         (inventoryData s) ->
  exists items, baseFilteredInventory s = Normal items.
Proof.
  intros H. unfold baseFilteredInventory.
  destruct (String.eqb (JSString.toLowerCase (searchTerm s)) "").
  - eexists; reflexivity.
  - apply filter_c_total.
    destruct (movementTypeFilter s), (showLowStockOnly s);
      repeat apply Forall_filter_keep; exact H.
Qed.

(** C10: in every state the page that paginatedInventory returns holds at
    most 12 items; and it returns one whenever the materials and the
    descriptions of the inventory are strings. *)
Theorem page_holds_at_most_twelve s :
  (forall items, paginatedInventory localeCompare s = Normal items ->
                 (List.length items <= 12)%nat) /\
  (Forall (fun item => exists m d, material item = VString m /\
                                   materialDescription item = VString d)
          (inventoryData s) ->
   exists items, paginatedInventory localeCompare s = Normal items).
Proof.
  unfold paginatedInventory, sortedInventory. split.
  - intros items H.
    destruct (baseFilteredInventory s) as [data|e]; [|discriminate].
    cbn [bind] in H. injection H as <-.
    apply (length_slice_12 _ ((currentPage s - 1) * itemsPerPage)).
  - intros H. destruct (baseFilteredInventory_total s H) as [data ->].
    cbn [bind]. eexists; reflexivity.
Qed.

Lemma map_c_Forall2 {A B : Type} (f : A -> completion B) l : forall r,
  map_c f l = Normal r -> Forall2 (fun x y => f x = Normal y) l r.
Proof.
  induction l as [|x l IH]; cbn [map_c]; intros r H.
  - injection H as <-. constructor.
  - destruct (f x) as [y|e] eqn:Ef; [|discriminate]. cbn [bind] in H.
    destruct (map_c f l) as [r'|e]; [|discriminate]. cbn [bind] in H.
    injection H as <-. constructor; auto.
Qed.

Lemma call_replace_quotes_Normal v q :
  call_replace_quotes v = Normal q ->
  exists t, v = VString t /\ q = JSString.double_quotes t.
Proof.
  destruct v as [|t|n]; simpl; try discriminate.
  intros H. injection H as <-. now exists t.
Qed.

Lemma safe_Normal v q :
  safe v = Normal q ->
  exists t, or_else v (VString "") = VString t /\
            q = quoted (JSString.double_quotes t).
Proof.
  unfold safe. intros H.
  destruct (call_replace_quotes (or_else v (VString ""))) as [e|e] eqn:E;
    [|discriminate].
  cbn [bind] in H. injection H as <-.
  apply call_replace_quotes_Normal in E. destruct E as (t & Ht & ->).
  now exists t.
Qed.

(** C8 (amended): the inventory export is the header row and one record
    per item, joined by newlines, each record its fields joined by commas:
    the description between double quotes with its double quotes doubled,
    the material and the unit as they are, without quotes, and the three
    numbers as Numbers print; the transaction export likewise, with user,
    cost center, document, reservation, header text and text between double
    quotes with their double quotes doubled, and the posting date and the
    signed quantity without quotes. *)
Theorem csv_layout s :
  (forall csv,
     exportInventoryToCsv localeCompare Number_toString s = Normal (Some csv) ->
     exists items lines,
       sortedInventory localeCompare s = Normal items /\
       csv = JSString.join LF (JSString.join "," inventory_headers :: lines) /\
       Forall2
         (fun item line =>
            exists d,
              materialDescription item = VString d /\
              line = JSString.join ","
                       [join_item Number_toString (material item);
                        quoted (JSString.double_quotes d);
                        Number_toString (totalIn item);
                        Number_toString (totalOut item);
                        Number_toString (balance item);
                        join_item Number_toString (unit item)])
         items lines) /\
  (forall csv,
     exportToCsv Date_getTime startOfDay endOfDay Number_toString s
     = Normal (Some csv) ->
     exists details lines,
       detailedTransactionsView Date_getTime startOfDay endOfDay s
       = Some details /\
       csv = JSString.join LF (JSString.join "," transaction_headers :: lines) /\
       Forall2
         (fun tx line =>
            exists u c d r h t,
              or_else (user tx) (VString "") = VString u /\
              or_else (costCenter tx) (VString "") = VString c /\
              or_else (document tx) (VString "") = VString d /\
              or_else (reservation tx) (VString "") = VString r /\
              or_else (headerText tx) (VString "") = VString h /\
              or_else (text tx) (VString "") = VString t /\
              line = JSString.join ","
                       [join_item Number_toString (postingDate tx);
                        Number_toString
                          match d_type details with
                          | view_in => quantity tx
                          | view_out => (- quantity tx)%float
                          end;
                        quoted (JSString.double_quotes u);
                        quoted (JSString.double_quotes c);
                        quoted (JSString.double_quotes d);
                        quoted (JSString.double_quotes r);
                        quoted (JSString.double_quotes h);
                        quoted (JSString.double_quotes t)])
         (d_transactions details) lines).
Proof.
  split.
  - intros csv H. unfold exportInventoryToCsv in H.
    destruct (sortedInventory localeCompare s) as [items|e]; [|discriminate].
    cbn [bind] in H.
    destruct (List.length items =? 0)%nat; [discriminate|].
    destruct (map_c (inventory_row Number_toString) items) as [lines|e] eqn:Em;
      [|discriminate].
    cbn [bind] in H. injection H as <-.
    exists items, lines. repeat split.
    apply map_c_Forall2 in Em.
    eapply Forall2_impl; [|exact Em].
    intros item line Hrow. unfold inventory_row in Hrow.
    destruct (call_replace_quotes (materialDescription item)) as [q|e] eqn:Eq;
      [|discriminate].
    cbn [bind] in Hrow. injection Hrow as <-.
    apply call_replace_quotes_Normal in Eq. destruct Eq as (d & Hd & ->).
    now exists d.
  - intros csv H. unfold exportToCsv in H.
    destruct (detailedTransactionsView Date_getTime startOfDay endOfDay s)
      as [details|]; [|discriminate].
    destruct (List.length (d_transactions details) =? 0)%nat; [discriminate|].
    destruct (map_c (transaction_row Number_toString (d_type details))
                    (d_transactions details)) as [lines|e] eqn:Em;
      [|discriminate].
    cbn [bind] in H. injection H as <-.
    exists details, lines. repeat split.
    apply map_c_Forall2 in Em.
    eapply Forall2_impl; [|exact Em].
    intros tx line Hrow. unfold transaction_row in Hrow.
    destruct (safe (user tx)) as [qu|e] eqn:Eu; [|discriminate].
    destruct (safe (costCenter tx)) as [qc|e] eqn:Ec; [|discriminate].
    destruct (safe (document tx)) as [qd|e] eqn:Ed; [|discriminate].
    destruct (safe (reservation tx)) as [qr|e] eqn:Er; [|discriminate].
    destruct (safe (headerText tx)) as [qh|e] eqn:Eh; [|discriminate].
    destruct (safe (text tx)) as [qt|e] eqn:Et; [|discriminate].
    cbn [bind] in Hrow. injection Hrow as <-.
    apply safe_Normal in Eu, Ec, Ed, Er, Eh, Et.
    destruct Eu as (u & Hu & ->). destruct Ec as (c & Hc & ->).
    destruct Ed as (d & Hd & ->). destruct Er as (r & Hr & ->).
    destruct Eh as (h & Hh & ->). destruct Et as (t & Ht & ->).
    exists u, c, d, r, h, t. repeat split; auto.
Qed.

End ViewFacts.

(** ** The examples *)

(** The example of the specification: the third row of M1 is dropped. *)
Example bolts_summary :
  Sample.processData Sample.bolts = Normal [Sample.bolts_M1].
Proof. vm_compute. reflexivity. Qed.

(** The example of the specification: every double quote of the text is
    doubled, and the whole stands between double quotes. *)
Example he_said_hi_quoted :
  quoted (JSString.double_quotes Sample.he_said_hi) =
  String JSString.dquote
    ("He said "
       ++ String JSString.dquote (String JSString.dquote "hi")
       ++ String JSString.dquote
            (String JSString.dquote (String JSString.dquote "")))%string.
Proof. reflexivity. Qed.

(** The example of the specification: of the balances 5, 10 and 11 the
    low-stock filter keeps 5 and 10. *)
Example low_stock_balances :
  baseFilteredInventory Sample.low_stock_only =
  Normal [Sample.stock "A" 5; Sample.stock "B" 10].
Proof. vm_compute. reflexivity. Qed.

(** A movement type or a cost center that is a Number has no [trim]: the
    call throws a TypeError, and the load ends with a message in [error],
    worded by the engine. *)
Example numeric_cells_throw :
  (exists m, Sample.processData Sample.numeric_movement = Throw (TypeError m)) /\
  (exists m,
     Sample.processData Sample.numeric_cost_center = Throw (TypeError m)) /\
  error (loadInventory Sample.costCenterMap Sample.Date_getTime 0
                       (Next Sample.numeric_movement) initial_state)
  <> None.
Proof.
  split; [|split].
  - eexists. vm_compute. reflexivity.
  - eexists. vm_compute. reflexivity.
  - vm_compute. discriminate.
Qed.

(** [Number] on the texts of a quantity cell. *)
Example Number_of_texts :
  map (fun s => Sample.Number_toString (Number (VString s)))
      ["10"; " 12.5 "; "-5"; ""; "1e3"; "0x1F"; "Infinity"; "x"; "1,5"; "4 2"]
  = ["10"; "12.5"; "-5"; "0"; "1000"; "31"; "Infinity"; "NaN"; "NaN"; "NaN"].
Proof. vm_compute. reflexivity. Qed.

(** C1, as stated, fails: a receipt of quantity -5 is a valid row, and the
    totalIn of its material is -5, below zero. *)
Lemma returned_totalIn_below_zero :
  Sample.processData Sample.returned = Normal [Sample.returned_M1] /\
  (0 <=? totalIn Sample.returned_M1)%float = false /\
  ~ (forall ms, In ms [Sample.returned_M1] ->
       balance ms = (totalIn ms - totalOut ms)%float /\
       (0 <=? totalIn ms)%float = true /\
       (0 <=? totalOut ms)%float = true).
Proof.
  split; [vm_compute; reflexivity|]. split; [reflexivity|].
  intros H.
  destruct (H Sample.returned_M1 (or_introl eq_refl)) as (_ & Hin & _).
  vm_compute in Hin. discriminate.
Qed.

(** The totals of M1 in the ledger. *)
Lemma processData_balance_totals_witness :
  Sample.processData Sample.ledger = Normal Sample.ledger_summaries /\
  In Sample.ledger_M1 Sample.ledger_summaries /\
  balance Sample.ledger_M1
  = (totalIn Sample.ledger_M1 - totalOut Sample.ledger_M1)%float /\
  (0 <=? totalOut Sample.ledger_M1)%float = true /\
  (0 <=? totalIn Sample.ledger_M1)%float = true.
Proof.
  assert (Sample.processData Sample.ledger = Normal Sample.ledger_summaries)
    as H1 by (vm_compute; reflexivity).
  assert (In Sample.ledger_M1 Sample.ledger_summaries)
    as H2 by (left; reflexivity).
  destruct (processData_balance_totals
              Sample.costCenterMap Sample.Date_getTime _ _ _ H1 H2)
    as (Hb & Ho & Hi).
  split; [exact H1|]. split; [exact H2|]. split; [exact Hb|].
  split; [exact Ho|].
  apply Hi. intros row Hr. vm_compute in Hr.
  destruct Hr as [<-|[<-|[<-|[]]]]; reflexivity.
Defined.

(** C2, as stated, fails: the quantity Infinity does not parse to a finite
    number, so the row is not valid, and yet it is folded into the total
    and the transactions of its material. *)
Lemma infinite_quantity_counted :
  Spec.valid (columns_of (headers Sample.unbounded))
             [CString "M1"; CString "Bolt"; CString "Infinity"; CString "EA";
              CString "101"] = false /\
  Sample.processData Sample.unbounded = Normal [Sample.unbounded_M1].
Proof. split; vm_compute; reflexivity. Qed.

(** The sums behind the totals of M1 in the ledger. *)
Lemma processData_accumulates_witness :
  Sample.processData Sample.ledger = Normal Sample.ledger_summaries /\
  In Sample.ledger_M1 Sample.ledger_summaries /\
  totalIn Sample.ledger_M1 = (0 + 10 + 0 + 3)%float /\
  totalOut Sample.ledger_M1 = (0 + Math_abs 4)%float.
Proof.
  assert (Sample.processData Sample.ledger = Normal Sample.ledger_summaries)
    as H1 by (vm_compute; reflexivity).
  assert (In Sample.ledger_M1 Sample.ledger_summaries)
    as H2 by (left; reflexivity).
  destruct (processData_accumulates
              Sample.costCenterMap Sample.Date_getTime _ _ _ H1 H2)
    as (Hi & Ho & _).
  split; [exact H1|]. split; [exact H2|]. split; [exact Hi|exact Ho].
Defined.

(** C4, as stated, fails: the first row of M1 has an empty description and
    the second has Bolt, the first non-empty description among the rows of
    M1; the summary keeps the placeholder set by the first row. *)
Lemma late_description_ignored :
  Spec.description (columns_of (headers Sample.late_description))
                   (VString "M1") (rows Sample.late_description)
  = Some (VString "Bolt") /\
  map (fun ms => (material ms, materialDescription ms))
      (Sample.summaries_of Sample.late_description)
  = [(VString "M1", VString "No Description")].
Proof. split; vm_compute; reflexivity. Qed.

(** The description of M1 in the ledger is that of its first row. *)
Lemma processData_first_row_wins_witness :
  Sample.processData Sample.ledger = Normal Sample.ledger_summaries /\
  In Sample.ledger_M1 Sample.ledger_summaries /\
  exists row,
    In row (rows Sample.ledger) /\
    materialDescription Sample.ledger_M1 =
      or_else (JSArray.get row
                 (prop (indices (columns_of (headers Sample.ledger)))
                       "Material Description"))
              (VString "No Description").
Proof.
  assert (Sample.processData Sample.ledger = Normal Sample.ledger_summaries)
    as H1 by (vm_compute; reflexivity).
  assert (In Sample.ledger_M1 Sample.ledger_summaries)
    as H2 by (left; reflexivity).
  destruct (processData_first_row_wins
              Sample.costCenterMap Sample.Date_getTime _ _ _ H1 H2)
    as (before & row & after & Hrows & _ & _ & _ & Hd & _).
  split; [exact H1|]. split; [exact H2|].
  exists row. split; [|exact Hd].
  rewrite Hrows. apply in_or_app. right. left. reflexivity.
Defined.



(** A table without the Quantity column, loaded over the ledger. *)
Lemma missing_column_rejected_witness :
  (exists h, In h required /\ ~ In h (headers Sample.no_quantity)) /\
  Sample.processData Sample.no_quantity = Throw (Error schema_message) /\
  inventoryData
    (loadInventory Sample.costCenterMap Sample.Date_getTime 0
                   (Next Sample.no_quantity) Sample.loaded)
  = inventoryData Sample.loaded.
Proof.
  assert (exists h, In h required /\ ~ In h (headers Sample.no_quantity)) as H.
  { exists "Quantity". split.
    - right. right. left. reflexivity.
    - simpl. intros [H|[H|[H|[H|[]]]]]; discriminate. }
  destruct (missing_column_rejected
              Sample.costCenterMap Sample.Date_getTime 0 Sample.no_quantity
              Sample.loaded H)
    as (Hp & _ & Hd & _).
  split; [exact H|]. split; [exact Hp|exact Hd].
Defined.


(** C8, as stated, fails: in the inventory export the material and the
    unit, both strings, stand without double quotes, and so does the
    posting date in the transaction export. *)
Lemma csv_strings_left_unquoted :
  exportInventoryToCsv Sample.localeCompare Sample.Number_toString Sample.loaded
  = Normal (Some (Spec.csv inventory_headers
                    [JSString.join ","
                       ["M1"; quoted "Bolt"; "13"; "4"; "9"; "EA"];
                     JSString.join ","
                       ["M2"; quoted "No Description"; "0"; "7"; "-7"; "PC"]])) /\
  Spec.csv inventory_headers
           (map (Spec.inventory_record Sample.Number_toString)
                Sample.ledger_summaries)
  = Spec.csv inventory_headers
      [JSString.join ","
         [quoted "M1"; quoted "Bolt"; "13"; "4"; "9"; quoted "EA"];
       JSString.join ","
         [quoted "M2"; quoted "No Description"; "0"; "7"; "-7"; quoted "PC"]] /\
  exportInventoryToCsv Sample.localeCompare Sample.Number_toString Sample.loaded
  <> Normal (Some (Spec.csv inventory_headers
                     (map (Spec.inventory_record Sample.Number_toString)
                          Sample.ledger_summaries))) /\
  exportToCsv Sample.Date_getTime Sample.startOfDay Sample.endOfDay
              Sample.Number_toString Sample.viewing
  <> Normal (Some (Spec.csv transaction_headers
                     (map (Spec.transaction_record Sample.Number_toString view_in)
                          (inTransactions Sample.ledger_M1)))).
Proof.
  repeat split; try (vm_compute; reflexivity);
    intros H; vm_compute in H; discriminate.
Qed.

(** * Further properties *)

(** ** More of [processData] *)

Section ProcessDataMore.
Import FloatFacts MapFacts SortFacts.

Variable costCenterMap : string -> value.
Variable Date_getTime : value -> option Z.

Lemma distinct_first_snoc l k :
  distinct_first (l ++ [k]) =
  if existsb (fun k' => same_value_zero k' k) l
  then distinct_first l
  else distinct_first l ++ [k].
Proof.
  induction l as [|a l IH]; simpl; [reflexivity|].
  rewrite IH. destruct (same_value_zero a k) eqn:Ea; simpl.
  - destruct (existsb (fun k' => same_value_zero k' k) l); [reflexivity|].
    rewrite filter_app. simpl. rewrite Ea. simpl. now rewrite app_nil_r.
  - destruct (existsb (fun k' => same_value_zero k' k) l); [reflexivity|].
    rewrite filter_app. simpl. rewrite Ea. reflexivity.
Qed.

Lemma has_keys m k :
  JSMap.has m k = existsb (fun k' => same_value_zero k' k) (map fst m).
Proof.
  unfold JSMap.has. induction m as [|[k0 v0] m IH]; simpl; congruence.
Qed.

Lemma keys_update m k f : map fst (JSMap.update m k f) = map fst m.
Proof.
  induction m as [|[k0 v0] m IH]; simpl; [reflexivity|].
  destruct (same_value_zero k0 k); simpl; congruence.
Qed.

Lemma existsb_congr {A : Type} (p q : A -> bool) l :
  (forall x, In x l -> p x = q x) -> existsb p l = existsb q l.
Proof.
  induction l as [|x l IH]; simpl; intros H; [reflexivity|].
  rewrite (H x (or_introl eq_refl)), IH; auto.
Qed.

Lemma existsb_distinct_first l k :
  existsb (fun k' => same_value_zero k' k) (distinct_first l) =
  existsb (fun k' => same_value_zero k' k) l.
Proof.
  induction l as [|a l IH]; simpl; [reflexivity|].
  destruct (same_value_zero a k) eqn:Ea; simpl; [reflexivity|].
  rewrite <- IH. clear IH.
  induction (distinct_first l) as [|b d IHd]; simpl; [reflexivity|].
  destruct (same_value_zero a b) eqn:Eb; simpl.
  - rewrite IHd. rewrite <- (same_value_zero_congr _ _ _ Eb), Ea. reflexivity.
  - now rewrite IHd.
Qed.

(** The keys of the map after the rows [l] are the materials of the rows
    that pass, each where it is first seen. *)
Lemma for_of_loop_body_keys c l : forall m,
  for_of (loop_body costCenterMap c) l [] = Normal m ->
  map fst m = distinct_first (map (material_of c) (List.filter (passes c) l)).
Proof.
  induction l as [|row l IH] using rev_ind; intros m.
  - simpl. intros H. now injection H as <-.
  - rewrite for_of_app.
    destruct (for_of (loop_body costCenterMap c) l []) as [m0|e] eqn:E0;
      [|discriminate].
    specialize (IH m0 eq_refl). cbn [bind for_of].
    pose proof (loop_body_cases costCenterMap c m0 row) as Hb.
    destruct (movementType_of c row) as [mt|e]; [|rewrite Hb; discriminate].
    rewrite filter_app. cbn [List.filter].
    destruct (passes c row) eqn:Ha.
    + destruct (call_trim (costCenterCode_of c row)) as [t|e];
        [|rewrite Hb; discriminate].
      rewrite Hb. cbn [bind]. intros H. injection H as <-.
      rewrite keys_update, map_app. cbn [map].
      rewrite distinct_first_snoc, <- existsb_distinct_first, <- IH,
        <- has_keys.
      unfold ensure. destruct (JSMap.has m0 (material_of c row)); simpl.
      * reflexivity.
      * unfold JSMap.set_new. now rewrite map_app.
    + rewrite Hb. cbn [bind]. intros H. injection H as <-.
      now rewrite app_nil_r.
Qed.

Lemma processData_map response out :
  processData costCenterMap Date_getTime response = Normal out ->
  exists m,
    for_of (loop_body costCenterMap (columns_of (headers response)))
           (rows response) [] = Normal m /\
    out = map (finish Date_getTime) m.
Proof.
  unfold processData. intros H.
  destruct (existsb _ _); [discriminate|].
  destruct (for_of _ _ _) as [m|e]; [|discriminate].
  cbn [bind] in H. injection H as <-. now exists m.
Qed.

Lemma material_finish m :
  map material (map (finish Date_getTime) m) = map fst m.
Proof.
  rewrite map_map. apply map_ext. now intros [k v].
Qed.

(** X1: the summaries come in the order in which their materials first appear
    among the rows that pass the tests of the loop. *)
Theorem processData_first_appearance_order response out :
  processData costCenterMap Date_getTime response = Normal out ->
  let c := columns_of (headers response) in
  map material out =
  distinct_first (map (material_of c) (List.filter (passes c) (rows response))).
Proof.
  intros H c. destruct (processData_map _ _ H) as (m & Hm & ->).
  rewrite material_finish. now apply for_of_loop_body_keys.
Qed.

Lemma distinct_keys_pairs m :
  distinct_keys m ->
  ForallOrdPairs (fun a b => same_value_zero (fst a) (fst b) = false) m.
Proof.
  induction m as [|[k v] m IH]; simpl; [constructor|].
  intros [Hk Hd]. constructor; [|auto].
  apply Forall_forall. intros [k' v'] Hin. cbn [fst].
  rewrite same_value_zero_sym. exact (has_false_In _ _ _ _ Hk Hin).
Qed.

Lemma ForallOrdPairs_map {A B : Type} (f : A -> B) (R : B -> B -> Prop) l :
  ForallOrdPairs (fun a b => R (f a) (f b)) l -> ForallOrdPairs R (map f l).
Proof.
  induction 1 as [|a l Ha Hl IH]; simpl; constructor; auto.
  apply Forall_forall. intros b Hb. apply in_map_iff in Hb.
  destruct Hb as (x & <- & Hx). rewrite Forall_forall in Ha. auto.
Qed.

(** X2: no two summaries are of the same material: of any two, the material
    of the earlier is not the same key as the material of the later. *)
Theorem processData_one_summary_per_material response out :
  processData costCenterMap Date_getTime response = Normal out ->
  ForallOrdPairs
    (fun a b => same_value_zero (material a) (material b) = false) out.
Proof.
  intros H. destruct (processData_map _ _ H) as (m & Hm & ->).
  destruct (for_of_loop_body _ _ _ _ Hm) as (Hd & _ & _).
  apply ForallOrdPairs_map.
  apply distinct_keys_pairs in Hd. clear H Hm.
  induction Hd as [|[k v] m' Ha Hm' IH]; constructor; auto.
  rewrite Forall_forall in Ha |- *. intros [k' v'] Hin.
  exact (Ha _ Hin).
Qed.

Lemma rows_of_partition c k l :
  (List.length (rows_of c "101" k l) + List.length (rows_of c "201" k l))%nat =
  List.length
    (List.filter
       (fun row => passes c row && same_value_zero (material_of c row) k) l).
Proof.
  unfold rows_of. induction l as [|row l IH]; simpl; [reflexivity|].
  destruct (passes c row) eqn:Ha; simpl; [|exact IH].
  destruct (same_value_zero (material_of c row) k); simpl.
  - destruct (has_movement c "101" row) eqn:E1; simpl.
    + rewrite (has_movement_exclusive _ _ E1). simpl. now rewrite IH.
    + rewrite (passes_movement _ _ Ha E1). simpl.
      rewrite Nat.add_succ_r. now rewrite IH.
  - rewrite !andb_false_r. exact IH.
Qed.

(** X3: the two transaction lists of a material together hold as many
    transactions as the table has rows of that material that pass the
    tests of the loop. *)
Theorem processData_transaction_count response out ms :
  processData costCenterMap Date_getTime response = Normal out ->
  In ms out ->
  let c := columns_of (headers response) in
  (List.length (inTransactions ms) + List.length (outTransactions ms))%nat =
  List.length
    (List.filter
       (fun row => passes c row
                   && same_value_zero (material_of c row) (material ms))
       (rows response)).
Proof.
  intros H Hin c.
  destruct (processData_entries _ _ _ _ H) as [He _].
  destruct (He ms Hin) as [Hms _]. fold c in Hms.
  rewrite <- rows_of_partition. rewrite Hms at 1 2.
  cbn [finish inTransactions outTransactions expected material
       s_inTransactions s_outTransactions].
  now rewrite !length_sort, !length_map.
Qed.

(** X4: every transaction returned has a quantity that is at least zero: no
    negative quantity and no NaN is ever stored. *)
Theorem processData_quantities_nonnegative response out ms tx :
  processData costCenterMap Date_getTime response = Normal out ->
  In ms out ->
  In tx (inTransactions ms ++ outTransactions ms) ->
  (0 <=? quantity tx)%float = true.
Proof.
  intros H Hin Htx.
  destruct (processData_entries _ _ _ _ H) as [He _].
  destruct (He ms Hin) as [Hms _].
  rewrite Hms in Htx.
  cbn [finish inTransactions outTransactions expected material
       s_inTransactions s_outTransactions] in Htx.
  apply in_app_or in Htx.
  destruct Htx as [Htx|Htx];
    apply (proj1 (In_sort _ _ _)) in Htx; apply in_map_iff in Htx;
    destruct Htx as (row & <- & Hr); apply (rows_of_In costCenterMap Date_getTime) in Hr;
    destruct Hr as (_ & Ha & _); simpl;
    apply abs_nonneg; now apply passes_not_NaN.
Qed.

(** X5: a table that is processed without an exception gives no summary at
    all exactly when none of its rows passes the tests of the loop. *)
Theorem processData_empty_iff response out :
  processData costCenterMap Date_getTime response = Normal out ->
  let c := columns_of (headers response) in
  out = [] <-> forall row, In row (rows response) -> passes c row = false.
Proof.
  intros H c. destruct (processData_entries _ _ _ _ H) as [He Hc].
  fold c in He, Hc. split.
  - intros -> row Hin. destruct (passes c row) eqn:Ha; [|reflexivity].
    destruct (Hc row Hin Ha) as (ms & [] & _).
  - intros Hn. destruct out as [|ms out]; [reflexivity|].
    destruct (He ms (or_introl eq_refl)) as [_ Hf].
    destruct (first_row c (material ms) (rows response)) as [r|] eqn:E;
      [|congruence].
    apply first_row_some in E. destruct E as (Hin & Ha & _).
    rewrite (Hn r Hin) in Ha. discriminate.
Qed.

Lemma for_of_loop_body_filter c l : forall m m',
  for_of (loop_body costCenterMap c) l m = Normal m' ->
  for_of (loop_body costCenterMap c) (List.filter (passes c) l) m = Normal m'.
Proof.
  induction l as [|row l IH]; intros m m'; cbn [for_of List.filter]; [auto|].
  pose proof (loop_body_cases costCenterMap c m row) as Hb.
  destruct (movementType_of c row) as [mt|e]; [|rewrite Hb; discriminate].
  destruct (passes c row).
  - cbn [for_of].
    destruct (loop_body costCenterMap c m row) as [m1|e]; [|discriminate].
    cbn [bind]. apply IH.
  - rewrite Hb. cbn [bind]. apply IH.
Qed.

(** X6: the rows that are skipped count for nothing: the table without them
    is processed to the same summaries. *)
Theorem processData_skipped_rows_irrelevant response out :
  processData costCenterMap Date_getTime response = Normal out ->
  processData costCenterMap Date_getTime
    {| headers := headers response;
       rows := List.filter (passes (columns_of (headers response)))
                           (rows response) |}
  = Normal out.
Proof.
  unfold processData. cbn [headers rows].
  destruct (existsb _ _); [discriminate|].
  destruct (for_of (loop_body costCenterMap (columns_of (headers response)))
                   (rows response) []) as [m|e] eqn:E; [|discriminate].
  cbn [bind]. intros H. injection H as <-.
  now rewrite (for_of_loop_body_filter _ _ _ _ E).
Qed.

Lemma indexOf_absent l h : ~ In h l -> JSArray.indexOf l h = -1.
Proof.
  unfold JSArray.indexOf. generalize 0.
  induction l as [|x l IH]; simpl; intros i Hn; [reflexivity|].
  destruct (String.eqb_spec x h) as [->|Hx]; [tauto|].
  apply IH. tauto.
Qed.

(** X7: an optional column that the table does not have reads as nothing:
    without Posting Date every posting date is [undefined], and without
    User Name, Reservation, Material Document, Document Header Text or
    Text the field is the empty string. *)
Theorem processData_absent_optional_columns response out ms tx :
  processData costCenterMap Date_getTime response = Normal out ->
  In ms out ->
  In tx (inTransactions ms ++ outTransactions ms) ->
  (~ In "Posting Date" (headers response) -> postingDate tx = undefined) /\
  (~ In "User Name" (headers response) -> user tx = VString "") /\
  (~ In "Reservation" (headers response) -> reservation tx = VString "") /\
  (~ In "Material Document" (headers response) -> document tx = VString "") /\
  (~ In "Document Header Text" (headers response) ->
   headerText tx = VString "") /\
  (~ In "Text" (headers response) -> text tx = VString "").
Proof.
  intros H Hin Htx.
  destruct (processData_entries _ _ _ _ H) as [He _].
  destruct (He ms Hin) as [Hms _].
  rewrite Hms in Htx.
  cbn [finish inTransactions outTransactions expected material
       s_inTransactions s_outTransactions] in Htx.
  assert (exists row,
            tx = transaction_of costCenterMap (columns_of (headers response)) row)
    as [row ->].
  { apply in_app_or in Htx.
    destruct Htx as [Htx|Htx];
      apply (proj1 (In_sort _ _ _)) in Htx; apply in_map_iff in Htx;
      destruct Htx as (row & <- & _); now exists row. }
  unfold transaction_of, make_transaction.
  cbn [postingDate user reservation document headerText text
       columns_of postingDateIndex userIndex reservationIndex docIndex
       headerTextIndex textIndex].
  repeat split; intros Hn; rewrite (indexOf_absent _ _ Hn); reflexivity.
Qed.

End ProcessDataMore.

(** ** More of loading, filtering and paging *)

Section ViewMore.
Import SortFacts.

Variable costCenterMap : string -> value.
Variable Date_getTime : value -> option Z.
Variable localeCompare : string -> string -> float.

(** X8: a load always ends with [loading] cleared; it ends without an error
    message exactly when the service delivered a table that [processData]
    accepted, and then the inventory is the processed table and the time
    of the update is the time of the load; otherwise the inventory and
    the time of the last update stay as they were.  A load never touches
    the page, the search, the filters, the sort, the selection or the
    theme. *)
Theorem loadInventory_outcome now o s :
  let s' := loadInventory costCenterMap Date_getTime now o s in
  loading s' = false /\
  (error s' = None <->
   exists response out,
     o = Next response /\
     processData costCenterMap Date_getTime response = Normal out) /\
  (forall response out,
     o = Next response ->
     processData costCenterMap Date_getTime response = Normal out ->
     inventoryData s' = out /\ lastUpdated s' = Some now) /\
  (error s' <> None ->
   inventoryData s' = inventoryData s /\ lastUpdated s' = lastUpdated s) /\
  currentPage s' = currentPage s /\ searchTerm s' = searchTerm s /\
  movementTypeFilter s' = movementTypeFilter s /\
  sortConfig s' = sortConfig s /\
  showLowStockOnly s' = showLowStockOnly s /\
  selectedMaterial s' = selectedMaterial s /\
  detailedViewType s' = detailedViewType s /\
  dateFrom s' = dateFrom s /\ dateTo s' = dateTo s /\
  dashboardFilters s' = dashboardFilters s /\ theme s' = theme s.
Proof.
  unfold loadInventory, loadInventory_next, loadInventory_error,
    loadInventory_start.
  destruct o as [response|].
  - destruct (processData costCenterMap Date_getTime response) as [out|e] eqn:E;
      simpl; repeat split; try reflexivity; try congruence.
    + intros _. now exists response, out.
    + intros (r & o' & Hr & Ho). injection Hr as <-. congruence.
  - simpl. repeat split; try reflexivity; try congruence.
    intros (r & o' & Hr & _). discriminate.
Qed.

Lemma filter_c_typed term l :
  Forall typed_item l ->
  filter_c (matches_term term) l =
  Normal
    (List.filter
       (fun item =>
          JSString.includes (JSString.toLowerCase (string_of (material item))) term
          || JSString.includes
               (JSString.toLowerCase (string_of (materialDescription item))) term)
       l).
Proof.
  induction 1 as [|item l (m & d & Hm & Hd) Hl IH]; cbn [filter_c List.filter];
    [reflexivity|].
  rewrite IH. unfold matches_term. rewrite Hm, Hd.
  cbn [call_toLowerCase bind string_of].
  destruct (JSString.includes (JSString.toLowerCase m) term); cbn [bind orb];
    [reflexivity|].
  destruct (JSString.includes (JSString.toLowerCase d) term); reflexivity.
Qed.

Lemma filter_filter {A : Type} (p q : A -> bool) l :
  List.filter p (List.filter q l) = List.filter (fun x => q x && p x) l.
Proof.
  induction l as [|x l IH]; simpl; [reflexivity|].
  destruct (q x); simpl; [destruct (p x)|]; now rewrite IH.
Qed.

Lemma filter_true {A : Type} (l : list A) : List.filter (fun _ => true) l = l.
Proof. induction l as [|x l IH]; simpl; congruence. Qed.

(** X9: the low-stock test, the movement test and the search are one test:
    where materials and descriptions are strings, the base filter keeps,
    in the order of the inventory, exactly the items that pass all three,
    so the order in which the three are applied does not matter. *)
Theorem baseFilteredInventory_is_one_filter s :
  Forall typed_item (inventoryData s) ->
  baseFilteredInventory s = Normal (List.filter (shown s) (inventoryData s)).
Proof.
  intros H. unfold baseFilteredInventory, shown.
  set (data := inventoryData s) in *.
  set (term := JSString.toLowerCase (searchTerm s)).
  set (low := fun item : MaterialSummary =>
                if showLowStockOnly s
                then (balance item <=? lowStockThreshold)%float else true).
  set (mov := fun item : MaterialSummary =>
                match movementTypeFilter s with
                | only101 => (0 <? totalIn item)%float
                | only201 => (0 <? totalOut item)%float
                | all => true
                end).
  assert ((if showLowStockOnly s
           then List.filter
                  (fun item => (balance item <=? lowStockThreshold)%float) data
           else data) = List.filter low data) as ->.
  { subst low. destruct (showLowStockOnly s); [reflexivity|].
    now rewrite filter_true. }
  assert (match movementTypeFilter s with
          | all => List.filter low data
          | only101 =>
              List.filter (fun item => (0 <? totalIn item)%float)
                          (List.filter low data)
          | only201 =>
              List.filter (fun item => (0 <? totalOut item)%float)
                          (List.filter low data)
          end = List.filter mov (List.filter low data)) as ->.
  { subst mov. destruct (movementTypeFilter s); [|reflexivity|reflexivity].
    now rewrite filter_true. }
  destruct (String.eqb term "") eqn:E.
  - rewrite filter_filter. f_equal. apply filter_ext. intros item.
    now rewrite andb_true_r.
  - rewrite filter_c_typed.
    + rewrite !filter_filter. f_equal. apply filter_ext. intros item.
      now rewrite andb_assoc.
    + rewrite filter_filter. apply Forall_filter_keep. exact H.
Qed.

(** X10: sorting neither loses nor repeats an item: the sorted inventory is a
    rearrangement of the base-filtered inventory, and it throws exactly
    where the base filter throws. *)
Theorem sortedInventory_rearranges s :
  match baseFilteredInventory s with
  | Normal items =>
      exists sorted, sortedInventory localeCompare s = Normal sorted /\
                     Permutation items sorted
  | Throw e => sortedInventory localeCompare s = Throw e
  end.
Proof.
  unfold sortedInventory. destruct (baseFilteredInventory s) as [items|e];
    cbn [bind]; [|reflexivity].
  eexists. split; [reflexivity|]. apply sort_perm.
Qed.

Lemma firstn_min_length {A : Type} n (l : list A) :
  firstn (Nat.min n (List.length l)) l = firstn n l.
Proof.
  destruct (Nat.le_ge_cases n (List.length l)) as [H|H].
  - now rewrite Nat.min_l.
  - rewrite Nat.min_r by exact H. now rewrite !firstn_all2.
Qed.

(** [slice] from a start that is not negative, twelve items long. *)
Lemma slice_from {A : Type} (l : list A) (k : nat) :
  JSArray.slice l (Z.of_nat k) (Z.of_nat k + 12) = firstn 12 (skipn k l).
Proof.
  unfold JSArray.slice.
  destruct (Z.of_nat k <? 0) eqn:E1; [apply Z.ltb_lt in E1; lia|].
  destruct (Z.of_nat k + 12 <? 0) eqn:E2; [apply Z.ltb_lt in E2; lia|].
  destruct (Nat.le_gt_cases (List.length l) k) as [H|H].
  - rewrite (skipn_all2 l H).
    replace (Z.to_nat (Z.min (Z.of_nat k) (Z.of_nat (List.length l))))
      with (List.length l) by lia.
    rewrite skipn_all. now rewrite !firstn_nil.
  - replace (Z.to_nat (Z.min (Z.of_nat k) (Z.of_nat (List.length l))))
      with k by lia.
    rewrite <- (firstn_min_length 12). rewrite length_skipn. f_equal. lia.
Qed.

Lemma firstn_plus {A : Type} a b (l : list A) :
  firstn (a + b) l = firstn a l ++ firstn b (skipn a l).
Proof.
  revert l. induction a as [|a IH]; intros l; simpl; [reflexivity|].
  destruct l as [|x l]; simpl; [now rewrite firstn_nil|]. now rewrite IH.
Qed.

Lemma concat_chunks {A : Type} (l : list A) n :
  List.concat (map (fun k => firstn 12 (skipn (12 * k) l)) (seq 0 n))
  = firstn (12 * n) l.
Proof.
  induction n as [|n IH]; [reflexivity|].
  rewrite seq_S, map_app, concat_app, IH. cbn [map List.concat Nat.add].
  rewrite app_nil_r, <- firstn_plus. f_equal. lia.
Qed.

Lemma sortedInventory_page s p :
  sortedInventory localeCompare (set_currentPage p s)
  = sortedInventory localeCompare s.
Proof. reflexivity. Qed.

Lemma page_of_slice s sorted p :
  sortedInventory localeCompare s = Normal sorted ->
  page_of localeCompare s p =
  JSArray.slice sorted ((p - 1) * 12) ((p - 1) * 12 + 12).
Proof.
  intros H. unfold page_of, paginatedInventory.
  rewrite sortedInventory_page, H. reflexivity.
Qed.

Lemma pages_length s sorted pages :
  sortedInventory localeCompare s = Normal sorted ->
  totalPages s = Normal pages ->
  12 * (pages - 1) < Z.of_nat (List.length sorted) <= 12 * pages.
Proof.
  unfold sortedInventory, totalPages.
  destruct (baseFilteredInventory s) as [items|e]; [|discriminate].
  cbn [bind]. intros H1 H2. injection H1 as <-. injection H2 as <-.
  rewrite length_sort.
  now apply (Math_ceil_spec (Z.of_nat (List.length items))).
Qed.

(** X11: the pages from 1 to totalPages, one after the other, are the sorted
    inventory: every item is on one page and on no other. *)
Theorem pages_partition_sorted_inventory s sorted pages :
  sortedInventory localeCompare s = Normal sorted ->
  totalPages s = Normal pages ->
  List.concat (map (page_of localeCompare s) (pages_upto pages)) = sorted.
Proof.
  intros Hs Hp. pose proof (pages_length _ _ _ Hs Hp) as Hl.
  unfold pages_upto. rewrite <- seq_shift, !map_map.
  rewrite (map_ext _ (fun k => firstn 12 (skipn (12 * k) sorted))).
  - rewrite concat_chunks. apply firstn_all2. lia.
  - intros k. rewrite (page_of_slice _ _ _ Hs).
    replace ((Z.of_nat (S k) - 1) * 12) with (Z.of_nat (12 * k)) by lia.
    apply slice_from.
Qed.

(** X12: a page that goToPage accepts shows at least one item, and every page
    after the last is empty. *)
Theorem pages_within_and_beyond s sorted pages p :
  sortedInventory localeCompare s = Normal sorted ->
  totalPages s = Normal pages ->
  (1 <= p <= pages -> page_of localeCompare s p <> []) /\
  (pages < p -> page_of localeCompare s p = []).
Proof.
  intros Hs Hp. pose proof (pages_length _ _ _ Hs Hp) as Hl.
  assert (0 <= pages) as Hpages by lia.
  rewrite (page_of_slice _ _ _ Hs). split; intros Hr.
  - replace ((p - 1) * 12) with (Z.of_nat (Z.to_nat ((p - 1) * 12))) by lia.
    rewrite slice_from. intros H.
    apply (f_equal (@List.length _)) in H.
    rewrite length_firstn, length_skipn in H. cbn [List.length] in H. lia.
  - replace ((p - 1) * 12) with (Z.of_nat (Z.to_nat ((p - 1) * 12))) by lia.
    rewrite slice_from, skipn_all2; [now rewrite firstn_nil|]. lia.
Qed.

Lemma totalPages_page s p : totalPages (set_currentPage p s) = totalPages s.
Proof. reflexivity. Qed.

Lemma set_currentPage_back s p :
  set_currentPage (currentPage s) (set_currentPage p s) = s.
Proof. destruct s. reflexivity. Qed.

(** X13: paging keeps the page within 1 and totalPages, and leaves totalPages
    as it is; at the last page nextPage changes nothing, at the first
    prevPage changes nothing, and elsewhere prevPage undoes nextPage. *)
Theorem navigation_stays_in_range s pages :
  totalPages s = Normal pages ->
  1 <= currentPage s <= pages ->
  (forall s',
     nextPage s = Normal s' \/ prevPage s = Normal s' \/
     (exists n, goToPage n s = Normal s') ->
     totalPages s' = Normal pages /\ 1 <= currentPage s' <= pages) /\
  (currentPage s = pages -> nextPage s = Normal s) /\
  (currentPage s = 1 -> prevPage s = Normal s) /\
  (currentPage s < pages -> bind (nextPage s) prevPage = Normal s).
Proof.
  intros Hp Hc.
  assert (forall n s', goToPage n s = Normal s' ->
            totalPages s' = Normal pages /\ 1 <= currentPage s' <= pages) as Hg.
  { intros n s' H. unfold goToPage in H. rewrite Hp in H. cbn [bind] in H.
    destruct (0 <? n) eqn:E0.
    - destruct (n <=? pages) eqn:E1; injection H as <-.
      + rewrite totalPages_page. split; [exact Hp|]. simpl.
        apply Z.ltb_lt in E0. apply Z.leb_le in E1. lia.
      + auto.
    - injection H as <-. auto. }
  split; [|split; [|split]].
  - intros s' [H|[H|[n H]]]; eapply Hg; exact H.
  - intros He. unfold nextPage, goToPage. rewrite Hp. cbn [bind].
    destruct (0 <? currentPage s + 1); [|reflexivity].
    destruct (currentPage s + 1 <=? pages) eqn:E; [|reflexivity].
    apply Z.leb_le in E. lia.
  - intros He. unfold prevPage, goToPage. rewrite He. reflexivity.
  - intros Hlt. unfold nextPage, goToPage at 1. rewrite Hp. cbn [bind].
    destruct (0 <? currentPage s + 1) eqn:E0;
      [|apply Z.ltb_ge in E0; lia].
    destruct (currentPage s + 1 <=? pages) eqn:E1;
      [|apply Z.leb_gt in E1; lia].
    cbn [bind]. unfold prevPage, goToPage. rewrite totalPages_page, Hp.
    cbn [bind currentPage set_currentPage].
    replace (currentPage s + 1 - 1) with (currentPage s) by lia.
    destruct (0 <? currentPage s) eqn:E2; [|apply Z.ltb_ge in E2; lia].
    destruct (currentPage s <=? pages) eqn:E3; [|apply Z.leb_gt in E3; lia].
    now rewrite set_currentPage_back.
Qed.

(** X14: a page left two or more beyond the last, as a reload that shrinks the
    inventory can leave it, is empty, and neither nextPage nor prevPage
    moves off it. *)
Theorem stale_page_is_stuck s sorted pages :
  sortedInventory localeCompare s = Normal sorted ->
  totalPages s = Normal pages ->
  pages + 1 < currentPage s ->
  paginatedInventory localeCompare s = Normal [] /\
  nextPage s = Normal s /\ prevPage s = Normal s.
Proof.
  intros Hs Hp Hc. pose proof (pages_length _ _ _ Hs Hp) as Hl.
  split; [|split].
  - unfold paginatedInventory. rewrite Hs. cbn [bind]. f_equal.
    unfold itemsPerPage.
    replace ((currentPage s - 1) * 12)
      with (Z.of_nat (Z.to_nat ((currentPage s - 1) * 12))) by lia.
    rewrite slice_from, skipn_all2; [now rewrite firstn_nil|]. lia.
  - unfold nextPage, goToPage. rewrite Hp. cbn [bind].
    destruct (0 <? currentPage s + 1); [|reflexivity].
    destruct (currentPage s + 1 <=? pages) eqn:E; [|reflexivity].
    apply Z.leb_le in E. lia.
  - unfold prevPage, goToPage. rewrite Hp. cbn [bind].
    destruct (0 <? currentPage s - 1); [|reflexivity].
    destruct (currentPage s - 1 <=? pages) eqn:E; [|reflexivity].
    apply Z.leb_le in E. lia.
Qed.



End ViewMore.

(** ** The date-range view *)

Section DetailMore.
Import FloatFacts SortFacts.

Variable costCenterMap : string -> value.
Variable Date_getTime : value -> option Z.
Variable startOfDay endOfDay : Z -> Z.
Variable toISODate : Z -> string.

(** What the test of the date-range view comes to: a transaction whose
    date is invalid passes, and a bound that is empty or no date excludes
    nothing. *)
Lemma in_range_spec from to tx :
  in_range Date_getTime (bound_of Date_getTime from startOfDay)
           (bound_of Date_getTime to endOfDay) tx = true <->
  forall t, Date_getTime (postingDate tx) = Some t ->
    (forall f, from <> "" -> Date_getTime (VString from) = Some f ->
               startOfDay f <= t) /\
    (forall u, to <> "" -> Date_getTime (VString to) = Some u ->
               t <= endOfDay u).
Proof.
  unfold in_range, bound_of, date_lt.
  destruct (String.eqb_spec from "") as [Ef|Ef],
           (String.eqb_spec to "") as [Et|Et];
    destruct (Date_getTime (postingDate tx)) as [t|];
    destruct (Date_getTime (VString from)) as [f|];
    destruct (Date_getTime (VString to)) as [u|]; cbn [option_map];
    repeat match goal with
           | |- context [?a <? ?b] =>
               let L := fresh "L" in destruct (Z.ltb_spec a b) as [L|L]
           end;
    (split;
     [ intros Hall t' Ht'; try discriminate; try injection Ht' as <-;
       split; intros b Hb Hb'; try congruence; try injection Hb' as <-;
       try lia
     | intros Hall; try reflexivity;
       destruct (Hall _ eq_refl) as [Hf Hu];
       try (specialize (Hf _ Ef eq_refl); lia);
       try (specialize (Hu _ Et eq_refl); lia) ]).
Qed.

(** X16: with a material selected and a type of view chosen, the date-range
    view lists exactly the transactions of that type whose date is invalid
    or lies between the start of the day of dateFrom and the end of the
    day of dateTo, both ends included; a bound that is empty or is no date
    excludes nothing.  Its total is the sum of the quantities listed. *)
Theorem detailed_view_range_inclusive s v material :
  detailedViewType s = Some v ->
  selectedMaterial s = Some material ->
  exists view,
    detailedTransactionsView Date_getTime startOfDay endOfDay s = Some view /\
    d_type view = v /\
    (forall tx,
       In tx (d_transactions view) <->
       In tx (transactions_of v material) /\
       forall t, Date_getTime (postingDate tx) = Some t ->
         (forall f, dateFrom s <> "" ->
                    Date_getTime (VString (dateFrom s)) = Some f ->
                    startOfDay f <= t) /\
         (forall u, dateTo s <> "" ->
                    Date_getTime (VString (dateTo s)) = Some u ->
                    t <= endOfDay u)) /\
    d_totalQuantity view =
      fold_left (fun sum tx => (sum + quantity tx)%float)
                (d_transactions view) 0%float.
Proof.
  intros Hv Hm. unfold detailedTransactionsView. rewrite Hv, Hm.
  eexists. split; [reflexivity|]. cbn [d_type d_transactions d_totalQuantity].
  split; [reflexivity|]. split; [|reflexivity].
  intros tx. rewrite filter_In, in_range_spec.
  unfold transactions_of. destruct v; reflexivity.
Qed.

Lemma transaction_rows response out ms tx :
  processData costCenterMap Date_getTime response = Normal out ->
  In ms out ->
  In tx (inTransactions ms ++ outTransactions ms) ->
  exists row,
    In row (rows response) /\
    passes (columns_of (headers response)) row = true /\
    tx = transaction_of costCenterMap (columns_of (headers response)) row.
Proof.
  intros H Hin Htx.
  destruct (processData_entries _ _ _ _ H) as [He _].
  destruct (He ms Hin) as [Hms _].
  rewrite Hms in Htx.
  cbn [finish inTransactions outTransactions expected material
       s_inTransactions s_outTransactions] in Htx.
  apply in_app_or in Htx.
  destruct Htx as [Htx|Htx];
    apply (proj1 (In_sort _ _ _)) in Htx; apply in_map_iff in Htx;
    destruct Htx as (row & <- & Hr);
    apply (rows_of_In costCenterMap Date_getTime) in Hr;
    destruct Hr as (Hr & Ha & _); now exists row.
Qed.

Lemma transactions_of_In v ms tx :
  In tx (transactions_of v ms) ->
  In tx (inTransactions ms ++ outTransactions ms).
Proof. destruct v; simpl; intros H; apply in_or_app; auto. Qed.

(** X17: the total of the date-range view over a material that [processData]
    returned is at least zero, whatever the range. *)
Theorem detailed_view_total_nonnegative response out ms s view :
  processData costCenterMap Date_getTime response = Normal out ->
  In ms out ->
  selectedMaterial s = Some ms ->
  detailedTransactionsView Date_getTime startOfDay endOfDay s = Some view ->
  (0 <=? d_totalQuantity view)%float = true.
Proof.
  intros H Hin Hm Hview. unfold detailedTransactionsView in Hview.
  destruct (detailedViewType s) as [v|]; [|discriminate].
  rewrite Hm in Hview. injection Hview as <-. cbn [d_totalQuantity].
  apply (fold_left_nonneg quantity); [reflexivity|].
  intros tx Htx. apply filter_In in Htx. destruct Htx as [Htx _].
  change (In tx (transactions_of v ms)) in Htx.
  apply transactions_of_In in Htx.
  destruct (transaction_rows _ _ _ _ H Hin Htx) as (row & _ & Ha & ->).
  simpl. apply abs_nonneg. now apply passes_not_NaN.
Qed.

Lemma last_some {A : Type} (l : list A) :
  l <> [] ->
  exists x, List.last (map Some l) None = Some x /\ In x l /\
            forall d, List.last l d = x.
Proof.
  induction l as [|a l IH]; [congruence|]. intros _.
  destruct l as [|b l].
  - exists a. simpl. auto.
  - destruct IH as (x & Hx & Hin & Hd); [discriminate|].
    exists x. split; [exact Hx|]. split; [now right|].
    intros d. exact (Hd d).
Qed.

(** X18: over a table without the Posting Date column the date-range view
    cannot be opened: for a material with a transaction of the type asked
    for, [showDetailedView] sets dateTo and then throws a RangeError,
    before it sets dateFrom or opens the view. *)
Theorem showDetailedView_needs_posting_dates now v response out ms s :
  processData costCenterMap Date_getTime response = Normal out ->
  In ms out ->
  ~ In "Posting Date" (headers response) ->
  Date_getTime undefined = None ->
  selectedMaterial s = Some ms ->
  transactions_of v ms <> [] ->
  showDetailedView Date_getTime toISODate now v s
  = Aborted (RangeError "Invalid time value") (set_dateTo (toISODate now) s) /\
  detailedViewType (set_dateTo (toISODate now) s) = detailedViewType s /\
  dateFrom (set_dateTo (toISODate now) s) = dateFrom s.
Proof.
  intros H Hin Hn Hu Hm Hne. split; [|split; reflexivity].
  unfold showDetailedView. rewrite Hm.
  change (match v with
          | view_in => inTransactions ms
          | view_out => outTransactions ms
          end) with (transactions_of v ms).
  destruct (last_some _ Hne) as (oldest & -> & Ho & _).
  apply transactions_of_In in Ho.
  destruct (transaction_rows _ _ _ _ H Hin Ho) as (row & _ & _ & ->).
  unfold transaction_of, make_transaction.
  cbn [postingDate columns_of postingDateIndex].
  rewrite (indexOf_absent costCenterMap Date_getTime _ _ Hn).
  change (JSArray.get row (-1)) with undefined. now rewrite Hu.
Qed.

Lemma sorted_last l tx d :
  StronglySorted (not_before Date_getTime) l ->
  In tx l ->
  tx = List.last l d \/ not_before Date_getTime tx (List.last l d).
Proof.
  induction 1 as [|a l Hs IH Ha]; [intros []|].
  intros [<-|Hin].
  - destruct l as [|b l]; [now left|]. right.
    rewrite Forall_forall in Ha. apply Ha.
    change (List.last (a :: b :: l) d) with (List.last (b :: l) d).
    destruct (last_some (b :: l)) as (x & _ & Hx & Hd); [discriminate|].
    now rewrite Hd.
  - destruct l as [|b l]; [destruct Hin|].
    change (List.last (a :: b :: l) d) with (List.last (b :: l) d).
    now apply IH.
Qed.

Lemma filter_all {A : Type} (p : A -> bool) l :
  (forall x, In x l -> p x = true) -> List.filter p l = l.
Proof.
  induction l as [|x l IH]; simpl; intros H; [reflexivity|].
  rewrite (H x (or_introl eq_refl)), IH; auto.
Qed.

(** X19: where the transactions of the type asked for are dated and in
    descending order of date, as [processData] leaves them, the start of
    the day that dateFrom names is not after the oldest of them, and none
    is dated after the end of the day that dateTo names, the view that
    [showDetailedView] opens lists every one of them. *)
Theorem showDetailedView_lists_every_transaction now v s material :
  selectedMaterial s = Some material ->
  transactions_of v material <> [] ->
  StronglySorted (not_before Date_getTime) (transactions_of v material) ->
  (forall tx, In tx (transactions_of v material) ->
              Date_getTime (postingDate tx) <> None) ->
  (forall oldest t d,
     List.last (map Some (transactions_of v material)) None = Some oldest ->
     Date_getTime (postingDate oldest) = Some t ->
     Date_getTime (VString (toISODate t)) = Some d ->
     startOfDay d <= t) ->
  (forall tx t u,
     In tx (transactions_of v material) ->
     Date_getTime (postingDate tx) = Some t ->
     Date_getTime (VString (toISODate now)) = Some u ->
     t <= endOfDay u) ->
  exists s' view,
    showDetailedView Date_getTime toISODate now v s = Finished s' /\
    detailedTransactionsView Date_getTime startOfDay endOfDay s' = Some view /\
    d_type view = v /\
    d_transactions view = transactions_of v material.
Proof.
  intros Hm Hne Hs Hv Hfrom Hto.
  destruct (last_some _ Hne) as (oldest & Hl & Ho & Hd).
  destruct (Date_getTime (postingDate oldest)) as [t0|] eqn:Et;
    [|now destruct (Hv oldest Ho)].
  unfold showDetailedView. rewrite Hm.
  change (match v with
          | view_in => inTransactions material
          | view_out => outTransactions material
          end) with (transactions_of v material).
  rewrite Hl, Et. eexists. eexists. split; [reflexivity|].
  unfold detailedTransactionsView.
  cbn [detailedViewType selectedMaterial set_detailedViewType set_dateFrom
       set_dateTo dateFrom dateTo].
  rewrite Hm. split; [reflexivity|].
  cbn [d_type d_transactions]. split; [reflexivity|].
  change (match v with
          | view_in => inTransactions material
          | view_out => outTransactions material
          end) with (transactions_of v material).
  apply filter_all. intros tx Htx. apply in_range_spec.
  intros t Ht. split.
  - intros f _ Hf. specialize (Hfrom oldest t0 f Hl Et Hf).
    destruct (sorted_last _ _ oldest Hs Htx) as [Heq|Hnb].
    + rewrite Hd in Heq. subst tx. rewrite Et in Ht. injection Ht as <-. lia.
    + rewrite Hd in Hnb. unfold not_before, time_of in Hnb.
      rewrite Ht, Et in Hnb. lia.
  - intros u _ Hu. exact (Hto tx t u Htx Ht Hu).
Qed.

End DetailMore.

(** ** The dashboard of a material *)

Section DashboardMore.
Import SortFacts.

Variable Date_getTime : value -> option Z.
Variable format_medium : Z -> string.

Lemma filter_perm {A : Type} (p : A -> bool) l l' :
  Permutation l l' -> Permutation (List.filter p l) (List.filter p l').
Proof.
  induction 1 as [|x l l' Hl IH|x y l|l l' l'' H1 IH1 H2 IH2]; simpl.
  - constructor.
  - destruct (p x); [now constructor|exact IH].
  - destruct (p x), (p y); try reflexivity. apply perm_swap.
  - now transitivity (List.filter p l').
Qed.

Lemma filter_tagged v w l :
  List.filter (fun tx => same_type (type tx) w) (map (tagged v) l) =
  if same_type v w then map (tagged v) l else [].
Proof.
  induction l as [|t l IH]; simpl; [now destruct (same_type v w)|].
  rewrite IH. now destruct (same_type v w).
Qed.

Lemma toLowerCase_empty s : JSString.toLowerCase s = "" <-> s = "".
Proof. destruct s; simpl; split; congruence. Qed.

(** X20: with the four text filters of the dashboard empty, the dashboard of
    the selected material lists, under the movement filter all, the
    receipts and the issues of the material, each once and with its type,
    and under the movement filter in or out the transactions of that type
    only. *)
Theorem itemDashboard_movement_filter s material :
  selectedMaterial s = Some material ->
  f_date (dashboardFilters s) = "" ->
  f_user (dashboardFilters s) = "" ->
  f_costCenter (dashboardFilters s) = "" ->
  f_details (dashboardFilters s) = "" ->
  exists d,
    itemDashboard Date_getTime format_medium s = Returned (Some d) /\
    dash_material d = material /\
    match f_movement (dashboardFilters s) with
    | None =>
        Permutation (allTransactions d)
                    (map (tagged view_in) (inTransactions material) ++
                     map (tagged view_out) (outTransactions material))
    | Some v =>
        Permutation (allTransactions d)
                    (map (tagged v) (transactions_of v material))
    end.
Proof.
  intros Hm Hd Hu Hc Ht. unfold itemDashboard. rewrite Hm, Hd, Hu, Hc, Ht.
  cbn [JSString.toLowerCase String.eqb and_then].
  eexists. split; [reflexivity|]. cbn [dash_material allTransactions].
  split; [reflexivity|].
  change (map (fun t => {| base := t; type := view_in |})
              (inTransactions material))
    with (map (tagged view_in) (inTransactions material)).
  change (map (fun t => {| base := t; type := view_out |})
              (outTransactions material))
    with (map (tagged view_out) (outTransactions material)).
  destruct (f_movement (dashboardFilters s)) as [v|].
  - etransitivity.
    + apply filter_perm. symmetry. apply sort_perm.
    + rewrite filter_app, !filter_tagged.
      destruct v; cbn [same_type transactions_of];
        now rewrite ?app_nil_r.
  - symmetry. apply sort_perm.
Qed.

Lemma filter_r_raises {A : Type} (q : A -> result bool) t0 l x :
  (forall y, In y l -> (exists b, q y = Returned b) \/ q y = Raised t0) ->
  In x l -> q x = Raised t0 ->
  filter_r q l = Raised t0.
Proof.
  induction l as [|a l IH]; intros Hq Hin Hx; [destruct Hin|].
  cbn [filter_r].
  destruct (Hq a (or_introl eq_refl)) as [[b Hb]|Hr].
  - rewrite Hb. cbn [and_then]. destruct Hin as [->|Hin]; [congruence|].
    rewrite IH; auto. intros y Hy. apply Hq. now right.
  - now rewrite Hr.
Qed.

(** X21: a text in the date filter of the dashboard makes the dashboard throw
    a RangeError as soon as one transaction that the movement filter lets
    through has a posting date that is no date. *)
Theorem itemDashboard_date_filter_needs_dates s material tx :
  selectedMaterial s = Some material ->
  f_date (dashboardFilters s) <> "" ->
  In tx (map (tagged view_in) (inTransactions material) ++
         map (tagged view_out) (outTransactions material)) ->
  (forall v, f_movement (dashboardFilters s) = Some v -> type tx = v) ->
  Date_getTime (postingDate (base tx)) = None ->
  itemDashboard Date_getTime format_medium s
  = Raised (RangeError "Invalid time value").
Proof.
  intros Hm Hd Hin Hv Hn. unfold itemDashboard. rewrite Hm.
  destruct (String.eqb_spec
              (JSString.toLowerCase (f_date (dashboardFilters s))) "")
    as [E|_]; [destruct Hd; exact (proj1 (toLowerCase_empty _) E)|].
  match goal with
  | |- and_then (filter_r ?q ?l) _ = _ =>
      assert (filter_r q l = Raised (RangeError "Invalid time value")) as ->;
        [|reflexivity]
  end.
  apply (filter_r_raises _ _ _ tx).
  - intros y _. unfold format_date.
    destruct (Date_getTime (postingDate (base y))); cbn [and_then];
      [left; eexists; reflexivity|now right].
  - destruct (f_movement (dashboardFilters s)) as [v|] eqn:Ev.
    + apply filter_In. split.
      * apply (proj2 (In_sort _ _ _)). exact Hin.
      * rewrite (Hv v eq_refl). now destruct v.
    + apply (proj2 (In_sort _ _ _)). exact Hin.
  - unfold format_date. now rewrite Hn.
Qed.

End DashboardMore.

(** ** Closing the views, the theme, and what every handler keeps *)

Section HandlerFacts.

Variable costCenterMap : string -> value.
Variable Date_getTime : value -> option Z.
Variable format_medium : Z -> string.
Variable startOfDay endOfDay : Z -> Z.
Variable toISODate : Z -> string.

(** X22: escape closes the innermost view first: with the date-range view open
    it closes that view, clears its dates and keeps the dashboard with its
    filters; pressed twice it leaves no view open, whatever was open, and
    a third time changes nothing.  It never touches the inventory or the
    page. *)
Theorem escape_closes_innermost_first s :
  let s1 := handleEscapeKey s in
  let s2 := handleEscapeKey s1 in
  (detailedViewType s <> None ->
   detailedTransactionsView Date_getTime startOfDay endOfDay s1 = None /\
   dateFrom s1 = "" /\ dateTo s1 = "" /\
   selectedMaterial s1 = selectedMaterial s /\
   dashboardFilters s1 = dashboardFilters s) /\
  (detailedViewType s = None -> s1 = closeDashboard s \/
                                (selectedMaterial s = None /\ s1 = s)) /\
  itemDashboard Date_getTime format_medium s2 = Returned None /\
  detailedTransactionsView Date_getTime startOfDay endOfDay s2 = None /\
  handleEscapeKey s2 = s2 /\
  inventoryData s2 = inventoryData s /\ currentPage s2 = currentPage s.
Proof.
  destruct s as [data l e u th term mf sc low page sel dv from to filters].
  destruct dv as [v|], sel as [m|];
    cbv beta iota zeta delta
      [handleEscapeKey closeDashboard closeDetailedView resetDashboardFilters
       set_selectedMaterial set_detailedViewType set_dateFrom set_dateTo
       set_dashboardFilters detailedTransactionsView itemDashboard
       inventoryData loading error lastUpdated theme searchTerm
       movementTypeFilter sortConfig showLowStockOnly currentPage
       selectedMaterial detailedViewType dateFrom dateTo dashboardFilters];
    repeat split; auto; congruence.
Qed.

(** X23: the theme that the effect writes to the storage is the theme that
    [initializeTheme] restores on the next start, whatever the system
    prefers; toggling changes the theme, and toggling twice restores the
    state. *)
Theorem theme_survives_reload t prefersDark s :
  theme (initializeTheme (Some (theme_text t)) prefersDark s) = t /\
  theme (toggleTheme s) <> theme s /\
  toggleTheme (toggleTheme s) = s.
Proof.
  destruct s as [data l e u th term mf sc low page sel dv from to filters].
  destruct t, th;
    cbv beta iota zeta delta
      [initializeTheme theme_text toggleTheme set_theme theme
       String.eqb Ascii.eqb Bool.eqb];
    repeat split; congruence.
Qed.

Lemma run_well_formed h s :
  well_formed s -> well_formed (run costCenterMap Date_getTime toISODate h s).
Proof.
  assert (forall n, well_formed s ->
            well_formed match goToPage n s with
                        | Normal s' => s'
                        | Throw _ => s
                        end) as Hgo.
  { intros n Hs. unfold goToPage.
    destruct (0 <? n) eqn:E0; [|exact Hs].
    destruct (totalPages s) as [pages|e]; cbn [bind]; [|exact Hs].
    destruct (n <=? pages); [|exact Hs].
    apply Z.ltb_lt in E0. destruct Hs as [_ Hs]. split; [simpl; lia|exact Hs]. }
  intros Hs. pose proof Hs as [Hp Hd].
  destruct h as [value|value|checked|value from|material| | |now v| | |page
                | | | |now o]; cbn [run].
  - split; simpl; [lia|exact Hd].
  - split; simpl; [lia|exact Hd].
  - split; simpl; [lia|exact Hd].
  - unfold onDateChange. destruct from; split; simpl; assumption.
  - split; simpl; [exact Hp|discriminate].
  - split; simpl; [exact Hp|congruence].
  - split; simpl; [exact Hp|exact Hd].
  - unfold showDetailedView.
    destruct (selectedMaterial s) as [m|] eqn:Em; [|exact Hs].
    destruct (List.last _ None) as [oldest|]; [|exact Hs].
    destruct (Date_getTime (postingDate oldest));
      (split; simpl; [exact Hp|rewrite ?Em; auto; discriminate]).
  - split; simpl; [exact Hp|congruence].
  - unfold handleEscapeKey.
    destruct (detailedViewType s) eqn:Ev.
    + split; simpl; [exact Hp|congruence].
    + destruct (selectedMaterial s); [|exact Hs].
      split; simpl; [exact Hp|congruence].
  - now apply Hgo.
  - unfold nextPage. now apply Hgo.
  - unfold prevPage. now apply Hgo.
  - unfold toggleTheme. split; simpl; assumption.
  - unfold loadInventory, loadInventory_next, loadInventory_error.
    destruct o as [response|].
    + destruct (processData _ _ _); split; simpl; assumption.
    + split; simpl; assumption.
Qed.

(** X24: whatever handlers of [handler] run from the initial state, in
    whatever order and whether or not one throws, the page stays at least
    1 and the date-range view is never open without a selected material. *)
Theorem handlers_keep_state_well_formed hs :
  well_formed (run_all costCenterMap Date_getTime toISODate hs initial_state).
Proof.
  unfold run_all.
  assert (well_formed initial_state) as H0.
  { split; [simpl; lia|simpl; congruence]. }
  revert H0. generalize initial_state.
  induction hs as [|h hs IH]; intros s Hs; [exact Hs|].
  simpl. apply IH. now apply run_well_formed.
Qed.

End HandlerFacts.

(** ** Statistics, search and the quoted fields of the exports *)

Section StatsFacts.
Import FloatFacts SortFacts.

Variable costCenterMap : string -> value.
Variable Date_getTime : value -> option Z.

(** X25: after a load that succeeds, the number of items is the number of
    distinct materials among the rows that pass the tests of the loop,
    the total issued is at least zero, and the total received is at least
    zero when none of these rows has a quantity below zero. *)
Theorem inventoryStats_after_load now response out s :
  processData costCenterMap Date_getTime response = Normal out ->
  let stats :=
    inventoryStats
      (loadInventory costCenterMap Date_getTime now (Next response) s) in
  let c := columns_of (headers response) in
  totalItems stats =
    Z.of_nat
      (List.length
         (distinct_first
            (map (material_of c) (List.filter (passes c) (rows response))))) /\
  (0 <=? totalIssued stats)%float = true /\
  ((forall row, In row (rows response) -> passes c row = true ->
                (0 <=? quantity_of c row)%float = true) ->
   (0 <=? totalReceived stats)%float = true).
Proof.
  intros H stats c. subst stats c.
  unfold loadInventory, loadInventory_next, loadInventory_start.
  rewrite H. unfold inventoryStats.
  cbn [inventoryData set_load totalItems totalIssued totalReceived].
  destruct (processData_entries _ _ _ _ H) as [He _]. cbv zeta in He.
  split; [|split].
  - destruct (processData_map _ _ _ _ H) as (m & Hm & ->).
    rewrite <- (for_of_loop_body_keys _ _ _ _ Hm).
    now rewrite !length_map.
  - apply (fold_left_nonneg totalOut); [reflexivity|].
    intros ms Hin. destruct (He ms Hin) as [Hms _]. rewrite Hms.
    cbn [finish totalOut expected s_totalOut].
    unfold sum_out. apply fold_left_nonneg; [reflexivity|].
    intros row Hr. apply (rows_of_In costCenterMap Date_getTime) in Hr.
    destruct Hr as (_ & Ha & _).
    apply abs_nonneg. now apply passes_not_NaN.
  - intros Hq. apply (fold_left_nonneg totalIn); [reflexivity|].
    intros ms Hin. destruct (He ms Hin) as [Hms _]. rewrite Hms.
    cbn [finish totalIn expected s_totalIn].
    unfold sum_in. apply fold_left_nonneg; [reflexivity|].
    intros row Hr. apply (rows_of_In costCenterMap Date_getTime) in Hr.
    destruct Hr as (Hr & Ha & _). now apply Hq.
Qed.

End StatsFacts.





Lemma read_field_double_quotes rest : forall t,
  unquoted_start rest = true ->
  read_field (JSString.double_quotes t ++ String JSString.dquote rest)%string
  = Some (t, rest).
Proof.
  intros t Hr. induction t as [|c t IH].
  - cbn [JSString.double_quotes String.append read_field].
    rewrite Ascii.eqb_refl. destruct rest as [|c' rest']; [reflexivity|].
    cbn [unquoted_start] in Hr. apply negb_true_iff in Hr. now rewrite Hr.
  - cbn [JSString.double_quotes].
    destruct (Ascii.eqb c JSString.dquote) eqn:Ec.
    + apply Ascii.eqb_eq in Ec. subst c.
      cbn [String.append read_field]. rewrite !Ascii.eqb_refl.
      now rewrite IH.
    + cbn [String.append read_field]. rewrite Ec. now rewrite IH.
Qed.

Lemma append_append (a b c : string) :
  ((a ++ b) ++ c = a ++ (b ++ c))%string.
Proof. induction a as [|x a IH]; simpl; congruence. Qed.

Lemma quoted_reads_back t rest :
  unquoted_start rest = true ->
  read_quoted (quoted (JSString.double_quotes t) ++ rest)%string = Some (t, rest).
Proof.
  intros Hr. unfold quoted, read_quoted.
  cbn [String.append]. rewrite Ascii.eqb_refl.
  rewrite append_append. cbn [String.append].
  now apply read_field_double_quotes.
Qed.

(** X27: a quoted field of an export reads back as the text it was written
    from, whatever that text holds, commas, line breaks and double quotes
    among them: the field that [safe] writes, and the description of an
    inventory row.  What follows the field is left as it is. *)
Theorem quoted_field_reads_back v rest :
  unquoted_start rest = true ->
  (forall q, safe v = Normal q ->
             read_quoted (q ++ rest)%string
             = Some (string_of (or_else v (VString "")), rest)) /\
  (forall e, call_replace_quotes v = Normal e ->
             read_quoted (quoted e ++ rest)%string = Some (string_of v, rest)).
Proof.
  intros Hr. split.
  - unfold safe. intros q H.
    destruct (or_else v (VString "")) as [|t|n]; try discriminate.
    cbn [call_replace_quotes bind] in H. injection H as <-.
    now apply quoted_reads_back.
  - intros e H. destruct v as [|t|n]; try discriminate.
    cbn [call_replace_quotes] in H. injection H as <-.
    now apply quoted_reads_back.
Qed.

(** ** The order of the dashboard *)

Section DashboardOrder.
Import SortFacts.

Variable Date_getTime : value -> option Z.
Variable format_medium : Z -> string.

Lemma filter_sorted {A : Type} (R : A -> A -> Prop) (p : A -> bool) l :
  StronglySorted R l -> StronglySorted R (List.filter p l).
Proof.
  induction 1 as [|a l Hs IH Ha]; simpl; [constructor|].
  destruct (p a); [|exact IH]. constructor; [exact IH|].
  rewrite Forall_forall in Ha |- *. intros x Hx.
  apply filter_In in Hx. now apply Ha.
Qed.

Lemma filter_r_sorted {A : Type} (R : A -> A -> Prop) (p : A -> result bool) l :
  forall r,
  filter_r p l = Returned r ->
  (forall x, In x r -> In x l) /\
  (StronglySorted R l -> StronglySorted R r).
Proof.
  induction l as [|a l IH]; intros r H; cbn [filter_r] in H.
  - injection H as <-. split; [auto|]. intros _. constructor.
  - destruct (p a) as [b|t]; [|discriminate]. cbn [and_then] in H.
    destruct (filter_r p l) as [r'|t]; [|discriminate]. cbn [and_then] in H.
    injection H as <-. destruct (IH r' eq_refl) as [Hin Hs].
    destruct b.
    + split.
      * intros x [<-|Hx]; [now left|right; auto].
      * intros Hl. inversion Hl as [|? ? Hl' Ha]; subst.
        constructor; [auto|].
        rewrite Forall_forall in Ha |- *. auto.
    + split.
      * intros x Hx. right. auto.
      * intros Hl. inversion Hl; subst. auto.
Qed.

(** One step of the chain of filters of the dashboard. *)
Lemma filter_step_sorted {A : Type} (R : A -> A -> Prop) (skip : bool)
      (p : A -> result bool) l r :
  (if skip then Returned l else filter_r p l) = Returned r ->
  (forall x, In x r -> In x l) /\
  (StronglySorted R l -> StronglySorted R r).
Proof.
  destruct skip.
  - intros H. injection H as <-. auto.
  - apply filter_r_sorted.
Qed.

(** X29: where the transactions of the selected material all have valid
    dates, the dashboard lists its transactions newest first, receipts
    and issues together, whatever filters are on; and it lists none that
    is not a receipt or an issue of the material, with its type. *)
Theorem itemDashboard_newest_first s material d :
  selectedMaterial s = Some material ->
  (forall tx, In tx (inTransactions material ++ outTransactions material) ->
              Date_getTime (postingDate tx) <> None) ->
  itemDashboard Date_getTime format_medium s = Returned (Some d) ->
  StronglySorted (fun a b => not_before Date_getTime (base a) (base b))
                 (allTransactions d) /\
  forall tx, In tx (allTransactions d) ->
             In tx (map (tagged view_in) (inTransactions material) ++
                    map (tagged view_out) (outTransactions material)).
Proof.
  intros Hm Hv. unfold itemDashboard. rewrite Hm.
  change (map (fun t => {| base := t; type := view_in |})
              (inTransactions material))
    with (map (tagged view_in) (inTransactions material)).
  change (map (fun t => {| base := t; type := view_out |})
              (outTransactions material))
    with (map (tagged view_out) (outTransactions material)).
  set (every := map (tagged view_in) (inTransactions material) ++
                map (tagged view_out) (outTransactions material)).
  set (R := fun a b : DashboardTransaction =>
              not_before Date_getTime (base a) (base b)).
  assert (forall tx, In tx every -> time_of Date_getTime (base tx) <> None)
    as Hvalid.
  { intros tx Htx. apply Hv. subst every.
    apply in_app_or in Htx. apply in_or_app.
    destruct Htx as [Htx|Htx]; apply in_map_iff in Htx;
      destruct Htx as (t & <- & Ht); auto. }
  set (sorted := JSArray.sort
                   (fun a b => by_date_desc Date_getTime (base a) (base b))
                   every).
  assert (StronglySorted R sorted) as Hsorted.
  { apply (StronglySorted_weaken
             (fun a b => time_key Date_getTime (base b)
                         <= time_key Date_getTime (base a))).
    - intros a b Ha Hb Hab.
      apply (proj1 (In_sort _ _ _)) in Ha. apply (proj1 (In_sort _ _ _)) in Hb.
      pose proof (Hvalid a Ha) as Va. pose proof (Hvalid b Hb) as Vb.
      subst R. unfold not_before. unfold time_key in Hab.
      destruct (time_of Date_getTime (base a)),
               (time_of Date_getTime (base b)); congruence.
    - apply (sort_sorted _ (fun a => time_key Date_getTime (base a))).
      intros a b Ha Hb. unfold by_date_desc, time_key.
      pose proof (Hvalid a Ha) as Va. pose proof (Hvalid b Hb) as Vb.
      unfold time_of in *.
      destruct (Date_getTime (postingDate (base a))),
               (Date_getTime (postingDate (base b))); congruence. }
  assert (forall tx, In tx sorted -> In tx every) as Hin0.
  { intros tx Htx. now apply (proj1 (In_sort _ _ _)) in Htx. }
  set (moved := match f_movement (dashboardFilters s) with
                | Some movement =>
                    List.filter (fun tx => same_type (type tx) movement) sorted
                | None => sorted
                end).
  assert (StronglySorted R moved /\ forall tx, In tx moved -> In tx every)
    as [Hs1 Hin1].
  { subst moved. destruct (f_movement (dashboardFilters s)); [|auto].
    split; [now apply filter_sorted|].
    intros tx Htx. apply filter_In in Htx. now apply Hin0. }
  clearbody moved sorted.
  match goal with
  | |- and_then ?c _ = _ -> _ => destruct c as [l2|t] eqn:E2; [|discriminate]
  end.
  destruct (filter_step_sorted R _ _ _ _ E2) as [Hin2 Hs2]. cbn [and_then].
  match goal with
  | |- and_then ?c _ = _ -> _ => destruct c as [l3|t] eqn:E3; [|discriminate]
  end.
  destruct (filter_step_sorted R _ _ _ _ E3) as [Hin3 Hs3]. cbn [and_then].
  match goal with
  | |- and_then ?c _ = _ -> _ => destruct c as [l4|t] eqn:E4; [|discriminate]
  end.
  destruct (filter_step_sorted R _ _ _ _ E4) as [Hin4 Hs4]. cbn [and_then].
  match goal with
  | |- and_then ?c _ = _ -> _ => destruct c as [l5|t] eqn:E5; [|discriminate]
  end.
  destruct (filter_step_sorted R _ _ _ _ E5) as [Hin5 Hs5]. cbn [and_then].
  intros H. injection H as <-. cbn [allTransactions]. split; [auto|].
  intros tx Htx. auto 10.
Qed.

End DashboardOrder.

(** ** The order of the sort by balance *)

Lemma digits2_pos_spec m :
  2 ^ (Zpos (digits2_pos m) - 1) <= Zpos m < 2 ^ Zpos (digits2_pos m).
Proof.
  induction m as [m IH|m IH|]; cbn [digits2_pos].
  - rewrite Pos2Z.inj_succ.
    replace (Z.succ (Zpos (digits2_pos m)) - 1) with (Z.succ (Zpos (digits2_pos m) - 1)) by lia.
    rewrite !Z.pow_succ_r by lia. lia.
  - rewrite Pos2Z.inj_succ.
    replace (Z.succ (Zpos (digits2_pos m)) - 1) with (Z.succ (Zpos (digits2_pos m) - 1)) by lia.
    rewrite !Z.pow_succ_r by lia. lia.
  - simpl. lia.
Qed.

Lemma iter_xO m d : Zpos (Pos.iter xO m d) = Zpos m * 2 ^ Zpos d.
Proof.
  induction d as [|d IH] using Pos.peano_ind.
  - simpl. lia.
  - rewrite Pos.iter_succ, Pos2Z.inj_succ, Z.pow_succ_r by lia.
    rewrite Pos2Z.inj_xO, IH. lia.
Qed.

Lemma fexp_eq x : fexp prec emax x = Z.max (x - 53) (-1074).
Proof. reflexivity. Qed.

Lemma bounded_canonical m e :
  bounded prec emax m e = true ->
  -1074 <= e /\ Zpos (digits2_pos m) <= 53 /\
  (-1074 < e -> Zpos (digits2_pos m) = 53).
Proof.
  unfold bounded, canonical_mantissa. intros H.
  apply andb_true_iff in H. destruct H as [H _].
  apply Z.eqb_eq in H. rewrite fexp_eq in H. lia.
Qed.

Lemma canonical_lt m1 e1 m2 e2 :
  bounded prec emax m1 e1 = true -> bounded prec emax m2 e2 = true ->
  e1 < e2 -> Zpos m1 < Zpos m2 * 2 ^ (e2 - e1).
Proof.
  intros H1 H2 He.
  destruct (bounded_canonical _ _ H1) as (L1 & D1 & _).
  destruct (bounded_canonical _ _ H2) as (_ & _ & D2).
  specialize (D2 ltac:(lia)).
  pose proof (digits2_pos_spec m1) as B1.
  pose proof (digits2_pos_spec m2) as B2. rewrite D2 in B2.
  assert (2 ^ Zpos (digits2_pos m1) <= 2 ^ 53) as P1
      by (apply Z.pow_le_mono_r; lia).
  assert (2 ^ 1 <= 2 ^ (e2 - e1)) as P2 by (apply Z.pow_le_mono_r; lia).
  change (2 ^ 1) with 2 in P2. change (2 ^ (53 - 1)) with 4503599627370496 in B2.
  change (2 ^ 53) with 9007199254740992 in *.
  nia.
Qed.

Lemma key_scale m e e' :
  -1074 <= e' <= e ->
  Zpos m * 2 ^ (e + 1074) = Zpos m * 2 ^ (e - e') * 2 ^ (e' + 1074).
Proof.
  intros H. rewrite <- Z.mul_assoc, <- Z.pow_add_r by lia. f_equal. f_equal. lia.
Qed.

Lemma compare_key x y :
  SpecFloat.valid_binary prec emax x = true ->
  SpecFloat.valid_binary prec emax y = true ->
  sf_finite x = true -> sf_finite y = true ->
  SFcompare x y = Some (sf_scaled x ?= sf_scaled y).
Proof.
  destruct x as [sx|sx| |sx mx ex], y as [sy|sy| |sy my ey];
    try discriminate; cbn [SpecFloat.valid_binary sf_finite sf_scaled SFcompare];
    intros Vx Vy _ _.
  - reflexivity.
  - f_equal. destruct (bounded_canonical _ _ Vy) as (L & _).
    assert (0 < 2 ^ (ey + 1074)) by (apply Z.pow_pos_nonneg; lia).
    destruct sy; cbn [cond_Zopp]; symmetry.
    + apply Z.compare_gt_iff. nia.
    + apply Z.compare_lt_iff. nia.
  - f_equal. destruct (bounded_canonical _ _ Vx) as (L & _).
    assert (0 < 2 ^ (ex + 1074)) by (apply Z.pow_pos_nonneg; lia).
    destruct sx; cbn [cond_Zopp]; symmetry.
    + apply Z.compare_lt_iff. nia.
    + apply Z.compare_gt_iff. nia.
  - f_equal.
    destruct (bounded_canonical _ _ Vx) as (Lx & _).
    destruct (bounded_canonical _ _ Vy) as (Ly & _).
    assert (0 < 2 ^ (ex + 1074)) as Px by (apply Z.pow_pos_nonneg; lia).
    assert (0 < 2 ^ (ey + 1074)) as Py by (apply Z.pow_pos_nonneg; lia).
    assert (ex < ey -> Zpos mx * 2 ^ (ex + 1074) < Zpos my * 2 ^ (ey + 1074))
      as Hlt.
    { intros He. pose proof (canonical_lt _ _ _ _ Vx Vy He) as Hc.
      rewrite (key_scale my ey ex) by lia. nia. }
    assert (ey < ex -> Zpos my * 2 ^ (ey + 1074) < Zpos mx * 2 ^ (ex + 1074))
      as Hgt.
    { intros He. pose proof (canonical_lt _ _ _ _ Vy Vx He) as Hc.
      rewrite (key_scale mx ex ey) by lia. nia. }
    fold (Pos.compare mx my).
    destruct sx, sy; cbn [cond_Zopp]; symmetry.
    + destruct (Z.compare_spec ex ey) as [He|He|He].
      * subst ey. destruct (Pos.compare_spec mx my) as [Hm|Hm|Hm]; cbn [CompOpp].
        -- subst. apply Z.compare_eq_iff. reflexivity.
        -- apply Z.compare_gt_iff. nia.
        -- apply Z.compare_lt_iff. nia.
      * apply Z.compare_gt_iff. specialize (Hlt He). lia.
      * apply Z.compare_lt_iff. specialize (Hgt He). lia.
    + apply Z.compare_lt_iff. nia.
    + apply Z.compare_gt_iff. nia.
    + destruct (Z.compare_spec ex ey) as [He|He|He].
      * subst ey. destruct (Pos.compare_spec mx my) as [Hm|Hm|Hm].
        -- subst. apply Z.compare_eq_iff. reflexivity.
        -- apply Z.compare_lt_iff. nia.
        -- apply Z.compare_gt_iff. nia.
      * apply Z.compare_lt_iff. now apply Hlt.
      * apply Z.compare_gt_iff. now apply Hgt.
Qed.

Lemma shr_1_lower mrs k : 2 * k <= shr_m mrs -> k <= shr_m (shr_1 mrs).
Proof.
  destruct mrs as [m r s]. cbn [shr_m shr_1].
  destruct m as [|p|p]; cbn [shr_m]; try lia; destruct p; cbn [shr_m]; lia.
Qed.

Lemma iter_shr_1_lower n : forall mrs k,
  0 <= k ->
  2 ^ Zpos n * k <= shr_m mrs -> k <= shr_m (SpecFloat.iter_pos shr_1 n mrs).
Proof.
  induction n as [n IH|n IH|]; intros mrs k Hk H; cbn [SpecFloat.iter_pos].
  - assert (0 < 2 ^ Zpos n) as P by (apply Z.pow_pos_nonneg; lia).
    assert (2 ^ Zpos n~1 = 2 * (2 ^ Zpos n * 2 ^ Zpos n)) as E.
    { rewrite <- Z.pow_add_r, <- Z.pow_succ_r by lia. f_equal. lia. }
    rewrite E in H.
    apply IH; [exact Hk|]. apply IH; [nia|]. apply shr_1_lower. nia.
  - assert (0 < 2 ^ Zpos n) as P by (apply Z.pow_pos_nonneg; lia).
    assert (2 ^ Zpos n~0 = 2 ^ Zpos n * 2 ^ Zpos n) as E.
    { rewrite <- Z.pow_add_r by lia. f_equal. lia. }
    rewrite E in H.
    apply IH; [exact Hk|]. apply IH; [nia|]. nia.
  - apply shr_1_lower. change (2 ^ 1) with 2 in H. exact H.
Qed.

Lemma shr_fexp_pos m e l :
  0 < m -> -1074 <= e ->
  0 < shr_m (fst (shr_fexp prec emax m e l)) /\
  -1074 <= snd (shr_fexp prec emax m e l).
Proof.
  intros Hm He. unfold shr_fexp, shr. rewrite fexp_eq.
  destruct m as [|p|p]; try lia. cbn [Zdigits2].
  pose proof (digits2_pos_spec p) as B.
  destruct (Z.max (Zpos (digits2_pos p) + e - 53) (-1074) - e) as [|q|q] eqn:E;
    cbn [fst snd]; rewrite ?FloatFacts.shr_record_of_loc_m; try lia.
  split; [|lia].
  apply Z.lt_le_incl in Hm. 
  assert (1 <= shr_m (SpecFloat.iter_pos shr_1 q (shr_record_of_loc (Zpos p) l)));
    [|lia].
  apply iter_shr_1_lower; [lia|].
  rewrite FloatFacts.shr_record_of_loc_m.
  assert (2 ^ Zpos q <= 2 ^ (Zpos (digits2_pos p) - 1))
    by (apply Z.pow_le_mono_r; lia).
  lia.
Qed.

Lemma round_nearest_even_pos m l : 0 < m -> 0 < round_nearest_even m l.
Proof.
  intros H. unfold round_nearest_even.
  destruct l as [|[]]; try lia. destruct (Z.even m); lia.
Qed.

(** Rounding a value that is at least the least subnormal never gives
    zero: the result is a finite Number or an infinity of the same sign. *)
Lemma binary_round_aux_sign s m e l :
  0 < m -> -1074 <= e ->
  sf_sign (binary_round_aux prec emax s m e l) = if s then -1 else 1.
Proof.
  intros Hm He. unfold binary_round_aux.
  destruct (shr_fexp_pos m e l Hm He) as [H1 E1].
  destruct (shr_fexp prec emax m e l) as [mrs' e']. cbn [fst snd] in H1, E1.
  pose proof (round_nearest_even_pos _ (loc_of_shr_record mrs') H1) as H2.
  destruct (shr_fexp_pos _ e' loc_Exact H2 E1) as [H3 _].
  destruct (shr_fexp prec emax
              (round_nearest_even (shr_m mrs') (loc_of_shr_record mrs'))
              e' loc_Exact) as [mrs'' e''].
  cbn [fst] in H3.
  destruct (shr_m mrs'') as [|p|p]; try lia.
  destruct (e'' <=? emax - prec); destruct s; reflexivity.
Qed.

Lemma binary_round_sign s m e :
  -1074 <= e -> sf_sign (binary_round prec emax s m e) = if s then -1 else 1.
Proof.
  intros He. unfold binary_round, shl_align. rewrite fexp_eq.
  destruct (Z.max (Zpos (digits2_pos m) + e - 53) (-1074) - e) eqn:E;
    apply binary_round_aux_sign; lia.
Qed.

Lemma shl_align_fst m e e' :
  e' <= e -> Zpos (fst (shl_align m e e')) = Zpos m * 2 ^ (e - e').
Proof.
  intros H. unfold shl_align.
  destruct (e' - e) as [|d|d] eqn:E; cbn [fst]; try lia.
  - replace (e - e') with 0 by lia. lia.
  - rewrite iter_xO. f_equal. f_equal. lia.
Qed.

Lemma sgn_compare a b :
  Z.sgn (a - b) = match a ?= b with Lt => -1 | Eq => 0 | Gt => 1 end.
Proof. destruct (Z.compare_spec a b); lia. Qed.

(** The sign of a difference of finite Numbers is the sign of the exact
    difference: the subtraction underflows gradually. *)
Lemma SFsub_sign x y :
  SpecFloat.valid_binary prec emax x = true ->
  SpecFloat.valid_binary prec emax y = true ->
  sf_finite x = true -> sf_finite y = true ->
  sf_sign (SF64sub x y) = Z.sgn (sf_scaled x - sf_scaled y).
Proof.
  destruct x as [sx|sx| |sx mx ex], y as [sy|sy| |sy my ey];
    try discriminate; cbn [SpecFloat.valid_binary sf_finite sf_scaled];
    intros Vx Vy _ _; unfold SF64sub; cbn [SFsub].
  - destruct sx, sy; reflexivity.
  - destruct (bounded_canonical _ _ Vy) as (L & _).
    assert (0 < 2 ^ (ey + 1074)) by (apply Z.pow_pos_nonneg; lia).
    assert (0 < Zpos my * 2 ^ (ey + 1074)) by nia.
    destruct sy; cbn [cond_Zopp negb]; unfold sf_sign, SFltb;
      cbn [SFcompare]; lia.
  - destruct (bounded_canonical _ _ Vx) as (L & _).
    assert (0 < 2 ^ (ex + 1074)) by (apply Z.pow_pos_nonneg; lia).
    assert (0 < Zpos mx * 2 ^ (ex + 1074)) by nia.
    destruct sx; cbn [cond_Zopp]; unfold sf_sign, SFltb;
      cbn [SFcompare]; lia.
  - destruct (bounded_canonical _ _ Vx) as (Lx & _).
    destruct (bounded_canonical _ _ Vy) as (Ly & _).
    set (ez := Z.min ex ey).
    assert (-1074 <= ez) as Lz by (subst ez; lia).
    rewrite (key_scale mx ex ez), (key_scale my ey ez) by (subst ez; lia).
    pose proof (shl_align_fst mx ex ez ltac:(subst ez; lia)) as Ax.
    pose proof (shl_align_fst my ey ez ltac:(subst ez; lia)) as Ay.
    rewrite <- Ax, <- Ay.
    set (X := Zpos (fst (shl_align mx ex ez))).
    set (Y := Zpos (fst (shl_align my ey ez))).
    assert (0 < 2 ^ (ez + 1074)) as P by (apply Z.pow_pos_nonneg; lia).
    set (D := cond_Zopp sx X - cond_Zopp sy Y).
    assert (Z.sgn (cond_Zopp sx (X * 2 ^ (ez + 1074)) -
                   cond_Zopp sy (Y * 2 ^ (ez + 1074))) = Z.sgn D) as ->.
    { subst D. destruct sx, sy; cbn [cond_Zopp]; nia. }
    unfold binary_normalize. destruct D as [|d|d] eqn:ED.
    + reflexivity.
    + now rewrite binary_round_sign.
    + now rewrite binary_round_sign.
Qed.

Lemma SFopp_sign r : sf_sign (SFopp r) = - sf_sign r.
Proof. destruct r as [s|s| |s m e]; try destruct s; reflexivity. Qed.

Lemma sign_of_sf v : sign_of v = sf_sign (Prim2SF v).
Proof.
  unfold sign_of, sf_sign. now rewrite !FloatAxioms.ltb_spec.
Qed.

Lemma sub_sign x y :
  isFinite x = true -> isFinite y = true ->
  sign_of (x - y) = Z.sgn (scaled x - scaled y).
Proof.
  intros Hx Hy. rewrite sign_of_sf, FloatAxioms.sub_spec.
  apply SFsub_sign; auto using FloatAxioms.Prim2SF_valid.
Qed.

Lemma opp_sign v : sign_of (- v) = - sign_of v.
Proof. rewrite !sign_of_sf, FloatAxioms.opp_spec. apply SFopp_sign. Qed.

Lemma leb_key x y :
  isFinite x = true -> isFinite y = true ->
  (x <=? y)%float = (scaled x <=? scaled y).
Proof.
  intros Hx Hy. rewrite FloatAxioms.leb_spec. unfold SFleb.
  rewrite (compare_key _ _ (FloatAxioms.Prim2SF_valid x)
                       (FloatAxioms.Prim2SF_valid y) Hx Hy).
  unfold scaled, Z.leb. now destruct (sf_scaled (Prim2SF x) ?= sf_scaled (Prim2SF y)).
Qed.

Lemma eqb_key x y :
  isFinite x = true -> isFinite y = true ->
  (x =? y)%float = (scaled x =? scaled y).
Proof.
  intros Hx Hy. rewrite FloatAxioms.eqb_spec. unfold SFeqb.
  rewrite (compare_key _ _ (FloatAxioms.Prim2SF_valid x)
                       (FloatAxioms.Prim2SF_valid y) Hx Hy).
  unfold scaled, Z.eqb.
  destruct (Z.compare_spec (sf_scaled (Prim2SF x)) (sf_scaled (Prim2SF y))) as [E|E|E].
  - rewrite E. now destruct (sf_scaled (Prim2SF y)); rewrite ?Pos.eqb_refl.
  - destruct (sf_scaled (Prim2SF x)), (sf_scaled (Prim2SF y)); try reflexivity;
      try lia; symmetry; apply Pos.eqb_neq; lia.
  - destruct (sf_scaled (Prim2SF x)), (sf_scaled (Prim2SF y)); try reflexivity;
      try lia; symmetry; apply Pos.eqb_neq; lia.
Qed.

Section Ascending.
Context {A : Type} (cmp : A -> A -> Z) (rank : A -> Z).

Lemma insert_ascending x l :
  (forall y, In y l -> (0 <? cmp x y) = (rank y <? rank x)) ->
  StronglySorted (fun a b => rank a <= rank b) l ->
  StronglySorted (fun a b => rank a <= rank b) (JSArray.insert cmp x l).
Proof.
  induction l as [|y l IH]; simpl; intros Hc Hs.
  - repeat constructor.
  - inversion Hs as [|? ? Hs' Hy]; subst.
    rewrite (Hc y (or_introl eq_refl)).
    destruct (rank y <? rank x) eqn:E.
    + apply Z.ltb_lt in E. constructor.
      * apply IH; auto.
      * apply Forall_forall. intros z Hz.
        apply (Permutation_in _ (Permutation_sym (SortFacts.insert_perm cmp x l)))
          in Hz.
        destruct Hz as [<-|Hz]; [lia|].
        rewrite Forall_forall in Hy. now apply Hy.
    + apply Z.ltb_ge in E. constructor; [exact Hs|].
      constructor; [lia|].
      rewrite Forall_forall in Hy |- *. intros z Hz.
      specialize (Hy z Hz). lia.
Qed.

Lemma sort_ascending l :
  (forall a b, In a l -> In b l -> (0 <? cmp a b) = (rank b <? rank a)) ->
  StronglySorted (fun a b => rank a <= rank b) (JSArray.sort cmp l).
Proof.
  induction l as [|x l IH]; intros Hc; [constructor|].
  rewrite SortFacts.sort_cons. apply insert_ascending.
  - intros y Hy. apply (proj1 (SortFacts.In_sort _ _ _)) in Hy.
    apply Hc; simpl; auto.
  - apply IH. intros a b Ha Hb. apply Hc; simpl; auto.
Qed.

Lemma insert_stable t x l :
  (forall y, In y l -> (0 <? cmp x y) = (rank y <? rank x)) ->
  List.filter (fun a => rank a =? t) (JSArray.insert cmp x l) =
  List.filter (fun a => rank a =? t) (x :: l).
Proof.
  induction l as [|y l IH]; simpl; intros Hc; [reflexivity|].
  rewrite (Hc y (or_introl eq_refl)).
  destruct (rank y <? rank x) eqn:E; [|reflexivity].
  apply Z.ltb_lt in E. simpl. rewrite IH by auto. simpl.
  destruct (rank x =? t) eqn:Ex, (rank y =? t) eqn:Ey; try reflexivity.
  apply Z.eqb_eq in Ex, Ey. lia.
Qed.

Lemma sort_stable t l :
  (forall a b, In a l -> In b l -> (0 <? cmp a b) = (rank b <? rank a)) ->
  List.filter (fun a => rank a =? t) (JSArray.sort cmp l) =
  List.filter (fun a => rank a =? t) l.
Proof.
  induction l as [|x l IH]; intros Hc; [reflexivity|].
  rewrite SortFacts.sort_cons, insert_stable.
  - simpl. rewrite IH; [reflexivity|].
    intros a b Ha Hb. apply Hc; simpl; auto.
  - intros y Hy. apply (proj1 (SortFacts.In_sort _ _ _)) in Hy.
    apply Hc; simpl; auto.
Qed.

End Ascending.

Lemma filter_c_subset {A : Type} (p : A -> completion bool) l : forall r x,
  filter_c p l = Normal r -> In x r -> In x l.
Proof.
  induction l as [|a l IH]; intros r x H Hin; cbn [filter_c] in H.
  - injection H as <-. exact Hin.
  - destruct (p a) as [b|e]; [|discriminate]. cbn [bind] in H.
    destruct (filter_c p l) as [r'|e]; [|discriminate]. cbn [bind] in H.
    injection H as <-. destruct b.
    + destruct Hin as [<-|Hin]; [now left|right; eauto].
    + right. eauto.
Qed.

Lemma baseFilteredInventory_subset s items x :
  baseFilteredInventory s = Normal items -> In x items -> In x (inventoryData s).
Proof.
  unfold baseFilteredInventory. intros H Hin.
  assert (forall y,
            In y match movementTypeFilter s with
                 | all =>
                     if showLowStockOnly s
                     then List.filter
                            (fun item => (balance item <=? lowStockThreshold)%float)
                            (inventoryData s)
                     else inventoryData s
                 | only101 =>
                     List.filter (fun item => (0 <? totalIn item)%float)
                       (if showLowStockOnly s
                        then List.filter
                               (fun item => (balance item <=? lowStockThreshold)%float)
                               (inventoryData s)
                        else inventoryData s)
                 | only201 =>
                     List.filter (fun item => (0 <? totalOut item)%float)
                       (if showLowStockOnly s
                        then List.filter
                               (fun item => (balance item <=? lowStockThreshold)%float)
                               (inventoryData s)
                        else inventoryData s)
                 end -> In y (inventoryData s)) as Hsub.
  { intros y Hy.
    destruct (movementTypeFilter s); try (apply filter_In in Hy; destruct Hy as [Hy _]);
      destruct (showLowStockOnly s); try (apply filter_In in Hy; destruct Hy as [Hy _]);
      exact Hy. }
  destruct (String.eqb _ "").
  - injection H as <-. now apply Hsub.
  - apply Hsub. exact (filter_c_subset _ _ _ _ H Hin).
Qed.

Section ByBalance.
Variable localeCompare : string -> string -> float.

Lemma compare_by_balance config a b :
  column config = col_balance ->
  isFinite (balance a) = true -> isFinite (balance b) = true ->
  (0 <? compare_items localeCompare config a b)
  = (rank_of (direction config) b <? rank_of (direction config) a).
Proof.
  intros Hc Ha Hb. unfold compare_items, rank_of. rewrite Hc.
  destruct (direction config).
  - rewrite (sub_sign _ _ Ha Hb).
    destruct (Z.ltb_spec (scaled (balance b)) (scaled (balance a)));
      [apply Z.ltb_lt|apply Z.ltb_ge]; lia.
  - rewrite opp_sign, (sub_sign _ _ Ha Hb).
    destruct (Z.ltb_spec (- scaled (balance b)) (- scaled (balance a)));
      [apply Z.ltb_lt|apply Z.ltb_ge]; lia.
Qed.

(** X28: sorted by balance, the inventory is in the order of the balances
    where these are finite, ascending or descending as the direction says,
    and items of equal balance keep the order they had in the filtered
    inventory. *)
Theorem sortedInventory_by_balance s items sorted :
  baseFilteredInventory s = Normal items ->
  sortedInventory localeCompare s = Normal sorted ->
  column (sortConfig s) = col_balance ->
  (forall item, In item (inventoryData s) -> isFinite (balance item) = true) ->
  StronglySorted
    (fun a b =>
       match direction (sortConfig s) with
       | asc => (balance a <=? balance b)%float = true
       | desc => (balance b <=? balance a)%float = true
       end) sorted /\
  forall x, isFinite x = true ->
    List.filter (fun a => (balance a =? x)%float) sorted =
    List.filter (fun a => (balance a =? x)%float) items.
Proof.
  intros Hb Hs Hc Hf. unfold sortedInventory in Hs. rewrite Hb in Hs.
  cbn [bind] in Hs. injection Hs as <-.
  assert (forall a, In a items -> isFinite (balance a) = true) as Hfi.
  { intros a Ha. apply Hf. exact (baseFilteredInventory_subset _ _ _ Hb Ha). }
  assert (forall a b, In a items -> In b items ->
            (0 <? compare_items localeCompare (sortConfig s) a b)
            = (rank_of (direction (sortConfig s)) b
               <? rank_of (direction (sortConfig s)) a)) as Hcmp.
  { intros a b Ha Hb'. apply compare_by_balance; auto. }
  split.
  - apply (StronglySorted_weaken
             (fun a b => rank_of (direction (sortConfig s)) a
                         <= rank_of (direction (sortConfig s)) b)).
    + intros a b Ha Hb' Hab.
      apply (proj1 (SortFacts.In_sort _ _ _)) in Ha.
      apply (proj1 (SortFacts.In_sort _ _ _)) in Hb'.
      unfold rank_of in Hab.
      destruct (direction (sortConfig s)); rewrite leb_key by auto;
        apply Z.leb_le; lia.
    + now apply sort_ascending.
  - intros x Hx.
    assert (forall l, (forall a, In a l -> In a items) ->
              List.filter (fun a => (balance a =? x)%float) l =
              List.filter
                (fun a => rank_of (direction (sortConfig s)) a
                          =? match direction (sortConfig s) with
                             | asc => scaled x
                             | desc => - scaled x
                             end) l) as Hkey.
    { intros l Hl. apply filter_ext_in. intros a Ha.
      rewrite eqb_key by auto. unfold rank_of.
      destruct (direction (sortConfig s)); [reflexivity|].
      destruct (Z.eqb_spec (scaled (balance a)) (scaled x)) as [E|E];
        symmetry; [apply Z.eqb_eq|apply Z.eqb_neq]; lia. }
    rewrite !Hkey.
    + now apply sort_stable.
    + auto.
    + intros a Ha. now apply (proj1 (SortFacts.In_sort _ _ _)) in Ha.
Qed.

End ByBalance.

(** ** Further examples *)

(** The ledger: M1 first appears before M2. *)
Lemma processData_first_appearance_order_witness :
  Sample.processData Sample.ledger = Normal Sample.ledger_summaries /\
  map material Sample.ledger_summaries =
  distinct_first
    (map (material_of (columns_of (headers Sample.ledger)))
         (List.filter (passes (columns_of (headers Sample.ledger)))
                      (rows Sample.ledger))).
Proof.
  assert (Sample.processData Sample.ledger = Normal Sample.ledger_summaries)
    as H1 by (vm_compute; reflexivity).
  split; [exact H1|].
  exact (processData_first_appearance_order
           Sample.costCenterMap Sample.Date_getTime _ _ H1).
Defined.

Lemma processData_one_summary_per_material_witness :
  Sample.processData Sample.ledger = Normal Sample.ledger_summaries /\
  ForallOrdPairs
    (fun a b => same_value_zero (material a) (material b) = false)
    Sample.ledger_summaries.
Proof.
  assert (Sample.processData Sample.ledger = Normal Sample.ledger_summaries)
    as H1 by (vm_compute; reflexivity).
  split; [exact H1|].
  exact (processData_one_summary_per_material
           Sample.costCenterMap Sample.Date_getTime _ _ H1).
Defined.

(** M1 in the ledger: three receipts and one issue, of four rows. *)
Lemma processData_transaction_count_witness :
  Sample.processData Sample.ledger = Normal Sample.ledger_summaries /\
  In Sample.ledger_M1 Sample.ledger_summaries /\
  (List.length (inTransactions Sample.ledger_M1) +
   List.length (outTransactions Sample.ledger_M1))%nat =
  List.length
    (List.filter
       (fun row =>
          passes (columns_of (headers Sample.ledger)) row
          && same_value_zero
               (material_of (columns_of (headers Sample.ledger)) row)
               (material Sample.ledger_M1))
       (rows Sample.ledger)).
Proof.
  assert (Sample.processData Sample.ledger = Normal Sample.ledger_summaries)
    as H1 by (vm_compute; reflexivity).
  assert (In Sample.ledger_M1 Sample.ledger_summaries)
    as H2 by (left; reflexivity).
  split; [exact H1|]. split; [exact H2|].
  exact (processData_transaction_count
           Sample.costCenterMap Sample.Date_getTime _ _ _ H1 H2).
Defined.

(** The issue of M1 in the ledger. *)
Lemma processData_quantities_nonnegative_witness :
  Sample.processData Sample.ledger = Normal Sample.ledger_summaries /\
  In Sample.ledger_M1 Sample.ledger_summaries /\
  In (Sample.entry (VString "2024-02-01") 4 "ben" "Production")
     (inTransactions Sample.ledger_M1 ++ outTransactions Sample.ledger_M1) /\
  (0 <=? quantity (Sample.entry (VString "2024-02-01") 4 "ben" "Production"))%float
  = true.
Proof.
  assert (Sample.processData Sample.ledger = Normal Sample.ledger_summaries)
    as H1 by (vm_compute; reflexivity).
  assert (In Sample.ledger_M1 Sample.ledger_summaries)
    as H2 by (left; reflexivity).
  assert (In (Sample.entry (VString "2024-02-01") 4 "ben" "Production")
             (inTransactions Sample.ledger_M1 ++
              outTransactions Sample.ledger_M1))
    as H3 by (simpl; auto).
  split; [exact H1|]. split; [exact H2|]. split; [exact H3|].
  exact (processData_quantities_nonnegative
           Sample.costCenterMap Sample.Date_getTime _ _ _ _ H1 H2 H3).
Defined.

(** The table whose one row has the number 101 for a movement type does
    not go through; the ledger does, and not every row of it is skipped. *)
Lemma processData_empty_iff_witness :
  Sample.processData Sample.ledger = Normal Sample.ledger_summaries /\
  (Sample.ledger_summaries = [] <->
   forall row, In row (rows Sample.ledger) ->
               passes (columns_of (headers Sample.ledger)) row = false).
Proof.
  assert (Sample.processData Sample.ledger = Normal Sample.ledger_summaries)
    as H1 by (vm_compute; reflexivity).
  split; [exact H1|].
  exact (processData_empty_iff
           Sample.costCenterMap Sample.Date_getTime _ _ H1).
Defined.

(** The ledger without its third row, whose quantity is no number. *)
Lemma processData_skipped_rows_irrelevant_witness :
  Sample.processData Sample.ledger = Normal Sample.ledger_summaries /\
  Sample.processData
    {| headers := headers Sample.ledger;
       rows := List.filter (passes (columns_of (headers Sample.ledger)))
                           (rows Sample.ledger) |}
  = Normal Sample.ledger_summaries.
Proof.
  assert (Sample.processData Sample.ledger = Normal Sample.ledger_summaries)
    as H1 by (vm_compute; reflexivity).
  split; [exact H1|].
  exact (processData_skipped_rows_irrelevant
           Sample.costCenterMap Sample.Date_getTime _ _ H1).
Defined.

(** The receipt of [bolts], a table of the required columns only. *)
Lemma processData_absent_optional_columns_witness :
  Sample.processData Sample.bolts = Normal [Sample.bolts_M1] /\
  ~ In "Posting Date" (headers Sample.bolts) /\
  ~ In "User Name" (headers Sample.bolts) /\
  postingDate (Sample.entry undefined 10 "" "") = undefined /\
  user (Sample.entry undefined 10 "" "") = VString "".
Proof.
  assert (Sample.processData Sample.bolts = Normal [Sample.bolts_M1])
    as H1 by (vm_compute; reflexivity).
  assert (In Sample.bolts_M1 [Sample.bolts_M1]) as H2 by (left; reflexivity).
  assert (In (Sample.entry undefined 10 "" "")
             (inTransactions Sample.bolts_M1 ++
              outTransactions Sample.bolts_M1))
    as H3 by (left; reflexivity).
  assert (~ In "Posting Date" (headers Sample.bolts)) as H4.
  { simpl. intros [H|[H|[H|[H|[H|[]]]]]]; discriminate. }
  assert (~ In "User Name" (headers Sample.bolts)) as H5.
  { simpl. intros [H|[H|[H|[H|[H|[]]]]]]; discriminate. }
  destruct (processData_absent_optional_columns
              Sample.costCenterMap Sample.Date_getTime _ _ _ _ H1 H2 H3)
    as (Hd & Hu & _).
  split; [exact H1|]. split; [exact H4|]. split; [exact H5|].
  split; [exact (Hd H4)|exact (Hu H5)].
Defined.

(** Balances 5, 10 and 11 with the low-stock filter on. *)
Lemma baseFilteredInventory_is_one_filter_witness :
  Forall typed_item (inventoryData Sample.low_stock_only) /\
  baseFilteredInventory Sample.low_stock_only =
  Normal (List.filter (shown Sample.low_stock_only)
                      (inventoryData Sample.low_stock_only)).
Proof.
  assert (Forall typed_item (inventoryData Sample.low_stock_only)) as H.
  { repeat constructor; eexists; eexists; split; reflexivity. }
  split; [exact H|].
  exact (baseFilteredInventory_is_one_filter _ H).
Defined.

(** Thirty items on three pages. *)
Lemma pages_partition_sorted_inventory_witness :
  sortedInventory Sample.localeCompare Session.crowded
  = Normal Session.crowded_sorted /\
  totalPages Session.crowded = Normal 3 /\
  List.concat (map (page_of Sample.localeCompare Session.crowded) (pages_upto 3))
  = Session.crowded_sorted.
Proof.
  assert (sortedInventory Sample.localeCompare Session.crowded
          = Normal Session.crowded_sorted) as H1 by reflexivity.
  assert (totalPages Session.crowded = Normal 3)
    as H2 by (vm_compute; reflexivity).
  split; [exact H1|]. split; [exact H2|].
  exact (pages_partition_sorted_inventory _ _ _ _ H1 H2).
Defined.

(** The third page of the thirty items is not empty; the fourth is. *)
Lemma pages_within_and_beyond_witness :
  sortedInventory Sample.localeCompare Session.crowded
  = Normal Session.crowded_sorted /\
  totalPages Session.crowded = Normal 3 /\
  page_of Sample.localeCompare Session.crowded 3 <> [] /\
  page_of Sample.localeCompare Session.crowded 4 = [].
Proof.
  assert (sortedInventory Sample.localeCompare Session.crowded
          = Normal Session.crowded_sorted) as H1 by reflexivity.
  assert (totalPages Session.crowded = Normal 3)
    as H2 by (vm_compute; reflexivity).
  split; [exact H1|]. split; [exact H2|]. split.
  - apply (pages_within_and_beyond _ _ _ _ 3 H1 H2). lia.
  - apply (pages_within_and_beyond _ _ _ _ 4 H1 H2). lia.
Defined.

(** From the second of three pages. *)
Lemma navigation_stays_in_range_witness :
  totalPages Session.crowded = Normal 3 /\
  1 <= currentPage Session.crowded <= 3 /\
  bind (nextPage Session.crowded) prevPage = Normal Session.crowded.
Proof.
  assert (totalPages Session.crowded = Normal 3)
    as H1 by (vm_compute; reflexivity).
  assert (1 <= currentPage Session.crowded <= 3) as H2 by (simpl; lia).
  destruct (navigation_stays_in_range _ _ H1 H2) as (_ & _ & _ & H).
  split; [exact H1|]. split; [exact H2|]. apply H. simpl. lia.
Defined.

(** Page 5 of three. *)
Lemma stale_page_is_stuck_witness :
  sortedInventory Sample.localeCompare Session.stale
  = Normal Session.crowded_sorted /\
  totalPages Session.stale = Normal 3 /\
  3 + 1 < currentPage Session.stale /\
  paginatedInventory Sample.localeCompare Session.stale = Normal [] /\
  nextPage Session.stale = Normal Session.stale /\
  prevPage Session.stale = Normal Session.stale.
Proof.
  assert (sortedInventory Sample.localeCompare Session.stale
          = Normal Session.crowded_sorted) as H1 by reflexivity.
  assert (totalPages Session.stale = Normal 3)
    as H2 by (vm_compute; reflexivity).
  assert (3 + 1 < currentPage Session.stale) as H3 by (simpl; lia).
  split; [exact H1|]. split; [exact H2|]. split; [exact H3|].
  exact (stale_page_is_stuck _ _ _ _ H1 H2 H3).
Defined.

(** The receipts of M1 between the first of January and the end of
    December 2024: the receipt of the first of March is listed. *)
Lemma detailed_view_range_inclusive_witness :
  detailedViewType Sample.viewing = Some view_in /\
  selectedMaterial Sample.viewing = Some Sample.ledger_M1 /\
  exists view,
    Session.detailedTransactionsView Sample.viewing = Some view /\
    In (Sample.entry (VString "2024-03-01") 0 "cy" "") (d_transactions view).
Proof.
  split; [reflexivity|]. split; [reflexivity|].
  destruct (detailed_view_range_inclusive
              Sample.Date_getTime Sample.startOfDay Sample.endOfDay
              Sample.viewing view_in Sample.ledger_M1 eq_refl eq_refl)
    as (view & Hview & _ & Hin & _).
  exists view. split; [exact Hview|].
  apply Hin. split; [left; reflexivity|].
  intros t Ht. vm_compute in Ht. injection Ht as <-.
  split; intros b _ Hb; vm_compute in Hb; injection Hb as <-;
    vm_compute; discriminate.
Defined.

Lemma detailed_view_total_nonnegative_witness :
  Sample.processData Sample.ledger = Normal Sample.ledger_summaries /\
  In Sample.ledger_M1 Sample.ledger_summaries /\
  selectedMaterial Sample.viewing = Some Sample.ledger_M1 /\
  exists view,
    Session.detailedTransactionsView Sample.viewing = Some view /\
    (0 <=? d_totalQuantity view)%float = true.
Proof.
  assert (Sample.processData Sample.ledger = Normal Sample.ledger_summaries)
    as H1 by (vm_compute; reflexivity).
  assert (In Sample.ledger_M1 Sample.ledger_summaries)
    as H2 by (left; reflexivity).
  split; [exact H1|]. split; [exact H2|]. split; [reflexivity|].
  destruct (Session.detailedTransactionsView Sample.viewing) as [view|] eqn:E;
    [|vm_compute in E; discriminate].
  exists view. split; [reflexivity|].
  exact (detailed_view_total_nonnegative
           Sample.costCenterMap Sample.Date_getTime
           Sample.startOfDay Sample.endOfDay _ _ Sample.ledger_M1
           Sample.viewing view H1 H2 eq_refl E).
Defined.

(** The receipts of M1 over [bolts], which has no Posting Date column. *)
Lemma showDetailedView_needs_posting_dates_witness :
  Sample.processData Sample.bolts = Normal [Sample.bolts_M1] /\
  ~ In "Posting Date" (headers Sample.bolts) /\
  Sample.Date_getTime undefined = None /\
  selectedMaterial Session.undated = Some Sample.bolts_M1 /\
  transactions_of view_in Sample.bolts_M1 <> [] /\
  Session.showDetailedView Session.noon view_in Session.undated
  = Aborted (RangeError "Invalid time value")
            (set_dateTo "2024-06-01" Session.undated).
Proof.
  assert (Sample.processData Sample.bolts = Normal [Sample.bolts_M1])
    as H1 by (vm_compute; reflexivity).
  assert (In Sample.bolts_M1 [Sample.bolts_M1]) as H2 by (left; reflexivity).
  assert (~ In "Posting Date" (headers Sample.bolts)) as H3.
  { simpl. intros [H|[H|[H|[H|[H|[]]]]]]; discriminate. }
  assert (transactions_of view_in Sample.bolts_M1 <> []) as H4
    by discriminate.
  split; [exact H1|]. split; [exact H3|]. split; [reflexivity|].
  split; [reflexivity|]. split; [exact H4|].
  exact (proj1 (showDetailedView_needs_posting_dates
                  Sample.costCenterMap Sample.Date_getTime Session.toISODate
                  Session.noon view_in Sample.bolts _ Sample.bolts_M1
                  Session.undated H1 H2 H3 eq_refl eq_refl H4)).
Defined.

(** The receipts of M1 over the ledger, opened on the first of June 2024:
    the range runs from the fifth of January. *)
Lemma showDetailedView_lists_every_transaction_witness :
  selectedMaterial Session.dashboard = Some Sample.ledger_M1 /\
  transactions_of view_in Sample.ledger_M1 <> [] /\
  StronglySorted (not_before Sample.Date_getTime)
                 (transactions_of view_in Sample.ledger_M1) /\
  exists s' view,
    Session.showDetailedView Session.noon view_in Session.dashboard
    = Finished s' /\
    Session.detailedTransactionsView s' = Some view /\
    d_transactions view = inTransactions Sample.ledger_M1.
Proof.
  assert (transactions_of view_in Sample.ledger_M1 <> []) as H1
    by discriminate.
  assert (StronglySorted (not_before Sample.Date_getTime)
                         (transactions_of view_in Sample.ledger_M1)) as H2.
  { repeat first [apply SSorted_nil | apply SSorted_cons
                 | apply Forall_nil | apply Forall_cons];
      vm_compute; discriminate. }
  assert (forall tx, In tx (transactions_of view_in Sample.ledger_M1) ->
                     Sample.Date_getTime (postingDate tx) <> None) as H3.
  { intros tx Htx. simpl in Htx.
    destruct Htx as [<-|[<-|[<-|[]]]]; vm_compute; discriminate. }
  destruct (showDetailedView_lists_every_transaction
              Sample.Date_getTime Sample.startOfDay Sample.endOfDay
              Session.toISODate Session.noon view_in Session.dashboard
              Sample.ledger_M1 eq_refl H1 H2 H3)
    as (s' & view & Hs & Hview & _ & Htxs).
  - intros oldest t d Hl Ht Hd. vm_compute in Hl. injection Hl as <-.
    vm_compute in Ht. injection Ht as <-.
    vm_compute in Hd. injection Hd as <-. vm_compute. discriminate.
  - intros tx t u Htx Ht Hu. vm_compute in Hu. injection Hu as <-.
    simpl in Htx.
    destruct Htx as [<-|[<-|[<-|[]]]]; vm_compute in Ht; injection Ht as <-;
      vm_compute; discriminate.
  - split; [reflexivity|]. split; [exact H1|]. split; [exact H2|].
    exists s', view. split; [exact Hs|]. split; [exact Hview|exact Htxs].
Defined.

(** The dashboard of M1 with the movement filter on receipts. *)
Lemma itemDashboard_movement_filter_witness :
  selectedMaterial Session.receipts_only = Some Sample.ledger_M1 /\
  exists d,
    Session.itemDashboard Session.receipts_only = Returned (Some d) /\
    Permutation (allTransactions d)
                (map (tagged view_in) (inTransactions Sample.ledger_M1)).
Proof.
  split; [reflexivity|].
  destruct (itemDashboard_movement_filter
              Sample.Date_getTime Session.format_medium
              Session.receipts_only Sample.ledger_M1
              eq_refl eq_refl eq_refl eq_refl eq_refl)
    as (d & Hd & _ & Hp).
  exists d. split; [exact Hd|exact Hp].
Defined.

(** Jan in the date filter, over transactions without a posting date. *)
Lemma itemDashboard_date_filter_needs_dates_witness :
  selectedMaterial Session.filtered_by_date = Some Sample.bolts_M1 /\
  f_date (dashboardFilters Session.filtered_by_date) <> "" /\
  Sample.Date_getTime undefined = None /\
  Session.itemDashboard Session.filtered_by_date
  = Raised (RangeError "Invalid time value").
Proof.
  assert (f_date (dashboardFilters Session.filtered_by_date) <> "") as H1
    by discriminate.
  split; [reflexivity|]. split; [exact H1|]. split; [reflexivity|].
  apply (itemDashboard_date_filter_needs_dates
           Sample.Date_getTime Session.format_medium
           Session.filtered_by_date Sample.bolts_M1
           (tagged view_in (Sample.entry undefined 10 "" "")) eq_refl H1).
  - left. reflexivity.
  - intros v H. discriminate H.
  - reflexivity.
Defined.

(** The statistics after the ledger is loaded: two items. *)
Lemma inventoryStats_after_load_witness :
  Sample.processData Sample.ledger = Normal Sample.ledger_summaries /\
  totalItems (inventoryStats Sample.loaded) = 2 /\
  (0 <=? totalIssued (inventoryStats Sample.loaded))%float = true.
Proof.
  assert (Sample.processData Sample.ledger = Normal Sample.ledger_summaries)
    as H1 by (vm_compute; reflexivity).
  destruct (inventoryStats_after_load
              Sample.costCenterMap Sample.Date_getTime 1717200000000
              Sample.ledger _ initial_state H1)
    as (Hn & Hi & _).
  split; [exact H1|]. split; [exact Hn|exact Hi].
Defined.


(** The text He said, then hi between double quotes, with a comma after
    the field. *)
Lemma quoted_field_reads_back_witness :
  unquoted_start ",x" = true /\
  read_quoted (quoted (JSString.double_quotes Sample.he_said_hi) ++ ",x")%string
  = Some (Sample.he_said_hi, ",x").
Proof.
  destruct (quoted_field_reads_back (VString Sample.he_said_hi) ",x" eq_refl)
    as [Hs _].
  split; [reflexivity|]. exact (Hs _ eq_refl).
Defined.

(** Largest first: A, C, and B before D, which have the same balance. *)
Lemma sortedInventory_by_balance_witness :
  baseFilteredInventory Session.by_balance
  = Normal (inventoryData Session.by_balance) /\
  column (sortConfig Session.by_balance) = col_balance /\
  (forall item, In item (inventoryData Session.by_balance) ->
                isFinite (balance item) = true) /\
  sortedInventory Sample.localeCompare Session.by_balance
  = Normal [Sample.stock "A" 11; Sample.stock "C" 10; Sample.stock "B" 5;
            Sample.stock "D" 5] /\
  StronglySorted
    (fun a b => (balance b <=? balance a)%float = true)
    [Sample.stock "A" 11; Sample.stock "C" 10; Sample.stock "B" 5;
     Sample.stock "D" 5].
Proof.
  assert (forall item, In item (inventoryData Session.by_balance) ->
                       isFinite (balance item) = true) as H.
  { intros item Hin. simpl in Hin.
    destruct Hin as [<-|[<-|[<-|[<-|[]]]]]; reflexivity. }
  assert (sortedInventory Sample.localeCompare Session.by_balance
          = Normal [Sample.stock "A" 11; Sample.stock "C" 10;
                    Sample.stock "B" 5; Sample.stock "D" 5]) as Hs
    by (vm_compute; reflexivity).
  split; [reflexivity|]. split; [reflexivity|]. split; [exact H|].
  split; [exact Hs|].
  exact (proj1 (sortedInventory_by_balance
                  Sample.localeCompare Session.by_balance _ _
                  eq_refl Hs eq_refl H)).
Defined.

(** The dashboard of M1 over the ledger, with no filter on. *)
Lemma itemDashboard_newest_first_witness :
  selectedMaterial Session.dashboard = Some Sample.ledger_M1 /\
  (forall tx,
     In tx (inTransactions Sample.ledger_M1 ++ outTransactions Sample.ledger_M1) ->
     Sample.Date_getTime (postingDate tx) <> None) /\
  exists d,
    Session.itemDashboard Session.dashboard = Returned (Some d) /\
    StronglySorted (fun a b => not_before Sample.Date_getTime (base a) (base b))
                   (allTransactions d).
Proof.
  assert (forall tx,
            In tx (inTransactions Sample.ledger_M1 ++
                   outTransactions Sample.ledger_M1) ->
            Sample.Date_getTime (postingDate tx) <> None) as H.
  { intros tx Htx. simpl in Htx.
    destruct Htx as [<-|[<-|[<-|[<-|[]]]]]; vm_compute; discriminate. }
  split; [reflexivity|]. split; [exact H|].
  destruct (Session.itemDashboard Session.dashboard) as [[d|]|t] eqn:E;
    try (vm_compute in E; discriminate).
  exists d. split; [reflexivity|].
  exact (proj1 (itemDashboard_newest_first
                  Sample.Date_getTime Session.format_medium
                  Session.dashboard Sample.ledger_M1 d eq_refl H E)).
Defined.
